(** * MemProcFS [vmm/pdb.c]: the PDB registry, the lazy loader, the query
    wrappers and the type-display worker, as a shallow embedding.

    Conventions.
    - C integers are [Z]; every arithmetic result is reduced to the width of
      the C type it is stored in ([qword], [dword], [word], [byte]).
    - Objects allocated with [Ob_Alloc] live in a heap ([list PDB_ENTRY]); a
      pointer is an index into it.  Both indices of the registry hold
      pointers, so an entry mutated through one index is seen through the
      other.  Reference counts are not modelled: entries are released only by
      [PDB_Close].
    - Calls that leave pdb.c (dbghelp, pe.c, util.c, the allocator) take their
      answers from a record of oracles.  Every such call is appended to the
      [trace] of the world, and an oracle sees the trace of the calls made so
      far, so its answers may change from one call to the next. *)

From Stdlib Require Import ZArith Lia Bool String Ascii List DecimalString Sorted.
From stdpp Require Import base list.
Import ListNotations.

Local Open Scope Z_scope.

(** ** Machine words *)

Definition byte (x : Z) : Z := x mod 2 ^ 8.
Definition word (x : Z) : Z := x mod 2 ^ 16.
Definition dword (x : Z) : Z := x mod 2 ^ 32.
Definition qword (x : Z) : Z := x mod 2 ^ 64.

(** The value of a sequence of bytes, little endian. *)
Fixpoint le_decode (pb : list Z) : Z :=
  match pb with
  | [] => 0
  | b :: pb' => Z.lor (byte b) (Z.shiftl (le_decode pb') 8)
  end.

(** [*(PQWORD)(pb + off)].  A byte past the end of the list reads as zero. *)
Definition read_qword (pb : list Z) (off : nat) : Z := le_decode (firstn 8 (skipn off pb)).

(** The [cb] low bytes of [v], little endian. *)
Fixpoint le_encode (cb : nat) (v : Z) : list Z :=
  match cb with
  | O => []
  | S cb' => v mod 2 ^ 8 :: le_encode cb' (v / 2 ^ 8)
  end.

(** [(q >> 13) | (q << 51)] on a QWORD, [(d >> 13) | (d << 19)] on a DWORD. *)
Definition ror13_qword (q : Z) : Z := Z.lor (Z.shiftr q 13) (qword (Z.shiftl q 51)).
Definition ror13_dword (d : Z) : Z := Z.lor (Z.shiftr d 13) (dword (Z.shiftl d 19)).

(** ** Data model *)

(** [PDB_ENTRY], without the object header. *)
Record PDB_ENTRY := mkPDB_ENTRY {
  qwHash : Z;
  vaModuleBase : Z;
  szModuleName : option string;
  szName : option string;
  pbGUID : list Z;
  dwAge : Z;
  cbModuleSize : Z;
  (* load data below *)
  fLoadFailed : bool;
  szPath : option string;
  qwLoadAddress : Z
}.

(** Modelled from the spec: the ObMap container (ob.h, ob_map.c) is not under
    src/.  The spec describes the two indices as hash indices in which a
    registration under a key that is already present is dropped (a no-op) and
    the first entry stays (pdb.c says the same of [PDB_GetHandleFromModuleName]:
    "the 1st module to be added is returned"), and pdb.c walks one of them by
    position ([ObMap_GetByIndex]); the model is the list of (key, pointer)
    pairs in insertion order. *)
Definition OB_MAP := list (Z * nat).

Definition ObMap_Size (pm : OB_MAP) : Z := Z.of_nat (length pm).

Fixpoint ObMap_GetByKey (pm : OB_MAP) (qwKey : Z) : option nat :=
  match pm with
  | [] => None
  | (k, p) :: pm' => if k =? qwKey then Some p else ObMap_GetByKey pm' qwKey
  end.

Definition ObMap_ExistsKey (pm : OB_MAP) (qwKey : Z) : bool :=
  match ObMap_GetByKey pm qwKey with Some _ => true | None => false end.

Definition ObMap_GetByIndex (pm : OB_MAP) (i : nat) : option nat :=
  snd <$> pm !! i.

Definition ObMap_Push (pm : OB_MAP) (qwKey : Z) (pvObject : nat) : OB_MAP :=
  if ObMap_ExistsKey pm qwKey then pm else pm ++ [(qwKey, pvObject)].

(** [VMMWIN_PDB_CONTEXT]: the fields the registry and the loader use. *)
Record VMMWIN_PDB_CONTEXT := mkCTX {
  fDisabled : bool;
  pmPdbByHash : OB_MAP;
  pmPdbByModule : OB_MAP;
  qwLoadAddressNext : Z
}.

(** [SYMBOL_INFO]: the fields pdb.c reads. *)
Record SYMBOL_INFO := mkSYMBOL_INFO {
  si_Index : Z;
  si_Size : Z;
  si_ModBase : Z;
  si_Address : Z
}.

(** [PE_CODEVIEW]: the record [PE_GetCodeViewInfo] fills. *)
Record PE_CODEVIEW := mkPE_CODEVIEW {
  cv_Guid : list Z;
  cv_Age : Z;
  cv_PdbFileName : string
}.

(** The calls that leave pdb.c, as the trace records them: the allocators
    and [Util_StrDupA], the requests to dbghelp.dll, the image parser of
    pe.c, the memory reads and the process lookup of vmm.c, and
    [FreeLibrary].  These are the outside calls of this development.  Not
    recorded are the helpers that only compute from their arguments
    ([Util_HashStringA], [Util_PathFileNameFix_Registry] and the string
    routines of the C runtime), the object maps, which the model holds
    itself, the lock and the start event of the bootstrap, the releases
    ([LocalFree], [Ob_DECREF]) and the messages printed. *)
Inductive EVENT :=
| EvOb_Alloc
| EvLocalAlloc (cb : Z)
| EvUtil_StrDupA (sz : string)
| EvSymFindFileInPath (FileName : option string) (id : list Z) (two : Z)
| EvSymLoadModuleEx (ImageName : string) (BaseOfDll DllSize : Z)
| EvSymEnumSymbols (BaseOfDll : Z) (Mask : string)
| EvSymGetTypeFromName (BaseOfDll : Z) (Name : string)
| EvSymEnumTypesByName (BaseOfDll : Z) (mask : string)
| EvSymGetTypeInfo (ModBase TypeId : Z) (GetType : string)
| EvPE_GetSize (pProcess vaModuleBase : Z)
| EvPE_GetCodeViewInfo (pProcess vaModuleBase : Z)
| EvSymFromAddr (Address : Z)
| EvSymCleanup
| EvFreeLibrary (szModule : string)
| EvVmmRead (pProcess va cb : Z)
| EvVmmReadEx (pProcess va cb : Z)
| EvVmmProcessGet (dwPID : Z).

(** The answers of the code outside pdb.c.  Each oracle receives the trace
    of the calls made before it. *)
Record EXTERNALS := mkEXTERNALS {
  (* util.c *)
  Util_HashStringA : string -> Z;
  Util_PathFileNameFix_Registry : string -> list Z;
  Util_StrDupA : list EVENT -> string -> option string;
  (* ob.c, the C runtime *)
  Ob_Alloc : list EVENT -> bool;
  LocalAlloc : list EVENT -> Z -> bool;
  (* dbghelp.dll *)
  SymFindFileInPath : list EVENT -> option string -> list Z -> Z -> option string;
  SymLoadModuleEx : list EVENT -> string -> Z -> Z -> Z;
  SymEnumSymbols : list EVENT -> Z -> string -> list SYMBOL_INFO * bool;
  SymGetTypeFromName : list EVENT -> Z -> string -> bool * SYMBOL_INFO;
  SymEnumTypesByName : list EVENT -> Z -> string -> list SYMBOL_INFO * bool;
  SymGetTypeInfo_CHILDRENCOUNT : list EVENT -> Z -> Z -> option Z;
  SymGetTypeInfo_FINDCHILDREN : list EVENT -> Z -> Z -> Z -> option (list Z);
  SymGetTypeInfo_SYMNAME : list EVENT -> Z -> Z -> option string;
  SymGetTypeInfo_OFFSET : list EVENT -> Z -> Z -> option Z;
  (* what a failing TI_GET_OFFSET request leaves in the DWORD it was handed,
     given the content before the call *)
  SymGetTypeInfo_OFFSET_left : list EVENT -> Z -> Z -> Z -> Z;
  (* pe.c *)
  PE_GetSize : list EVENT -> Z -> Z -> Z;
  PE_GetCodeViewInfo : list EVENT -> Z -> Z -> option PE_CODEVIEW;
  (* pdb.h *)
  PDB_HANDLE_KERNEL : Z;
  (* the value an uninitialised local holds when it is read *)
  indeterminate : list EVENT -> Z
}.

(** The state pdb.c works on: [ctxVmm->pPdbContext], [ctxVmm->f32], the
    heap of entries and the trace of outside calls. *)
Record WORLD := mkWORLD {
  pPdbContext : option VMMWIN_PDB_CONTEXT;
  f32 : bool;
  heap : list PDB_ENTRY;
  trace : list EVENT
}.

Definition set_ctx (w : WORLD) (ctx : VMMWIN_PDB_CONTEXT) : WORLD :=
  mkWORLD (Some ctx) (f32 w) (heap w) (trace w).

Definition set_entry (w : WORLD) (p : nat) (e : PDB_ENTRY) : WORLD :=
  mkWORLD (pPdbContext w) (f32 w) (<[p := e]> (heap w)) (trace w).

Definition emit (w : WORLD) (ev : EVENT) : WORLD :=
  mkWORLD (pPdbContext w) (f32 w) (heap w) (trace w ++ [ev]).

Definition VMMWIN_PDB_LOAD_ADDRESS_STEP : Z := 0x10000000.
Definition VMMWIN_PDB_LOAD_ADDRESS_BASE : Z := 0x0000511f00000000.

Section Registry.

Variable X : EXTERNALS.

(** ** Hashing *)

Definition PDB_HashPdb (szPdbName : string) (pbPdbGUID : list Z) (dwPdbAge : Z) : Z :=
  let qwHash := qword (Util_HashStringA X szPdbName) in
  let qwHash := qword (dwPdbAge + ror13_qword qwHash) in
  let qwHash := qword (read_qword pbPdbGUID 0 + ror13_qword qwHash) in
  let qwHash := qword (read_qword pbPdbGUID 8 + ror13_qword qwHash) in
  qwHash.

Definition PDB_HashModuleName (szModuleName : string) : Z :=
  fold_left (fun dwHash wch => dword (ror13_dword dwHash + wch))
            (Util_PathFileNameFix_Registry X szModuleName) 0.

(** ** Registration *)

Definition PDB_AddModuleEntry (w : WORLD) (va cb : Z)
    (szModule szPdbName : string) (pbPdbGUID : list Z) (dwPdbAge : Z) : WORLD * Z :=
  match pPdbContext w with
  | None => (w, 0)
  | Some ctx =>
    let qwPdbHash := PDB_HashPdb szPdbName pbPdbGUID dwPdbAge in
    if negb (ObMap_ExistsKey (pmPdbByHash ctx) qwPdbHash) then
      let ok := Ob_Alloc X (trace w) in
      let w := emit w EvOb_Alloc in
      if negb ok then (w, 0)
      else
        let pObPdbEntry := length (heap w) in
        let name := Util_StrDupA X (trace w) szPdbName in
        let w := emit w (EvUtil_StrDupA szPdbName) in
        let mname := Util_StrDupA X (trace w) szModule in
        let w := emit w (EvUtil_StrDupA szModule) in
        let e := mkPDB_ENTRY qwPdbHash va mname name (firstn 16 pbPdbGUID)
                             dwPdbAge cb false None 0 in
        let ctx' := mkCTX (fDisabled ctx)
                          (ObMap_Push (pmPdbByHash ctx) qwPdbHash pObPdbEntry)
                          (ObMap_Push (pmPdbByModule ctx) (PDB_HashModuleName szModule) pObPdbEntry)
                          (qwLoadAddressNext ctx) in
        (mkWORLD (Some ctx') (f32 w) (heap w ++ [e]) (trace w), qwPdbHash)
    else (w, qwPdbHash)
  end.

(** ** Lookup by module name *)

(** [if(!szModuleName || !strcmp("nt", szModuleName)) szModuleName = "ntoskrnl";]
    A NULL pointer is [None]. *)
Definition PDB_CanonicalModuleName (szModule : option string) : string :=
  match szModule with
  | None => "ntoskrnl"%string
  | Some s => if String.eqb "nt"%string s then "ntoskrnl"%string else s
  end.

Definition PDB_GetHandleFromModuleName (w : WORLD) (szModule : option string) : Z :=
  match pPdbContext w with
  | None => 0
  | Some ctx =>
    if fDisabled ctx then 0
    else
      let szModule := PDB_CanonicalModuleName szModule in
      let dwHashModule := PDB_HashModuleName szModule in
      match ObMap_GetByKey (pmPdbByModule ctx) dwHashModule with
      | None => 0
      | Some p =>
        match heap w !! p with
        | None => 0
        | Some e => if fLoadFailed e then 0 else qwHash e
        end
      end
  end.

(** ** The lazy loader *)

(** Must be called with [ctx->Lock] held.  A pointer outside the heap does
    not occur (the callers pass an entry they took from an index). *)
Definition PDB_LoadEnsureEx (w : WORLD) (pPdbEntry : nat) : WORLD * bool :=
  match pPdbContext w, heap w !! pPdbEntry with
  | Some ctx, Some e =>
    if fLoadFailed e then (w, false)
    else if negb (qwLoadAddress e =? 0) then (w, true)
    else
      let found := SymFindFileInPath X (trace w) (szName e) (pbGUID e) (dwAge e) in
      let w := emit w (EvSymFindFileInPath (szName e) (pbGUID e) (dwAge e)) in
      match found with
      | None =>
        (* fail: *)
        (set_entry w pPdbEntry
           (mkPDB_ENTRY (qwHash e) (vaModuleBase e) (szModuleName e) (szName e) (pbGUID e)
                        (dwAge e) (cbModuleSize e) true (szPath e) (qwLoadAddress e)), false)
      | Some szPdbPath =>
        let path := Util_StrDupA X (trace w) szPdbPath in
        let w := emit w (EvUtil_StrDupA szPdbPath) in
        let la := qword (SymLoadModuleEx X (trace w) szPdbPath (qwLoadAddressNext ctx) (cbModuleSize e)) in
        let w := emit w (EvSymLoadModuleEx szPdbPath (qwLoadAddressNext ctx) (cbModuleSize e)) in
        let w := set_ctx w (mkCTX (fDisabled ctx) (pmPdbByHash ctx) (pmPdbByModule ctx)
                                  (qword (qwLoadAddressNext ctx + VMMWIN_PDB_LOAD_ADDRESS_STEP))) in
        if match path with None => true | Some _ => false end || (la =? 0) then
          (* fail: *)
          (set_entry w pPdbEntry
             (mkPDB_ENTRY (qwHash e) (vaModuleBase e) (szModuleName e) (szName e) (pbGUID e)
                          (dwAge e) (cbModuleSize e) true path la), false)
        else
          (set_entry w pPdbEntry
             (mkPDB_ENTRY (qwHash e) (vaModuleBase e) (szModuleName e) (szName e) (pbGUID e)
                          (dwAge e) (cbModuleSize e) false path la), true)
      end
  | _, _ => (w, false)
  end.

(** The prologue every handle-taking entry point starts with:
    [if(!ctx || ctx->fDisabled || !hPDB) return FALSE;], the resolution of
    [PDB_HANDLE_KERNEL], and [ObMap_GetByKey(ctx->pmPdbByHash, hPDB)]. *)
Definition PDB_EntryFromHandle (w : WORLD) (hPDB : Z) : option nat :=
  match pPdbContext w with
  | None => None
  | Some ctx =>
    if fDisabled ctx || (hPDB =? 0) then None
    else
      let hPDB := if hPDB =? PDB_HANDLE_KERNEL X
                  then PDB_GetHandleFromModuleName w (Some "ntoskrnl"%string)
                  else hPDB in
      ObMap_GetByKey (pmPdbByHash ctx) hPDB
  end.

Definition PDB_LoadEnsure (w : WORLD) (hPDB : Z) : WORLD * bool :=
  match PDB_EntryFromHandle w hPDB with
  | None => (w, false)
  | Some pObPdbEntry => PDB_LoadEnsureEx w pObPdbEntry
  end.

(** ** Lookup by module address *)

(** [for(i = 0, iMax = ObMap_Size(pm); i < iMax; i++)]: the fingerprint of the
    first entry, in index order, that is bound to [va].  [n] counts the
    iterations left. *)
Fixpoint find_module_base (hp : list PDB_ENTRY) (pm : OB_MAP) (va : Z) (n i : nat)
    : option Z :=
  match n with
  | O => None
  | S n' =>
    match ObMap_GetByIndex pm i with
    | Some p =>
      match hp !! p with
      | Some e => if va =? vaModuleBase e then Some (qwHash e)
                  else find_module_base hp pm va n' (S i)
      | None => find_module_base hp pm va n' (S i)
      end
    | None => find_module_base hp pm va n' (S i)
    end
  end.

(** [if((szPdbText = strstr(sz, needle))) szPdbText[0] = 0;] *)
Fixpoint strstr_cut (needle sz : string) : string :=
  if String.prefix needle sz then EmptyString
  else match sz with
       | EmptyString => EmptyString
       | String c sz' => String c (strstr_cut needle sz')
       end.

Definition PDB_GetHandleFromModuleAddress (w : WORLD) (pProcess va : Z) : WORLD * Z :=
  match pPdbContext w with
  | None => (w, 0)
  | Some ctx =>
    (* find: module base address already in .pdb database. *)
    match find_module_base (heap w) (pmPdbByHash ctx) va
            (Z.to_nat (ObMap_Size (pmPdbByHash ctx))) 0 with
    | Some qwPdbHash => (w, qwPdbHash)
    | None =>
      (* retrieve codeview and add to .pdb database. *)
      let cbModuleSize := qword (PE_GetSize X (trace w) pProcess va) in
      let w := emit w (EvPE_GetSize pProcess va) in
      if (cbModuleSize =? 0) || (0x04000000 <? cbModuleSize) then (w, 0)
      else
        let cv := PE_GetCodeViewInfo X (trace w) pProcess va in
        let w := emit w (EvPE_GetCodeViewInfo pProcess va) in
        match cv with
        | None => (w, 0)
        | Some CodeView =>
          let szModule := strstr_cut ".pdb"%string (cv_PdbFileName CodeView) in
          PDB_AddModuleEntry w va (dword cbModuleSize) szModule
                             (cv_PdbFileName CodeView) (cv_Guid CodeView) (cv_Age CodeView)
        end
    end
  end.

(** ** Symbol offsets *)

(** dbghelp hands the matching symbols to the callback one after the other
    and stops at the first call that returns FALSE. *)
Fixpoint enumerate {A : Type} (callback : SYMBOL_INFO -> A -> A * bool)
    (syms : list SYMBOL_INFO) (ctxUser : A) : A :=
  match syms with
  | [] => ctxUser
  | s :: syms' =>
    let '(ctxUser', fContinue) := callback s ctxUser in
    if fContinue then enumerate callback syms' ctxUser' else ctxUser'
  end.

Definition PDB_GetSymbolOffset_Callback (pSymInfo : SYMBOL_INFO) (dwSymbolOffset : Z)
    : Z * bool :=
  if qword (si_Address pSymInfo - si_ModBase pSymInfo) <? 0x10000000
  then (dword (qword (si_Address pSymInfo - si_ModBase pSymInfo)), false)
  else (dwSymbolOffset, false).

(** Returns the world, the BOOL and the content of [*pdwSymbolOffset]. *)
Definition PDB_GetSymbolOffset (w : WORLD) (hPDB : Z) (szSymbolName : string)
    : WORLD * bool * Z :=
  let dwSymbolOffset := 0 in
  match PDB_EntryFromHandle w hPDB with
  | None => (w, false, dwSymbolOffset)
  | Some pObPdbEntry =>
    let '(w, fLoaded) := PDB_LoadEnsureEx w pObPdbEntry in
    if negb fLoaded then (w, false, dwSymbolOffset)
    else
      let la := match heap w !! pObPdbEntry with Some e => qwLoadAddress e | None => 0 end in
      if f32 w then
        (* 32-bit: use slower algo since it's working ... *)
        let '(syms, ok) := SymEnumSymbols X (trace w) la szSymbolName in
        let w := emit w (EvSymEnumSymbols la szSymbolName) in
        let dwSymbolOffset := enumerate PDB_GetSymbolOffset_Callback syms dwSymbolOffset in
        if negb ok then (w, false, dwSymbolOffset)
        else if dwSymbolOffset =? 0 then (w, false, dwSymbolOffset)
        else (w, true, dwSymbolOffset)
      else
        (* 64-bit: use faster algo *)
        let '(ok, SymbolInfo) := SymGetTypeFromName X (trace w) la szSymbolName in
        let w := emit w (EvSymGetTypeFromName la szSymbolName) in
        if negb ok then (w, false, dwSymbolOffset)
        else (w, true, dword (qword (si_Address SymbolInfo - si_ModBase SymbolInfo)))
  end.

(** ** Type sizes and child offsets *)

(** [dwTypeSize0] is the content of [*pdwTypeSize] before the call. *)
Definition PDB_GetTypeSize (w : WORLD) (hPDB : Z) (szTypeName : string) (dwTypeSize0 : Z)
    : WORLD * bool * Z :=
  match PDB_EntryFromHandle w hPDB with
  | None => (w, false, dwTypeSize0)
  | Some pObPdbEntry =>
    let '(w, fLoaded) := PDB_LoadEnsureEx w pObPdbEntry in
    if negb fLoaded then (w, false, dwTypeSize0)
    else
      let la := match heap w !! pObPdbEntry with Some e => qwLoadAddress e | None => 0 end in
      let '(ok, SymbolInfo) := SymGetTypeFromName X (trace w) la szTypeName in
      let w := emit w (EvSymGetTypeFromName la szTypeName) in
      (w, ok && negb (dword (si_Size SymbolInfo) =? 0), dword (si_Size SymbolInfo))
  end.

(** [pwTypeSize] is [None] for a NULL pointer, else the content of the WORD
    it points to. *)
Definition PDB_GetTypeSizeShort (w : WORLD) (hPDB : Z) (szTypeName : string)
    (pwTypeSize : option Z) : WORLD * bool * option Z :=
  let dwTypeSize := indeterminate X (trace w) in
  let '(w, fResult, dwTypeSize) := PDB_GetTypeSize w hPDB szTypeName dwTypeSize in
  if negb fResult || (0xffff <? dwTypeSize) then (w, false, pwTypeSize)
  else (w, true, (fun _ => word dwTypeSize) <$> pwTypeSize).

Definition PDB_GetTypeChildOffset_Callback (pSymInfo : SYMBOL_INFO) (dwTypeId : Z)
    : Z * bool :=
  (dword (si_Index pSymInfo), false).

(** The loop over [pFindChildren->ChildId]; [n] counts the iterations left.
    The TI_GET_OFFSET request is handed the caller's [pdwTypeOffset]: when
    it fails the DWORD holds what the backend left in it. *)
Fixpoint PDB_GetTypeChildOffset_Loop (n : nat) (iTypeChild : Z) (w : WORLD) (la : Z)
    (ChildId : list Z) (wszTypeChildName : string) (dwTypeOffset : Z) : WORLD * bool * Z :=
  match n with
  | O => (w, false, dwTypeOffset)
  | S n' =>
    let id := nth (Z.to_nat iTypeChild) ChildId 0 in
    let name := SymGetTypeInfo_SYMNAME X (trace w) la id in
    let w := emit w (EvSymGetTypeInfo la id "TI_GET_SYMNAME"%string) in
    match name with
    | None => PDB_GetTypeChildOffset_Loop n' (iTypeChild + 1) w la ChildId wszTypeChildName dwTypeOffset
    | Some wszTypeChildSymName =>
      if String.eqb wszTypeChildName wszTypeChildSymName then
        let off := SymGetTypeInfo_OFFSET X (trace w) la id in
        let left := dword (SymGetTypeInfo_OFFSET_left X (trace w) la id dwTypeOffset) in
        let w := emit w (EvSymGetTypeInfo la id "TI_GET_OFFSET"%string) in
        match off with
        | Some o => (w, true, dword o)
        | None => PDB_GetTypeChildOffset_Loop n' (iTypeChild + 1) w la ChildId wszTypeChildName left
        end
      else PDB_GetTypeChildOffset_Loop n' (iTypeChild + 1) w la ChildId wszTypeChildName dwTypeOffset
    end
  end.

(** [dwTypeOffset0] is the content of [*pdwTypeOffset] before the call. *)
Definition PDB_GetTypeChildOffset (w : WORLD) (hPDB : Z) (szTypeName wszTypeChildName : string)
    (dwTypeOffset0 : Z) : WORLD * bool * Z :=
  match PDB_EntryFromHandle w hPDB with
  | None => (w, false, dwTypeOffset0)
  | Some pObPdbEntry =>
    let '(w, fLoaded) := PDB_LoadEnsureEx w pObPdbEntry in
    if negb fLoaded then (w, false, dwTypeOffset0)
    else
      let la := match heap w !! pObPdbEntry with Some e => qwLoadAddress e | None => 0 end in
      let dwTypeId := dword (indeterminate X (trace w)) in
      let '(types, ok) := SymEnumTypesByName X (trace w) la szTypeName in
      let w := emit w (EvSymEnumTypesByName la szTypeName) in
      let dwTypeId := enumerate PDB_GetTypeChildOffset_Callback types dwTypeId in
      if negb ok || (dwTypeId =? 0) then (w, false, dwTypeOffset0)
      else
        let cc := SymGetTypeInfo_CHILDRENCOUNT X (trace w) la dwTypeId in
        let w := emit w (EvSymGetTypeInfo la dwTypeId "TI_GET_CHILDRENCOUNT"%string) in
        match cc with
        | None => (w, false, dwTypeOffset0)
        | Some c =>
          let cTypeChildren := dword c in
          if cTypeChildren =? 0 then (w, false, dwTypeOffset0)
          else
            let ok := LocalAlloc X (trace w) (12 + cTypeChildren * 4) in
            let w := emit w (EvLocalAlloc (12 + cTypeChildren * 4)) in
            if negb ok then (w, false, dwTypeOffset0)
            else
              let fc := SymGetTypeInfo_FINDCHILDREN X (trace w) la dwTypeId cTypeChildren in
              let w := emit w (EvSymGetTypeInfo la dwTypeId "TI_FINDCHILDREN"%string) in
              match fc with
              | None => (w, false, dwTypeOffset0)
              | Some ChildId =>
                PDB_GetTypeChildOffset_Loop (Z.to_nat cTypeChildren) 0 w la ChildId
                                            wszTypeChildName dwTypeOffset0
              end
        end
  end.

Definition PDB_GetTypeChildOffsetShort (w : WORLD) (hPDB : Z)
    (szTypeName wszTypeChildName : string) (pwTypeOffset : option Z)
    : WORLD * bool * option Z :=
  let dwTypeOffset := indeterminate X (trace w) in
  let '(w, fResult, dwTypeOffset) :=
    PDB_GetTypeChildOffset w hPDB szTypeName wszTypeChildName dwTypeOffset in
  if negb fResult || (0xffff <? dwTypeOffset) then (w, false, pwTypeOffset)
  else (w, true, (fun _ => word dwTypeOffset) <$> pwTypeOffset).

End Registry.

(** ** The type-display worker *)

(** [enum SymTagEnum] of dbghelp.h, the values pdb.c compares with. *)
Definition SymTagUDT : Z := 11.
Definition SymTagFunctionType : Z := 13.
Definition SymTagPointerType : Z := 14.
Definition SymTagArrayType : Z := 15.
Definition SymTagBaseType : Z := 16.

Definition MAX_PATH : Z := 260.

Record PDB_DT_INFO := mkPDB_DT_INFO {
  wszName : option string;
  wszTypeName : option string;
  qwBitFieldLength : Z;
  qwLength : Z;
  dwTag : Z;
  dwPtrTag : Z;
  dwOffset : Z;
  dwTypeIndex : Z;
  dwBaseType : Z;
  dwArrayCount : Z;
  dwChildCount : Z;
  dwPtrTypeIndex : Z;
  dwArrayTypeIndex : Z
}.

(** What the first request ([_INFO1_ReqKinds]) writes for one child. *)
Record DT_REQ1 := mkDT_REQ1 {
  r1_SYMNAME : option string;
  r1_LENGTH : Z;
  r1_OFFSET : Z;
  r1_TYPEID : Z
}.

(** What the second request ([_INFO2_ReqKinds]) writes for one type id. *)
Record DT_REQ2 := mkDT_REQ2 {
  r2_SYMNAME : option string;
  r2_LENGTH : Z;
  r2_SYMTAG : Z;
  r2_COUNT : Z;
  r2_CHILDRENCOUNT : Z;
  r2_TYPE : Z;
  r2_ARRAYINDEXTYPEID : Z;
  r2_BASETYPE : Z
}.

(** An entry the second request did not reach keeps the zeroes of
    [LocalAlloc(LMEM_ZEROINIT, ..)]. *)
Definition DT_REQ2_zero : DT_REQ2 := mkDT_REQ2 None 0 0 0 0 0 0 0.

Definition DT_INFO_of (a : DT_REQ1) (b : DT_REQ2) : PDB_DT_INFO :=
  mkPDB_DT_INFO (r1_SYMNAME a) (r2_SYMNAME b) (r1_LENGTH a) (r2_LENGTH b) (r2_SYMTAG b) 0
                (r1_OFFSET a) (r1_TYPEID a) (r2_BASETYPE b) (r2_COUNT b) (r2_CHILDRENCOUNT b)
                (r2_TYPE b) (r2_ARRAYINDEXTYPEID b).

Fixpoint DT_merge (l1 : list DT_REQ1) (l2 : list DT_REQ2) : list PDB_DT_INFO :=
  match l1 with
  | [] => []
  | a :: l1' => DT_INFO_of a (hd DT_REQ2_zero l2) :: DT_merge l1' (tl l2)
  end.

(** The loaded database, the captured instance and the target memory, as the
    worker sees them.  The lock is held while a type is rendered, so the
    answers of the database do not depend on the order of the requests; the
    allocator sees the invocations made so far. *)
Record DT_EXTERNALS := mkDT_EXTERNALS {
  DT_LocalAlloc : list (Z * Z) -> Z -> bool;
  SymGetTypeInfoEx_CHILDREN : Z -> Z -> option (list DT_REQ1);
  SymGetTypeInfoEx_TYPES : list Z -> option (list DT_REQ2);
  TI_GET_SYMNAME : Z -> option string;
  TI_GET_BASETYPE : Z -> option Z;
  TI_GET_SYMTAG : Z -> option Z;
  MEM : Z -> Z;
  DT_f32 : bool;
  VMM_KADDR : Z -> bool;
  VmmRead : Z -> Z -> option (list Z)
}.

(** The format the decoded value is printed with. *)
Inductive DT_FORMAT := FmtX | Fmt02X | Fmt04X | Fmt08X | Fmt016X.

(** One [_snwprintf_s] into [ctxDT->wszln]: the format and its arguments.
    The C runtime's formatting is outside pdb.c; a line is kept as the
    sequence of these calls, and is taken to fit the MAX_PATH buffer. *)
Inductive DT_PIECE :=
| PcField (iLevel dwOffset : Z) (wszName : option string)   (* "%*s  +0x%03x %-*s : " *)
| PcArray (dwArrayCount : Z)                                 (* "[%i] " *)
| PcPtr                                                      (* "Ptr: " *)
| PcUdt (wszTypeName : option string)                        (* "%s" *)
| PcType (wszName : string) (wszBuffer : string)             (* "%s%s" *)
| PcValue (wszFormat : DT_FORMAT) (v : Z)                    (* "%*s : 0x%0..llX" *)
| PcString (wszBuffer : list Z).                             (* " - %s" *)

Definition DT_LINE := list DT_PIECE.

(** [PDB_DT_CONTEXT].  [szu8] lists the lines committed with
    [Util_snwprintf_u8] (util.c; its 64 KiB bound is not modelled).
    [calls] is a ghost field: the [iLevel] and [dwTypeIndex] of every
    invocation of the worker so far. *)
Record PDB_DT_CONTEXT := mkPDB_DT_CONTEXT {
  szu8 : list DT_LINE;
  iLevelMax : Z;
  calls : list (Z * Z)
}.

Definition DT_commit (ctxDT : PDB_DT_CONTEXT) (wszln : DT_LINE) : PDB_DT_CONTEXT :=
  mkPDB_DT_CONTEXT (szu8 ctxDT ++ [wszln]) (iLevelMax ctxDT) (calls ctxDT).

Definition DT_enter (ctxDT : PDB_DT_CONTEXT) (iLevel dwParentTypeIndex : Z) : PDB_DT_CONTEXT :=
  mkPDB_DT_CONTEXT (szu8 ctxDT) (iLevelMax ctxDT) (calls ctxDT ++ [(iLevel, dwParentTypeIndex)]).

Definition PDB_DisplayTypeNt_GetTypeName (pDT : PDB_DT_INFO) (cbType : Z) : string :=
  match wszTypeName pDT with
  | Some s => s
  | None =>
    let b := dwBaseType pDT in
    if b =? 1 then "void"%string
    else if b =? 2 then "char"%string
    else if b =? 3 then "wchar"%string
    else if b =? 8 then "float"%string
    else if b =? 9 then "bcd"%string
    else if b =? 10 then "bool"%string
    else if b =? 25 then "currency"%string
    else if b =? 26 then "date"%string
    else if b =? 27 then "variant"%string
    else if b =? 28 then "complex"%string
    else if b =? 29 then "bit"%string
    else if b =? 30 then "BSTR"%string
    else if b =? 31 then "HRESULT"%string
    else if (b =? 6) || (b =? 13) then
      if cbType =? 1 then "int8"%string
      else if cbType =? 2 then "int16"%string
      else if cbType =? 4 then "int32"%string
      else if cbType =? 8 then "int64"%string
      else "int??"%string
    else if (b =? 7) || (b =? 14) then
      if cbType =? 1 then "byte"%string
      else if cbType =? 2 then "word"%string
      else if cbType =? 4 then "dword"%string
      else if cbType =? 8 then "uint64"%string
      else "uint??"%string
    else if b =? dword (-1) then "function"%string
    else if b =? dword (-2) then "pointer"%string
    else "???"%string
  end.

(** [%lli] of a QWORD argument. *)
Definition lli (q : Z) : string :=
  NilEmpty.string_of_int (Z.to_int (if q <? 2 ^ 63 then q else q - 2 ^ 64)).

(** [_snwprintf_s(wszBuffer, 0x20, _TRUNCATE, L" bit[%lli:%lli]", lo, hi)] *)
Definition DT_bit_annotation (lo hi : Z) : string :=
  substring 0 31 (" bit["%string ++ lli lo ++ ":"%string ++ lli hi ++ "]"%string)%string.

Definition is_1248 (cbType : Z) : bool :=
  (cbType =? 1) || (cbType =? 2) || (cbType =? 4) || (cbType =? 8).

(** The bit cursor on entry to a field (the [if(qwBitBase)] block). *)
Definition DT_bit_cursor (cbTypeLast cbType qwBitBase : Z) : Z :=
  if negb (qwBitBase =? 0) then
    if negb (cbTypeLast =? cbType) || (qword (Z.shiftl cbType 3) <=? qwBitBase)
       || negb (is_1248 cbType)
    then 0 else qwBitBase
  else qwBitBase.

(** [!_wcsnicmp(wsz, L"_EX_", 4)] *)
Definition wcsnicmp_EX_ (wsz : string) : bool :=
  match wsz with
  | String a (String b (String c (String d _))) =>
    Ascii.eqb a "_"%char && (Ascii.eqb b "E"%char || Ascii.eqb b "e"%char)
    && (Ascii.eqb c "X"%char || Ascii.eqb c "x"%char) && Ascii.eqb d "_"%char
  | _ => false
  end.

Definition is_none {A : Type} (o : option A) : bool :=
  match o with None => true | Some _ => false end.

Section Display.

Variable T : DT_EXTERNALS.

(** [memcpy(&v, pb, cb)] into a zeroed QWORD. *)
Definition DT_read (pb : Z) (cb : nat) : Z :=
  le_decode (map (fun i => MEM T (pb + Z.of_nat i)) (seq 0 cb)).

(** The first fix-up of a field: the name of the pointee or element type. *)
Definition DT_fix_typename (pe : PDB_DT_INFO) : PDB_DT_INFO :=
  if is_none (wszTypeName pe) && negb (dwPtrTypeIndex pe =? 0)
     && ((dwTag pe =? SymTagArrayType) || (dwTag pe =? SymTagPointerType))
  then match TI_GET_SYMNAME T (dwPtrTypeIndex pe) with
       | Some s =>
         mkPDB_DT_INFO (wszName pe) (Some s) (qwBitFieldLength pe) (qwLength pe) (dwTag pe)
                       (dwPtrTag pe) (dwOffset pe) (dwTypeIndex pe) (dwBaseType pe)
                       (dwArrayCount pe) (dwChildCount pe) (dwPtrTypeIndex pe)
                       (dwArrayTypeIndex pe)
       | None => pe
       end
  else pe.

Definition DT_set_base (pe : PDB_DT_INFO) (base ptag : Z) : PDB_DT_INFO :=
  mkPDB_DT_INFO (wszName pe) (wszTypeName pe) (qwBitFieldLength pe) (qwLength pe) (dwTag pe)
                ptag (dwOffset pe) (dwTypeIndex pe) base
                (dwArrayCount pe) (dwChildCount pe) (dwPtrTypeIndex pe) (dwArrayTypeIndex pe).

(** The pointer prefix: the base type of an unnamed pointee. *)
Definition DT_fix_pointer (pe : PDB_DT_INFO) : PDB_DT_INFO :=
  if negb (dwPtrTypeIndex pe =? 0) && is_none (wszTypeName pe) then
    let base := match TI_GET_BASETYPE T (dwPtrTypeIndex pe) with
                | Some b => dword b
                | None => dwBaseType pe
                end in
    if base =? 0 then
      let ptag := match TI_GET_SYMTAG T (dwPtrTypeIndex pe) with
                  | Some t => dword t
                  | None => dwPtrTag pe
                  end in
      let base := if ptag =? SymTagFunctionType then dword (-1) else base in
      let base := if ptag =? SymTagPointerType then dword (-2) else base in
      DT_set_base pe base ptag
    else DT_set_base pe base (dwPtrTag pe)
  else pe.

(** special types #1 *)
Definition DT_fix_special (pe : PDB_DT_INFO) : PDB_DT_INFO :=
  match wszTypeName pe with
  | Some s =>
    if (dwTag pe =? SymTagUDT)
       && (String.eqb "_LARGE_INTEGER"%string s || wcsnicmp_EX_ s || String.eqb "_KEVENT"%string s)
    then mkPDB_DT_INFO (wszName pe) (wszTypeName pe) (qwBitFieldLength pe) (qwLength pe)
                       SymTagBaseType (dwPtrTag pe) (dwOffset pe) (dwTypeIndex pe)
                       (dwBaseType pe) (dwArrayCount pe) (dwChildCount pe)
                       (dwPtrTypeIndex pe) (dwArrayTypeIndex pe)
    else pe
  | None => pe
  end.

(** The start of a line: offset and name, array prefix, pointer prefix. *)
Definition DT_line_prefix (iLevel : Z) (pe : PDB_DT_INFO) : DT_LINE :=
  [PcField iLevel (dwOffset pe) (wszName pe)]
  ++ (if negb (dwArrayCount pe =? 0) then [PcArray (dwArrayCount pe)] else [])
  ++ (if negb (dwPtrTypeIndex pe =? 0) then [PcPtr] else []).

(** optional data.  [v >> qwBitBase] and [1ULL << qwBitFieldLength] are
    shifts of a QWORD: the x86-64 code the build produces takes their count
    modulo 64 (C leaves a count of 64 or more undefined), so a bit-field of
    64 bits is masked with 0. *)
Definition DT_line_value (pe : PDB_DT_INFO) (cbType qwBitBase : Z) (pbMEM : option Z) : DT_LINE :=
  match pbMEM with
  | Some pb =>
    if ((dwTag pe =? SymTagBaseType) || (dwTag pe =? SymTagPointerType)) && is_1248 cbType then
      let v := DT_read (pb + dwOffset pe) (Z.to_nat cbType) in
      let v := if negb (qwBitFieldLength pe =? 0)
               then Z.land (Z.shiftr v (qwBitBase mod 64))
                           (qword (qword (Z.shiftl 1 (qwBitFieldLength pe mod 64)) - 1))
               else v in
      let wszFormat := if v <? 10 then FmtX
                       else if cbType =? 1 then Fmt02X
                       else if cbType =? 2 then Fmt04X
                       else if cbType =? 4 then Fmt08X
                       else Fmt016X in
      [PcValue wszFormat v]
    else []
  | None => []
  end.

(** _UNICODE_STRING special case *)
Definition DT_line_string (dwParentChildCount i : Z) (wszParentTypeName : option string)
    (pbMEM : option Z) : DT_LINE :=
  match pbMEM, wszParentTypeName with
  | Some pb, Some s =>
    if (dwParentChildCount =? 3) && (i =? 2) && String.eqb "_UNICODE_STRING"%string s then
      let cbData := DT_read pb 2 in
      let vaData := if DT_f32 T then DT_read (pb + 4) 4 else DT_read (pb + 8) 8 in
      if VMM_KADDR T vaData && negb (cbData =? 0) && (Z.land cbData 1 =? 0)
         && (cbData <? MAX_PATH * 2)
      then match VmmRead T vaData cbData with
           | Some bytes => [PcString (firstn (Z.to_nat cbData) bytes)]
           | None => []
           end
      else []
    else []
  | _, _ => []
  end.

(** [cbType]: the size of the field, or of one element of an array. *)
Definition DT_cbType (pe : PDB_DT_INFO) : Z :=
  if negb (dwArrayCount pe =? 0) then qwLength pe / dwArrayCount pe else qwLength pe.

(** 3: interpret result - the loop over [pInfo], from index [i] on.  [rec]
    is the worker itself, one level down. *)
Fixpoint PDB_DisplayTypeNt_DoWork_Loop
    (rec : PDB_DT_CONTEXT -> Z -> Z -> Z -> option string -> option Z -> Z
           -> option PDB_DT_CONTEXT)
    (iLevel dwParentChildCount : Z) (wszParentTypeName : option string)
    (pbMEM : option Z) (cbMEM : Z)
    (pInfo : list PDB_DT_INFO) (i cbTypeLast qwBitBase : Z) (ctxDT : PDB_DT_CONTEXT)
    : option PDB_DT_CONTEXT :=
  match pInfo with
  | [] => Some ctxDT
  | pe :: pInfo' =>
    let cbType := DT_cbType pe in
    let pe := DT_fix_typename pe in
    let qwBitBase := DT_bit_cursor cbTypeLast cbType qwBitBase in
    let wszln := DT_line_prefix iLevel pe in
    let pe := DT_fix_special (DT_fix_pointer pe) in
    let next := PDB_DisplayTypeNt_DoWork_Loop rec iLevel dwParentChildCount wszParentTypeName
                  pbMEM cbMEM pInfo' (i + 1) cbType
                  (qword (qwBitBase + qwBitFieldLength pe)) in
    (* type: complex or ordinary? *)
    if dwTag pe =? SymTagUDT then
      let ctxDT := DT_commit ctxDT (wszln ++ [PcUdt (wszTypeName pe)]) in
      if negb (dwChildCount pe =? 0) && (iLevel <? iLevelMax ctxDT)
         && (is_none pbMEM || (qword (dwOffset pe + qwLength pe) <=? cbMEM))
      then
        match rec ctxDT (byte (iLevel + 1)) (dwTypeIndex pe) (dwChildCount pe) (wszTypeName pe)
                  ((fun pb => pb + dwOffset pe) <$> pbMEM)
                  (if is_none pbMEM then 0 else dword (cbMEM - dwOffset pe)) with
        | Some ctxDT => next ctxDT
        | None => None
        end
      else next ctxDT
    else
      let wszBuffer := if negb (qwBitFieldLength pe =? 0)
                       then DT_bit_annotation qwBitBase (qword (qwBitBase + qwBitFieldLength pe - 1))
                       else EmptyString in
      let wszln := wszln ++ [PcType (PDB_DisplayTypeNt_GetTypeName pe cbType) wszBuffer]
                   ++ DT_line_value pe cbType qwBitBase pbMEM
                   ++ DT_line_string dwParentChildCount i wszParentTypeName pbMEM in
      next (DT_commit ctxDT wszln)
  end.

(** The worker.  [fuel] bounds the nesting of invocations; [None] means the
    bound was reached. *)
Fixpoint PDB_DisplayTypeNt_DoWork (fuel : nat) (ctxDT : PDB_DT_CONTEXT)
    (iLevel dwParentTypeIndex dwParentChildCount : Z) (wszParentTypeName : option string)
    (pbMEM : option Z) (cbMEM : Z) : option PDB_DT_CONTEXT :=
  match fuel with
  | O => None
  | S fuel' =>
    let ctxDT := DT_enter ctxDT iLevel dwParentTypeIndex in
    let cInfo := dwParentChildCount in
    if negb (DT_LocalAlloc T (calls ctxDT) (cInfo * 72)) then Some ctxDT
    else
      (* 1: fetch info about "children" into INFO struct array. *)
      match SymGetTypeInfoEx_CHILDREN T dwParentTypeIndex cInfo with
      | None => Some ctxDT
      | Some IP1 =>
        if negb (dwParentChildCount =? Z.of_nat (length IP1)) then Some ctxDT
        else if negb (DT_LocalAlloc T (calls ctxDT) (cInfo * 4)) then Some ctxDT
        else
          (* 2: fetch info about the types of the children into INFO struct array. *)
          match SymGetTypeInfoEx_TYPES T (map r1_TYPEID IP1) with
          | None => Some ctxDT
          | Some IP2 =>
            PDB_DisplayTypeNt_DoWork_Loop (PDB_DisplayTypeNt_DoWork fuel')
              iLevel dwParentChildCount wszParentTypeName pbMEM cbMEM
              (DT_merge IP1 IP2) 0 0 0 ctxDT
          end
      end
  end.

(** The call [PDB_DisplayTypeNt] makes: a context with [iLevelMax = cLevelMax]
    and the worker at level 0, with fuel for every level up to the limit. *)
Definition PDB_DisplayTypeNt_Worker (cLevelMax : Z) (header : DT_LINE)
    (TypeIndex cTypeChildren : Z) (pbMEM : option Z) (cbMEM : Z) : option PDB_DT_CONTEXT :=
  PDB_DisplayTypeNt_DoWork (S (Z.to_nat (byte cLevelMax)))
    (mkPDB_DT_CONTEXT [header] (byte cLevelMax) [])
    0 TypeIndex cTypeChildren None pbMEM cbMEM.

End Display.

(** ** Concrete externals, for evaluating the model *)

(** [Util_HashStringA] and [Util_PathFileNameFix_Registry] (util.c) are not
    under src/ and stay parameters of the model; the theorems hold for every
    choice of them.  For evaluation the first is instantiated with a fold of
    the characters by the rotate-and-add step pdb.c itself uses, the second
    with the characters handed over unchanged. *)
Definition sample_HashStringA (sz : string) : Z :=
  fold_left (fun qwHash c => qword (ror13_qword qwHash + Z.of_N (N_of_ascii c)))
            (list_ascii_of_string sz) 0.

Definition sample_PathFileNameFix (sz : string) : list Z :=
  map (fun c => Z.of_N (N_of_ascii c)) (list_ascii_of_string sz).

(** A backend that finds every file and loads it at the slot it is given. *)
Definition sample_X : EXTERNALS :=
  mkEXTERNALS
    sample_HashStringA sample_PathFileNameFix
    (fun _ sz => Some sz)
    (fun _ => true) (fun _ _ => true)
    (fun _ name _ _ => match name with Some n => Some ("cache/" ++ n)%string | None => None end)
    (fun _ _ base _ => base)
    (fun _ _ _ => ([], true))
    (fun _ _ _ => (false, mkSYMBOL_INFO 0 0 0 0))
    (fun _ _ _ => ([], true))
    (fun _ _ _ => None) (fun _ _ _ _ => None) (fun _ _ _ => None) (fun _ _ _ => None)
    (fun _ _ _ d => d)
    (fun _ _ _ => 0) (fun _ _ _ => None)
    (qword (-1))
    (fun _ => 0).

Definition with_StrDupA (X : EXTERNALS) (f : list EVENT -> string -> option string) : EXTERNALS :=
  mkEXTERNALS (Util_HashStringA X) (Util_PathFileNameFix_Registry X) f
    (Ob_Alloc X) (LocalAlloc X) (SymFindFileInPath X) (SymLoadModuleEx X) (SymEnumSymbols X)
    (SymGetTypeFromName X) (SymEnumTypesByName X) (SymGetTypeInfo_CHILDRENCOUNT X)
    (SymGetTypeInfo_FINDCHILDREN X) (SymGetTypeInfo_SYMNAME X) (SymGetTypeInfo_OFFSET X)
    (SymGetTypeInfo_OFFSET_left X)
    (PE_GetSize X) (PE_GetCodeViewInfo X) (PDB_HANDLE_KERNEL X) (indeterminate X).

Definition with_SymFindFileInPath (X : EXTERNALS)
    (f : list EVENT -> option string -> list Z -> Z -> option string) : EXTERNALS :=
  mkEXTERNALS (Util_HashStringA X) (Util_PathFileNameFix_Registry X) (Util_StrDupA X)
    (Ob_Alloc X) (LocalAlloc X) f (SymLoadModuleEx X) (SymEnumSymbols X)
    (SymGetTypeFromName X) (SymEnumTypesByName X) (SymGetTypeInfo_CHILDRENCOUNT X)
    (SymGetTypeInfo_FINDCHILDREN X) (SymGetTypeInfo_SYMNAME X) (SymGetTypeInfo_OFFSET X)
    (SymGetTypeInfo_OFFSET_left X)
    (PE_GetSize X) (PE_GetCodeViewInfo X) (PDB_HANDLE_KERNEL X) (indeterminate X).

Definition with_SymEnumSymbols (X : EXTERNALS)
    (f : list EVENT -> Z -> string -> list SYMBOL_INFO * bool) : EXTERNALS :=
  mkEXTERNALS (Util_HashStringA X) (Util_PathFileNameFix_Registry X) (Util_StrDupA X)
    (Ob_Alloc X) (LocalAlloc X) (SymFindFileInPath X) (SymLoadModuleEx X) f
    (SymGetTypeFromName X) (SymEnumTypesByName X) (SymGetTypeInfo_CHILDRENCOUNT X)
    (SymGetTypeInfo_FINDCHILDREN X) (SymGetTypeInfo_SYMNAME X) (SymGetTypeInfo_OFFSET X)
    (SymGetTypeInfo_OFFSET_left X)
    (PE_GetSize X) (PE_GetCodeViewInfo X) (PDB_HANDLE_KERNEL X) (indeterminate X).

Definition with_PE_GetSize (X : EXTERNALS) (f : list EVENT -> Z -> Z -> Z) : EXTERNALS :=
  mkEXTERNALS (Util_HashStringA X) (Util_PathFileNameFix_Registry X) (Util_StrDupA X)
    (Ob_Alloc X) (LocalAlloc X) (SymFindFileInPath X) (SymLoadModuleEx X) (SymEnumSymbols X)
    (SymGetTypeFromName X) (SymEnumTypesByName X) (SymGetTypeInfo_CHILDRENCOUNT X)
    (SymGetTypeInfo_FINDCHILDREN X) (SymGetTypeInfo_SYMNAME X) (SymGetTypeInfo_OFFSET X)
    (SymGetTypeInfo_OFFSET_left X)
    f (PE_GetCodeViewInfo X) (PDB_HANDLE_KERNEL X) (indeterminate X).

(** The context [PDB_Initialize] publishes, and the same context once the
    kernel bootstrap has cleared [fDisabled]. *)
Definition ctx_initial : VMMWIN_PDB_CONTEXT := mkCTX true [] [] VMMWIN_PDB_LOAD_ADDRESS_BASE.
Definition ctx_enabled : VMMWIN_PDB_CONTEXT := mkCTX false [] [] VMMWIN_PDB_LOAD_ADDRESS_BASE.

Definition world_initial : WORLD := mkWORLD (Some ctx_initial) false [] [].
Definition world_enabled : WORLD := mkWORLD (Some ctx_enabled) false [] [].
Definition world_enabled32 : WORLD := mkWORLD (Some ctx_enabled) true [] [].

Definition sample_guid : list Z :=
  [0x10; 0x32; 0x54; 0x76; 0x98; 0xba; 0xdc; 0xfe; 1; 2; 3; 4; 5; 6; 7; 8].

(** A GUID for which (ntkrnlmp.pdb, GUID, 1) has the fingerprint zero under
    [sample_HashStringA]. *)
Definition zero_guid : list Z :=
  [0; 0; 0; 0; 0; 0; 0; 0; 0xad; 0xa7; 0xf4; 0x94; 0x0e; 0xeb; 0x63; 0x7e].

(** A backend that finds no file. *)
Definition X_nofile : EXTERNALS :=
  with_SymFindFileInPath sample_X (fun _ _ _ _ => None).

Definition is_EvSymFindFileInPath (ev : EVENT) : bool :=
  match ev with EvSymFindFileInPath _ _ _ => true | _ => false end.

(** An allocator that is exhausted once the backend has located a file. *)
Definition X_nodup : EXTERNALS :=
  with_StrDupA sample_X
    (fun t sz => if existsb is_EvSymFindFileInPath t then None else Some sz).

(** The kernel module registered, before and after the bootstrap. *)
Definition world_registered : WORLD :=
  fst (PDB_AddModuleEntry sample_X world_initial 0x1000 0x2000
         "ntoskrnl"%string "ntkrnlmp.pdb"%string sample_guid 1).

Definition world_registered_enabled : WORLD :=
  fst (PDB_AddModuleEntry sample_X world_enabled 0x1000 0x2000
         "ntoskrnl"%string "ntkrnlmp.pdb"%string sample_guid 1).

(** ... and after a load attempt that found no file. *)
Definition world_failed : WORLD := fst (PDB_LoadEnsureEx X_nofile world_registered_enabled 0).

Definition entry_failed : PDB_ENTRY :=
  mkPDB_ENTRY 1883368706899315958 0x1000 (Some "ntoskrnl"%string) (Some "ntkrnlmp.pdb"%string)
              sample_guid 1 0x2000 true None 0.

(** A module whose image size is reported as 64 MiB + 1. *)
Definition X_big : EXTERNALS := with_PE_GetSize sample_X (fun _ _ _ => 0x04000001).

(** A backend whose enumeration yields one symbol, 0x10000000 bytes past
    the base of the module. *)
Definition X_far : EXTERNALS :=
  with_SymEnumSymbols sample_X
    (fun _ la _ => ([mkSYMBOL_INFO 1 8 la (la + 0x10000000)], true)).

Definition world_registered32 : WORLD :=
  fst (PDB_AddModuleEntry sample_X world_enabled32 0x1000 0x2000
         "ntoskrnl"%string "ntkrnlmp.pdb"%string sample_guid 1).

(** A small type database.  Type 1 has three bitfields of widths 3, 5 and 4
    in one-byte storage (type 10).  Type 2 has a nested aggregate (type 3)
    followed by a byte; type 3 lists itself among its children, so only the
    depth limit ends the descent. *)
Definition sample_children (dwTypeIndex : Z) : list DT_REQ1 :=
  if dwTypeIndex =? 1 then
    [mkDT_REQ1 (Some "A"%string) 3 0 10; mkDT_REQ1 (Some "B"%string) 5 0 10;
     mkDT_REQ1 (Some "C"%string) 4 1 10]
  else if dwTypeIndex =? 2 then
    [mkDT_REQ1 (Some "Inner"%string) 0 0 3; mkDT_REQ1 (Some "Tail"%string) 0 8 10]
  else if dwTypeIndex =? 3 then
    [mkDT_REQ1 (Some "Self"%string) 0 0 3; mkDT_REQ1 (Some "X"%string) 0 4 10]
  else [].

Definition sample_type (dwTypeIndex : Z) : DT_REQ2 :=
  if dwTypeIndex =? 10 then mkDT_REQ2 None 1 SymTagBaseType 0 0 0 0 7
  else if dwTypeIndex =? 3 then mkDT_REQ2 (Some "_INNER"%string) 8 SymTagUDT 0 2 0 0 0
  else DT_REQ2_zero.

Definition sample_T : DT_EXTERNALS :=
  mkDT_EXTERNALS
    (fun _ _ => true)
    (fun ty cInfo => Some (firstn (Z.to_nat cInfo) (sample_children ty)))
    (fun ids => Some (map sample_type ids))
    (fun _ => None) (fun _ => None) (fun _ => None)
    (fun _ => 0) false (fun _ => false) (fun _ _ => None).

Definition ctxDT_fresh (cLevelMax : Z) : PDB_DT_CONTEXT := mkPDB_DT_CONTEXT [] cLevelMax [].

(** The bit annotation of a rendered line: the [wszBuffer] of its type
    piece. *)
Fixpoint line_bits (wszln : DT_LINE) : option string :=
  match wszln with
  | [] => None
  | PcType _ wszBuffer :: _ => Some wszBuffer
  | _ :: wszln' => line_bits wszln'
  end.

(** A child the worker renders as a nested aggregate. *)
Definition DT_is_udt (pe : PDB_DT_INFO) : bool := dwTag (DT_fix_special pe) =? SymTagUDT.

(** From [ctxDT] to [ctxDT']: the depth limit is kept, and every invocation of
    the worker logged in between ran at a level from 0 to [M]. *)
Definition DT_ext (M : Z) (ctxDT ctxDT' : PDB_DT_CONTEXT) : Prop :=
  iLevelMax ctxDT' = iLevelMax ctxDT
  /\ exists new, calls ctxDT' = calls ctxDT ++ new /\ Forall (fun c => 0 <= fst c <= M) new.

(** Both requests of the worker answered, for the type [ty] with [cnt]
    children, in the invocation logged as [(iLevel, ty)]. *)
Definition DT_fetched (T : DT_EXTERNALS) (ctxDT : PDB_DT_CONTEXT) (iLevel ty cnt : Z)
    (IP1 : list DT_REQ1) (IP2 : list DT_REQ2) : Prop :=
  DT_LocalAlloc T (calls ctxDT ++ [(iLevel, ty)]) (cnt * 72) = true
  /\ SymGetTypeInfoEx_CHILDREN T ty cnt = Some IP1
  /\ cnt = Z.of_nat (length IP1)
  /\ DT_LocalAlloc T (calls ctxDT ++ [(iLevel, ty)]) (cnt * 4) = true
  /\ SymGetTypeInfoEx_TYPES T (map r1_TYPEID IP1) = Some IP2.

(** ** Sequences of load requests *)

Inductive LOAD_CALL :=
| CallEx (pPdbEntry : nat)      (* PDB_LoadEnsureEx(pPdbEntry) *)
| CallHandle (hPDB : Z).        (* PDB_LoadEnsure(hPDB) *)

Definition run_load (X : EXTERNALS) (w : WORLD) (c : LOAD_CALL) : WORLD * bool :=
  match c with
  | CallEx p => PDB_LoadEnsureEx X w p
  | CallHandle h => PDB_LoadEnsure X w h
  end.

Definition run_loads (X : EXTERNALS) (w : WORLD) (cs : list LOAD_CALL) : WORLD :=
  fold_left (fun w c => fst (run_load X w c)) cs w.

(** The load state no longer changes. *)
Definition load_final (e : PDB_ENTRY) : Prop :=
  fLoadFailed e = true \/ qwLoadAddress e <> 0.

(** Failed and loaded at once only if the path could not be duplicated. *)
Definition load_exclusive_if_path (e : PDB_ENTRY) : Prop :=
  fLoadFailed e = true -> qwLoadAddress e <> 0 -> szPath e = None.

(** [Address - ModBase] of a symbol, as the ULONG64 the C code computes. *)
Definition symbol_offset (s : SYMBOL_INFO) : Z := qword (si_Address s - si_ModBase s).

(** ** The rest of the query API, the shutdown and the kernel bootstrap *)

(** The calls into vmm.c, the dbghelp call [SymFromAddr] and the data of
    [ctxVmm] the functions below read.  Each oracle receives the trace of
    the calls made before it, and its own call is recorded in the trace. *)
Record EXTERNALS_VMM := mkEXTERNALS_VMM {
  (* dbghelp.dll: the displacement, [Name] and [NameLen] *)
  SymFromAddr : list EVENT -> Z -> option (Z * string * Z);
  (* vmm.c: [VmmRead(pProcess, va, pb, cb)] is given the content of the
     caller's buffer and answers with the BOOL and the content it leaves *)
  VmmRead_Process : list EVENT -> Z -> Z -> Z -> list Z -> bool * list Z;
  VmmProcessGet : list EVENT -> Z -> option Z;
  (* VmmReadEx(.., VMM_FLAG_ZEROPAD_ON_FAIL): the byte at each offset of the buffer *)
  VmmReadEx_ZEROPAD : list EVENT -> Z -> Z -> Z -> Z -> Z;
  (* ctxVmm->kernel *)
  kernel_vaBase : Z;
  kernel_cbSize : Z;
  (* pe.h *)
  sizeof_PE_CODEVIEW : Z
}.

(** [strncpy_s(szDst, MAX_PATH, szSrc, MAX_PATH - 1)]: at most MAX_PATH - 1
    characters of the source. *)
Definition strncpy_s_MAX_PATH (szSrc : string) : string :=
  substring 0 (Z.to_nat (MAX_PATH - 1)) szSrc.

(** A zero-terminated string read from bytes. *)
Fixpoint cstring_of_bytes (pb : list Z) : string :=
  match pb with
  | [] => EmptyString
  | b :: pb' => if byte b =? 0 then EmptyString
                else String (ascii_of_N (Z.to_N (byte b))) (cstring_of_bytes pb')
  end.

(** [!memcmp(a, b, n)] on lists of the same length. *)
Fixpoint bytes_eqb (a b : list Z) : bool :=
  match a, b with
  | [], [] => true
  | x :: a', y :: b' => (byte x =? byte y) && bytes_eqb a' b'
  | _, _ => false
  end.

(** The [cb] bytes of a buffer from offset [off] on. *)
Definition buf_bytes (pb : Z -> Z) (off : Z) (cb : nat) : list Z :=
  map (fun k => pb (off + Z.of_nat k)) (seq 0 cb).

(** The test the raw scan applies at offset [i]: the signature "RSDS", an age
    of at most 0x20, a file name that starts with "nt" and carries ".pdb"
    and the terminator from its ninth character on.  The record has the
    signature at 0, the GUID at 4, the age at 20 and the name at 24. *)
Definition scan_match (pb : Z -> Z) (i : Z) : bool :=
  (le_decode (buf_bytes pb i 4) =? 0x53445352)
  && negb (0x20 <? le_decode (buf_bytes pb (i + 20) 4))
  && bytes_eqb [110; 116] (buf_bytes pb (i + 24) 2)
  && bytes_eqb [46; 112; 100; 98; 0] (buf_bytes pb (i + 24 + 8) 5).

Definition scan_result (pb : Z -> Z) (i : Z) : PE_CODEVIEW :=
  mkPE_CODEVIEW (map byte (buf_bytes pb (i + 4) 16))
                (le_decode (buf_bytes pb (i + 20) 4))
                (cstring_of_bytes (buf_bytes pb (i + 24) 12)).

(** [for(i = 0; i < limit; i += 4)]; [n] counts the iterations left. *)
Fixpoint PDB_Initialize_Async_Kernel_ScanForPdbInfo_Loop (pb : Z -> Z) (limit : Z)
    (n : nat) (i : Z) : option PE_CODEVIEW :=
  match n with
  | O => None
  | S n' =>
    if i <? limit then
      if scan_match pb i then Some (scan_result pb i)
      else PDB_Initialize_Async_Kernel_ScanForPdbInfo_Loop pb limit n' (i + 4)
    else None
  end.

(** The object-header sub-structures: [ctxVmm->offset._X.cb]. *)
Record OBJECT_HEADER_SIZES := mkOBJECT_HEADER_SIZES {
  cb_OBJECT_HEADER_CREATOR_INFO : Z;
  cb_OBJECT_HEADER_NAME_INFO : Z;
  cb_OBJECT_HEADER_HANDLE_INFO : Z;
  cb_OBJECT_HEADER_QUOTA_INFO : Z;
  cb_OBJECT_HEADER_PROCESS_INFO : Z;
  cb_OBJECT_HEADER_AUDIT_INFO : Z;
  cb_POOL_HEADER : Z
}.

(** The [switch(i)] of the object-header loop: [szSubType] and [cbSubType]. *)
Definition PDB_DisplayTypeNt_SubType (O : OBJECT_HEADER_SIZES) (i : Z) : option string * Z :=
  if i =? 0 then (Some "_OBJECT_HEADER_CREATOR_INFO"%string, cb_OBJECT_HEADER_CREATOR_INFO O)
  else if i =? 1 then (Some "_OBJECT_HEADER_NAME_INFO"%string, cb_OBJECT_HEADER_NAME_INFO O)
  else if i =? 2 then (Some "_OBJECT_HEADER_HANDLE_INFO"%string, cb_OBJECT_HEADER_HANDLE_INFO O)
  else if i =? 3 then (Some "_OBJECT_HEADER_QUOTA_INFO"%string, cb_OBJECT_HEADER_QUOTA_INFO O)
  else if i =? 4 then (Some "_OBJECT_HEADER_PROCESS_INFO"%string, cb_OBJECT_HEADER_PROCESS_INFO O)
  else if i =? 6 then (Some "_OBJECT_HEADER_AUDIT_INFO"%string, cb_OBJECT_HEADER_AUDIT_INFO O)
  else if i =? 8 then (Some "_POOL_HEADER"%string, cb_POOL_HEADER O)
  else (None, 0).

(** [((1 << i) & InfoMask) || (i == 8)] *)
Definition PDB_DisplayTypeNt_Selected (InfoMask i : Z) : bool :=
  negb (Z.land (Z.shiftl 1 i) InfoMask =? 0) || (i =? 8).

(** [for(i = 0; i < 9; i++)] of the object-header mode: the nested calls
    [PDB_DisplayTypeNt(szSubType, 2, vaType, ..)] it makes, in order, each
    with the type name and the address it passes.  [n] counts the iterations
    left; a [break] ends the list. *)
Fixpoint PDB_DisplayTypeNt_ObjHeader_Loop (O : OBJECT_HEADER_SIZES) (InfoMask : Z)
    (n : nat) (i : Z) (vaType : Z) : list (string * Z) :=
  match n with
  | O => []
  | S n' =>
    if PDB_DisplayTypeNt_Selected InfoMask i then
      match PDB_DisplayTypeNt_SubType O i with
      | (Some szSubType, cbSubType) =>
        if cbSubType =? 0 then []
        else (szSubType, qword (vaType - cbSubType))
             :: PDB_DisplayTypeNt_ObjHeader_Loop O InfoMask n' (i + 1) (qword (vaType - cbSubType))
      | (None, _) => []
      end
    else PDB_DisplayTypeNt_ObjHeader_Loop O InfoMask n' (i + 1) vaType
  end.

(** flag: object header: special processing *)
Definition PDB_DisplayTypeNt_ObjHeader (O : OBJECT_HEADER_SIZES) (fObjHeader fMEM : bool)
    (InfoMask vaType : Z) : list (string * Z) :=
  if fObjHeader && fMEM && negb (cb_OBJECT_HEADER_CREATOR_INFO O =? 0)
  then PDB_DisplayTypeNt_ObjHeader_Loop O InfoMask 9 0 vaType
  else [].

(** The sub-headers of the indices [idx], in this order, each placed directly
    below the one before and the first directly below [vaType]. *)
Fixpoint PDB_DisplayTypeNt_Chain (O : OBJECT_HEADER_SIZES) (vaType : Z) (idx : list Z)
    : list (string * Z) :=
  match idx with
  | [] => []
  | i :: idx' =>
    match PDB_DisplayTypeNt_SubType O i with
    | (Some szSubType, cbSubType) =>
      (szSubType, qword (vaType - cbSubType))
      :: PDB_DisplayTypeNt_Chain O (qword (vaType - cbSubType)) idx'
    | (None, _) => []
    end
  end.

Section Queries.

Variable X : EXTERNALS.
Variable V : EXTERNALS_VMM.

(** [if(!ctx || ctx->fDisabled || !hPDB) return FALSE;] and the resolution
    of [PDB_HANDLE_KERNEL]: the handle the function goes on with. *)
Definition PDB_ResolveHandle (w : WORLD) (hPDB : Z) : option Z :=
  match pPdbContext w with
  | None => None
  | Some ctx =>
    if fDisabled ctx || (hPDB =? 0) then None
    else Some (if hPDB =? PDB_HANDLE_KERNEL X
               then PDB_GetHandleFromModuleName X w (Some "ntoskrnl"%string)
               else hPDB)
  end.

(** [None] stands for the invalid-parameter handler of the C runtime:
    [strncpy_s] is handed a NULL source when the entry has no module name.
    Otherwise the BOOL and the content of the caller's buffer. *)
Definition PDB_GetModuleName (w : WORLD) (hPDB : Z) (szModule0 : string)
    : option (bool * string) :=
  match PDB_EntryFromHandle X w hPDB with
  | None => Some (false, szModule0)
  | Some pObPdbEntry =>
    match heap w !! pObPdbEntry with
    | None => Some (false, szModule0)
    | Some e =>
      match szModuleName e with
      | Some sz => Some (true, strncpy_s_MAX_PATH sz)
      | None => None
      end
    end
  end.

(** Returns the world, the BOOL and the content of [*pvaSymbolAddress]. *)
Definition PDB_GetSymbolAddress (w : WORLD) (hPDB : Z) (szSymbolName : string)
    (vaSymbolAddress0 : Z) : WORLD * bool * Z :=
  match PDB_ResolveHandle w hPDB with
  | None => (w, false, vaSymbolAddress0)
  | Some hPDB =>
    let '(w, fOffset, cbSymbolOffset) := PDB_GetSymbolOffset X w hPDB szSymbolName in
    if negb fOffset then (w, false, vaSymbolAddress0)
    else
      match pPdbContext w with
      | None => (w, false, vaSymbolAddress0)
      | Some ctx =>
        match ObMap_GetByKey (pmPdbByHash ctx) hPDB with
        | None => (w, false, vaSymbolAddress0)
        | Some pObPdbEntry =>
          match heap w !! pObPdbEntry with
          | None => (w, false, vaSymbolAddress0)
          | Some e => (w, true, qword (vaModuleBase e + cbSymbolOffset))
          end
        end
      end
  end.

(** [pb0] is the content of the caller's buffer before the call.  Returns
    the world, the BOOL and the content of the buffer afterwards. *)
Definition PDB_GetSymbolPBYTE (w : WORLD) (hPDB : Z) (szSymbolName : string)
    (pProcess : Z) (pb0 : list Z) (cb : Z) : WORLD * bool * list Z :=
  match PDB_ResolveHandle w hPDB with
  | None => (w, false, pb0)
  | Some hPDB =>
    let '(w, fOffset, dwSymbolOffset) := PDB_GetSymbolOffset X w hPDB szSymbolName in
    if negb fOffset then (w, false, pb0)
    else
      match pPdbContext w with
      | None => (w, false, pb0)
      | Some ctx =>
        match ObMap_GetByKey (pmPdbByHash ctx) hPDB with
        | None => (w, false, pb0)
        | Some pObPdbEntry =>
          match heap w !! pObPdbEntry with
          | None => (w, false, pb0)
          | Some e =>
            let '(fResult, pb) :=
              VmmRead_Process V (trace w) pProcess
                (qword (vaModuleBase e + dwSymbolOffset)) cb pb0 in
            (emit w (EvVmmRead pProcess (qword (vaModuleBase e + dwSymbolOffset)) cb),
             fResult, pb)
          end
        end
      end
  end.

(** [szSymbolName] and [pdwSymbolDisplacement] are [None] for a NULL pointer,
    else the content of the buffer they point to. *)
Definition PDB_GetSymbolFromOffset (w : WORLD) (hPDB dwSymbolOffset : Z)
    (szSymbolName : option string) (pdwSymbolDisplacement : option Z)
    : WORLD * bool * option string * option Z :=
  match PDB_EntryFromHandle X w hPDB with
  | None => (w, false, szSymbolName, pdwSymbolDisplacement)
  | Some pObPdbEntry =>
    let '(w, fLoaded) := PDB_LoadEnsureEx X w pObPdbEntry in
    if negb fLoaded then (w, false, szSymbolName, pdwSymbolDisplacement)
    else
      let la := match heap w !! pObPdbEntry with Some e => qwLoadAddress e | None => 0 end in
      let sym := SymFromAddr V (trace w) (qword (la + dwSymbolOffset)) in
      let w := emit w (EvSymFromAddr (qword (la + dwSymbolOffset))) in
      match sym with
      | None => (w, false, szSymbolName, pdwSymbolDisplacement)
      | Some (qwDisplacement, Name, NameLen) =>
        let cch := Z.min (MAX_PATH - 1) (dword NameLen) in
        (w, true,
         (fun _ => substring 0 (Z.to_nat cch) Name) <$> szSymbolName,
         (fun _ => dword qwDisplacement) <$> pdwSymbolDisplacement)
      end
  end.

(** [ctxVmm->pPdbContext = NULL]; the context and its indices are released,
    so that nothing leads to the entries any more.  A context [PDB_Initialize]
    has published has [hSym], [hModuleDbgHelp] and [hModuleSymSrv] set, so
    all three clean-up calls are made. *)
Definition PDB_Close (w : WORLD) : WORLD :=
  match pPdbContext w with
  | None => w
  | Some _ =>
    mkWORLD None (f32 w) (heap w)
            (trace w ++ [EvSymCleanup; EvFreeLibrary "dbghelp.dll"%string;
                         EvFreeLibrary "symsrv.dll"%string])
  end.

Definition PDB_Initialize_Async_Kernel_ScanForPdbInfo (w : WORLD) (pSystemProcess : Z)
    : WORLD * option PE_CODEVIEW :=
  if kernel_vaBase V =? 0 then (w, None)
  else
    let ok := LocalAlloc X (trace w) 0x00800000 in
    let w := emit w (EvLocalAlloc 0x00800000) in
    if negb ok then (w, None)
    else
      let pb := VmmReadEx_ZEROPAD V (trace w) pSystemProcess (kernel_vaBase V) 0x00800000 in
      let w := emit w (EvVmmReadEx pSystemProcess (kernel_vaBase V) 0x00800000) in
      (* 1: search for pdb debug information *)
      let limit := 0x00800000 - sizeof_PE_CODEVIEW V in
      (w, PDB_Initialize_Async_Kernel_ScanForPdbInfo_Loop pb limit
            (Z.to_nat ((limit + 3) / 4)) 0).

(** The kernel bootstrap.  [PdbInfo] is the debug-info reference the caller
    supplied, if any ([pKernelParameters->fPdbInfo]).  Returns the world and
    [dwReturnStatus]. *)
Definition PDB_Initialize_Async_Kernel_ThreadProc (w : WORLD) (PdbInfo : option PE_CODEVIEW)
    : WORLD * Z :=
  match pPdbContext w with
  | None => (w, 0)
  | Some _ =>
    let proc := VmmProcessGet V (trace w) 4 in
    let w := emit w (EvVmmProcessGet 4) in
    match proc with
    | None => (w, 0)
    | Some pObSystemProcess =>
      let '(w, info) :=
        match PdbInfo with
        | Some cv => (w, Some cv)
        | None =>
          let cv := PE_GetCodeViewInfo X (trace w) pObSystemProcess (kernel_vaBase V) in
          let w := emit w (EvPE_GetCodeViewInfo pObSystemProcess (kernel_vaBase V)) in
          match cv with
          | Some cv => (w, Some cv)
          | None => PDB_Initialize_Async_Kernel_ScanForPdbInfo w pObSystemProcess
          end
        end in
      match info with
      | None => (w, 0)
      | Some cv =>
        let '(w, qwPdbHash) :=
          PDB_AddModuleEntry X w (kernel_vaBase V) (dword (kernel_cbSize V))
            "ntoskrnl"%string (cv_PdbFileName cv) (cv_Guid cv) (cv_Age cv) in
        match pPdbContext w with
        | None => (w, 0)
        | Some ctx =>
          match ObMap_GetByKey (pmPdbByHash ctx) qwPdbHash with
          | None => (w, 0)
          | Some pObKernelEntry =>
            let '(w, fLoaded) := PDB_LoadEnsureEx X w pObKernelEntry in
            if negb fLoaded then (w, 0)
            else
              match pPdbContext w with
              | None => (w, 0)
              | Some ctx =>
                (set_ctx w (mkCTX false (pmPdbByHash ctx) (pmPdbByModule ctx)
                                  (qwLoadAddressNext ctx)), 1)
              end
          end
        end
      end
    end
  end.

End Queries.

(** ** Relations between worlds *)

(** The fields of an entry that identify the database and bind the module. *)
Definition same_identity (e e' : PDB_ENTRY) : Prop :=
  qwHash e' = qwHash e /\ vaModuleBase e' = vaModuleBase e
  /\ szModuleName e' = szModuleName e /\ szName e' = szName e
  /\ pbGUID e' = pbGUID e /\ dwAge e' = dwAge e /\ cbModuleSize e' = cbModuleSize e.

(** The registry part of a context: everything but the slot counter. *)
Definition registry_of (w : WORLD) : option (bool * OB_MAP * OB_MAP) :=
  (fun ctx => (fDisabled ctx, pmPdbByHash ctx, pmPdbByModule ctx)) <$> pPdbContext w.

(** [w'] has the registry of [w]: the same flag and indices, the same
    entries at the same places, each with its identity fields unchanged. *)
Definition same_registry (w w' : WORLD) : Prop :=
  f32 w' = f32 w
  /\ registry_of w' = registry_of w
  /\ length (heap w') = length (heap w)
  /\ forall p e, heap w !! p = Some e ->
       exists e', heap w' !! p = Some e' /\ same_identity e e'.

(** The slots handed to [SymLoadModuleEx], oldest first. *)
Fixpoint load_slots (t : list EVENT) : list Z :=
  match t with
  | [] => []
  | EvSymLoadModuleEx _ BaseOfDll _ :: t' => BaseOfDll :: load_slots t'
  | _ :: t' => load_slots t'
  end.


(** The indices are sound: no fingerprint is indexed twice, every pair of
    the by-fingerprint index leads to an entry with that fingerprint, and
    every pair of the module-name index leads to an entry that the
    by-fingerprint index holds under the entry's own fingerprint. *)
Definition registry_wf (w : WORLD) : Prop :=
  forall ctx, pPdbContext w = Some ctx ->
    List.NoDup (map fst (pmPdbByHash ctx))
    /\ (forall k p, In (k, p) (pmPdbByHash ctx) ->
                    exists e, heap w !! p = Some e /\ qwHash e = k)
    /\ (forall k p, In (k, p) (pmPdbByModule ctx) ->
                    exists e, heap w !! p = Some e
                              /\ In (qwHash e, p) (pmPdbByHash ctx)).

(** Two views of the same type database: they differ at most in the target
    memory, the address test and the width of the target. *)
Definition DT_same_database (T T' : DT_EXTERNALS) : Prop :=
  (forall c cb, DT_LocalAlloc T c cb = DT_LocalAlloc T' c cb)
  /\ (forall ty c, SymGetTypeInfoEx_CHILDREN T ty c = SymGetTypeInfoEx_CHILDREN T' ty c)
  /\ (forall ids, SymGetTypeInfoEx_TYPES T ids = SymGetTypeInfoEx_TYPES T' ids)
  /\ (forall ty, TI_GET_SYMNAME T ty = TI_GET_SYMNAME T' ty)
  /\ (forall ty, TI_GET_BASETYPE T ty = TI_GET_BASETYPE T' ty)
  /\ (forall ty, TI_GET_SYMTAG T ty = TI_GET_SYMTAG T' ty).

(** The pieces of a line that show target memory. *)
Definition DT_is_data (pc : DT_PIECE) : bool :=
  match pc with
  | PcValue _ _ | PcString _ => true
  | _ => false
  end.

(** From [ctxDT] to [ctxDT']: the committed lines are kept and the lines
    added show no target memory. *)
Definition DT_type_only (ctxDT ctxDT' : PDB_DT_CONTEXT) : Prop :=
  exists new, szu8 ctxDT' = szu8 ctxDT ++ new
              /\ Forall (fun wszln => forallb (fun pc => negb (DT_is_data pc)) wszln = true) new.

(** The sample database seen with a target memory of 0xff bytes. *)
Definition sample_T_ff : DT_EXTERNALS :=
  mkDT_EXTERNALS (DT_LocalAlloc sample_T) (SymGetTypeInfoEx_CHILDREN sample_T)
    (SymGetTypeInfoEx_TYPES sample_T) (TI_GET_SYMNAME sample_T) (TI_GET_BASETYPE sample_T)
    (TI_GET_SYMTAG sample_T)
    (fun _ => 0xff) true (fun _ => true) (fun _ cb => Some (repeat 0x41 (Z.to_nat cb))).

(** The window [pb', pb' + cb') of instance memory lies inside the window
    [pb, pb + cb). *)
Definition DT_window_inside (pb cb pb' cb' : Z) : Prop :=
  pb <= pb' /\ 0 <= cb' /\ pb' + cb' <= pb + cb.

(** The worker of the sample database, refusing every instance window that
    is not inside the 16 bytes at 0x1000. *)
Definition sample_rec_guarded (ctxDT : PDB_DT_CONTEXT) (iLevel ty cnt : Z)
    (nm : option string) (pbMEM : option Z) (cbMEM : Z) : option PDB_DT_CONTEXT :=
  match pbMEM with
  | Some pb' =>
    if (0x1000 <=? pb') && (0 <=? cbMEM) && (pb' + cbMEM <=? 0x1000 + 16)
    then PDB_DisplayTypeNt_DoWork sample_T 1 ctxDT iLevel ty cnt nm pbMEM cbMEM
    else None
  | None => PDB_DisplayTypeNt_DoWork sample_T 1 ctxDT iLevel ty cnt nm pbMEM cbMEM
  end.

(** A backend that reports an image of 0x2000 bytes with the debug-info
    record of ntkrnlmp.pdb for every module. *)
Definition X_pe : EXTERNALS :=
  mkEXTERNALS (Util_HashStringA sample_X) (Util_PathFileNameFix_Registry sample_X)
    (Util_StrDupA sample_X) (Ob_Alloc sample_X) (LocalAlloc sample_X)
    (SymFindFileInPath sample_X) (SymLoadModuleEx sample_X) (SymEnumSymbols sample_X)
    (SymGetTypeFromName sample_X) (SymEnumTypesByName sample_X)
    (SymGetTypeInfo_CHILDRENCOUNT sample_X) (SymGetTypeInfo_FINDCHILDREN sample_X)
    (SymGetTypeInfo_SYMNAME sample_X) (SymGetTypeInfo_OFFSET sample_X)
    (SymGetTypeInfo_OFFSET_left sample_X)
    (fun _ _ _ => 0x2000)
    (fun _ _ _ => Some (mkPE_CODEVIEW sample_guid 1 "ntkrnlmp.pdb"%string))
    (PDB_HANDLE_KERNEL sample_X) (indeterminate sample_X).

(** The level a line was written at: the first argument of its field piece. *)
Definition DT_line_level (wszln : DT_LINE) : option Z :=
  match wszln with
  | PcField iLevel _ _ :: _ => Some iLevel
  | _ => None
  end.

(** The offset and name of the lines written at level [iLevel], in order. *)
Definition DT_fields_at (iLevel : Z) (lines : list DT_LINE) : list (Z * option string) :=
  omap (fun wszln => match wszln with
                     | PcField lv off nm :: _ => if lv =? iLevel then Some (off, nm) else None
                     | _ => None
                     end) lines.

(** From [ctxDT] to [ctxDT']: the depth limit and the committed lines are
    kept, and the lines added were written at level [iLevel] or deeper. *)
Definition DT_deeper (iLevel : Z) (ctxDT ctxDT' : PDB_DT_CONTEXT) : Prop :=
  iLevelMax ctxDT' = iLevelMax ctxDT
  /\ exists new, szu8 ctxDT' = szu8 ctxDT ++ new
                 /\ Forall (fun wszln => exists lv, DT_line_level wszln = Some lv
                                                    /\ iLevel <= lv) new.

(** A backend with one type, of index 7, whose children 11 and 12 are named
    "Pcb" and "UniqueProcessId" and lie at the offsets 0 and 0x440. *)
Definition X_child : EXTERNALS :=
  mkEXTERNALS (Util_HashStringA sample_X) (Util_PathFileNameFix_Registry sample_X)
    (Util_StrDupA sample_X) (Ob_Alloc sample_X) (LocalAlloc sample_X)
    (SymFindFileInPath sample_X) (SymLoadModuleEx sample_X) (SymEnumSymbols sample_X)
    (SymGetTypeFromName sample_X)
    (fun _ _ _ => ([mkSYMBOL_INFO 7 0xa40 0 0], true))
    (fun _ _ _ => Some 2) (fun _ _ _ _ => Some [11; 12])
    (fun _ _ id => if id =? 11 then Some "Pcb"%string
                   else if id =? 12 then Some "UniqueProcessId"%string else None)
    (fun _ _ id => if id =? 11 then Some 0 else if id =? 12 then Some 0x440 else None)
    (SymGetTypeInfo_OFFSET_left sample_X)
    (PE_GetSize sample_X) (PE_GetCodeViewInfo sample_X) (PDB_HANDLE_KERNEL sample_X)
    (indeterminate sample_X).

(** The number of hexadecimal digits a value format provides for. *)
Definition DT_format_digits (wszFormat : DT_FORMAT) : Z :=
  match wszFormat with
  | FmtX => 1
  | Fmt02X => 2
  | Fmt04X => 4
  | Fmt08X => 8
  | Fmt016X => 16
  end.

(** A target memory that holds the byte 0xab everywhere. *)
Definition sample_T_ab : DT_EXTERNALS :=
  mkDT_EXTERNALS (DT_LocalAlloc sample_T) (SymGetTypeInfoEx_CHILDREN sample_T)
    (SymGetTypeInfoEx_TYPES sample_T) (TI_GET_SYMNAME sample_T) (TI_GET_BASETYPE sample_T)
    (TI_GET_SYMTAG sample_T)
    (fun _ => 0xab) false (fun _ => false) (fun _ _ => None).

(** [w'] keeps the disabled flag of [w] and every entry of [w], each at
    its place with its identity fields; entries may have been added. *)
Definition registry_grows (w w' : WORLD) : Prop :=
  f32 w' = f32 w
  /\ fDisabled <$> pPdbContext w' = fDisabled <$> pPdbContext w
  /\ forall p e, heap w !! p = Some e ->
       exists e', heap w' !! p = Some e' /\ same_identity e e'.

(** A handle that leads to no entry, or to an entry on which the loader gives
    up at once. *)
Definition turned_away (X : EXTERNALS) (w : WORLD) (hPDB : Z) : Prop :=
  match PDB_EntryFromHandle X w hPDB with
  | None => True
  | Some p => PDB_LoadEnsureEx X w p = (w, false)
  end.

(** A machine with no process, no readable memory and no kernel. *)
Definition V_none : EXTERNALS_VMM :=
  mkEXTERNALS_VMM (fun _ _ => None) (fun _ _ _ _ pb => (false, pb)) (fun _ _ => None)
                  (fun _ _ _ _ _ => 0) 0 0 0.

(** A backend that knows every symbol, 0x345678 bytes past the module base,
    and a machine whose memory reads as zero bytes. *)
Definition X_sym : EXTERNALS :=
  mkEXTERNALS (Util_HashStringA sample_X) (Util_PathFileNameFix_Registry sample_X)
    (Util_StrDupA sample_X) (Ob_Alloc sample_X) (LocalAlloc sample_X)
    (SymFindFileInPath sample_X) (SymLoadModuleEx sample_X) (SymEnumSymbols sample_X)
    (fun _ la _ => (true, mkSYMBOL_INFO 1 8 la (la + 0x345678)))
    (SymEnumTypesByName sample_X) (SymGetTypeInfo_CHILDRENCOUNT sample_X)
    (SymGetTypeInfo_FINDCHILDREN sample_X) (SymGetTypeInfo_SYMNAME sample_X)
    (SymGetTypeInfo_OFFSET sample_X) (SymGetTypeInfo_OFFSET_left sample_X)
    (PE_GetSize sample_X) (PE_GetCodeViewInfo sample_X) (PDB_HANDLE_KERNEL sample_X)
    (indeterminate sample_X).

Definition V_zero : EXTERNALS_VMM :=
  mkEXTERNALS_VMM (fun _ _ => None) (fun _ _ _ cb _ => (true, repeat 0 (Z.to_nat cb)))
                  (fun _ _ => Some 4) (fun _ _ _ _ _ => 0) 0x1000 0x2000 284.

(** A kernel image that is zero but for a debug-info record at offset 0x100:
    "RSDS", [sample_guid], age 1 and the name "ntkrnlmp.pdb". *)
Definition sample_kernel_image (off : Z) : Z :=
  nth (Z.to_nat (off - 0x100))
      ([0x52; 0x53; 0x44; 0x53] ++ sample_guid ++ [1; 0; 0; 0]
       ++ [110; 116; 107; 114; 110; 108; 109; 112; 46; 112; 100; 98; 0])
      0.

Definition V_kernel : EXTERNALS_VMM :=
  mkEXTERNALS_VMM (fun _ _ => None) (fun _ _ _ _ pb => (false, pb))
                  (fun _ _ => Some 4) (fun _ _ _ _ off => sample_kernel_image off)
                  0x1000 0x2000 284.

(** The entry read back is the entry that was there. *)
Ltac same_entry :=
  let H := fresh in
  intros H; simpl in H;
  match goal with
  | He : _ !! _ = Some _ |- _ => tryif constr_eq He H then fail else rewrite He in H
  end;
  injection H as <-; assumption.

(** * Properties *)

(** ** Machine words *)

Lemma le_decode_encode (cb : nat) : forall v,
  0 <= v < 2 ^ (8 * Z.of_nat cb) -> le_decode (le_encode cb v) = v.
Proof.
  induction cb as [|cb IH]; intros v Hv.
  - simpl in *. lia.
  - cbn [le_encode le_decode].
    assert (Hq : 0 <= v / 2 ^ 8 < 2 ^ (8 * Z.of_nat cb)).
    { split; [apply Z.div_pos; lia|].
      apply Z.div_lt_upper_bound; [lia|].
      rewrite <- Z.pow_add_r by lia.
      replace (8 + 8 * Z.of_nat cb) with (8 * Z.of_nat (S cb)) by lia. lia. }
    rewrite (IH _ Hq). unfold byte. rewrite Z.mod_mod by lia.
    apply Z.bits_inj'. intros n Hn. rewrite Z.lor_spec.
    destruct (Z.lt_ge_cases n 8) as [Hlt|Hge].
    + rewrite Z.mod_pow2_bits_low by lia. rewrite Z.shiftl_spec_low by lia.
      apply orb_false_r.
    + rewrite Z.mod_pow2_bits_high by lia. rewrite Z.shiftl_spec by lia.
      rewrite <- Z.shiftr_div_pow2 by lia. rewrite Z.shiftr_spec by lia.
      replace (n - 8 + 8) with n by lia. reflexivity.
Qed.

(** ** The index container *)

Lemma ObMap_GetByKey_app pm k p k' :
  ObMap_GetByKey (pm ++ [(k, p)]) k' =
  match ObMap_GetByKey pm k' with
  | Some q => Some q
  | None => if k =? k' then Some p else None
  end.
Proof.
  induction pm as [|[k0 p0] pm IH]; simpl.
  - reflexivity.
  - destruct (k0 =? k'); [reflexivity|exact IH].
Qed.

Lemma ObMap_Push_exists pm k p : ObMap_ExistsKey (ObMap_Push pm k p) k = true.
Proof.
  unfold ObMap_Push, ObMap_ExistsKey.
  destruct (ObMap_GetByKey pm k) eqn:E.
  - rewrite E. reflexivity.
  - rewrite ObMap_GetByKey_app, E, Z.eqb_refl. reflexivity.
Qed.

Lemma ObMap_Push_present pm k p :
  ObMap_ExistsKey pm k = true -> ObMap_Push pm k p = pm.
Proof. unfold ObMap_Push. intros ->. reflexivity. Qed.

Lemma ObMap_Push_fresh pm k p :
  ObMap_ExistsKey pm k = false -> ObMap_Push pm k p = pm ++ [(k, p)].
Proof. unfold ObMap_Push. intros ->. reflexivity. Qed.

Lemma ObMap_ExistsKey_false pm k :
  ObMap_ExistsKey pm k = false -> ObMap_GetByKey pm k = None.
Proof. unfold ObMap_ExistsKey. destruct (ObMap_GetByKey pm k); congruence. Qed.

Lemma ObMap_Push_first pm k p q :
  ObMap_GetByKey pm k = Some q -> ObMap_GetByKey (ObMap_Push pm k p) k = Some q.
Proof.
  intros H. rewrite ObMap_Push_present; [exact H|].
  unfold ObMap_ExistsKey. rewrite H. reflexivity.
Qed.

Lemma ObMap_Push_other pm k p k' :
  k <> k' -> ObMap_GetByKey (ObMap_Push pm k p) k' = ObMap_GetByKey pm k'.
Proof.
  intros Hne. unfold ObMap_Push. destruct (ObMap_ExistsKey pm k); [reflexivity|].
  rewrite ObMap_GetByKey_app. destruct (ObMap_GetByKey pm k'); [reflexivity|].
  destruct (Z.eqb_spec k k'); congruence.
Qed.

(** ** The lazy loader *)

Section LoaderFacts.

Variable X : EXTERNALS.

Lemma PDB_LoadEnsureEx_failed w p e :
  heap w !! p = Some e -> fLoadFailed e = true -> PDB_LoadEnsureEx X w p = (w, false).
Proof.
  intros He Hf. unfold PDB_LoadEnsureEx. rewrite He, Hf.
  destruct (pPdbContext w); reflexivity.
Qed.

Lemma PDB_LoadEnsureEx_loaded w p e :
  heap w !! p = Some e -> qwLoadAddress e <> 0 ->
  fst (PDB_LoadEnsureEx X w p) = w.
Proof.
  intros He Hl. unfold PDB_LoadEnsureEx. rewrite He.
  destruct (pPdbContext w); [|reflexivity].
  destruct (fLoadFailed e); [reflexivity|].
  destruct (Z.eqb_spec (qwLoadAddress e) 0); [contradiction|reflexivity].
Qed.

Lemma PDB_LoadEnsureEx_other w p q :
  p <> q -> heap (fst (PDB_LoadEnsureEx X w q)) !! p = heap w !! p.
Proof.
  intros Hne. unfold PDB_LoadEnsureEx.
  destruct (pPdbContext w) as [ctx|]; [|reflexivity].
  destruct (heap w !! q) as [e|]; [|reflexivity].
  destruct (fLoadFailed e); [reflexivity|].
  destruct (negb (qwLoadAddress e =? 0)); [reflexivity|].
  destruct (SymFindFileInPath X _ _ _ _) as [path|]; simpl.
  - match goal with |- context [if ?c then _ else _] => destruct c end; simpl;
      apply list_lookup_insert_ne; congruence.
  - apply list_lookup_insert_ne; congruence.
Qed.

Lemma PDB_LoadEnsureEx_final w p q e :
  heap w !! p = Some e -> load_final e ->
  heap (fst (PDB_LoadEnsureEx X w q)) !! p = Some e.
Proof.
  intros He Hfin. destruct (Nat.eq_dec p q) as [->|Hne].
  - destruct Hfin as [Hf|Hl].
    + rewrite (PDB_LoadEnsureEx_failed _ _ _ He Hf). exact He.
    + rewrite (PDB_LoadEnsureEx_loaded _ _ _ He Hl). exact He.
  - rewrite PDB_LoadEnsureEx_other by exact Hne. exact He.
Qed.

Lemma run_load_final w c p e :
  heap w !! p = Some e -> load_final e ->
  heap (fst (run_load X w c)) !! p = Some e.
Proof.
  intros He Hfin. destruct c as [q|h]; simpl.
  - apply PDB_LoadEnsureEx_final; assumption.
  - unfold PDB_LoadEnsure. destruct (PDB_EntryFromHandle X w h) as [q|].
    + apply PDB_LoadEnsureEx_final; assumption.
    + exact He.
Qed.

Lemma run_loads_final cs : forall w p e,
  heap w !! p = Some e -> load_final e ->
  heap (run_loads X w cs) !! p = Some e.
Proof.
  induction cs as [|c cs IH]; intros w p e He Hfin; simpl.
  - exact He.
  - apply IH; [|exact Hfin]. apply run_load_final; assumption.
Qed.

(** One load attempt keeps [load_exclusive_if_path] on every entry. *)
Lemma PDB_LoadEnsureEx_exclusive w p q e e' :
  heap w !! p = Some e -> load_exclusive_if_path e ->
  heap (fst (PDB_LoadEnsureEx X w q)) !! p = Some e' ->
  load_exclusive_if_path e'.
Proof.
  intros He Hex. destruct (Nat.eq_dec p q) as [->|Hne].
  2:{ rewrite PDB_LoadEnsureEx_other by exact Hne. same_entry. }
  unfold PDB_LoadEnsureEx. rewrite He.
  destruct (pPdbContext w) as [ctx|]; [|same_entry].
  destruct (fLoadFailed e) eqn:Hf; [same_entry|].
  destruct (Z.eqb_spec (qwLoadAddress e) 0) as [Hz|Hnz]; simpl; [|same_entry].
  assert (Hlt : (q < length (heap w))%nat) by (eapply lookup_lt_Some; exact He).
  destruct (SymFindFileInPath X _ _ _ _) as [path|]; simpl.
  - match goal with |- context [if ?c then _ else _] => destruct c eqn:Hc end; simpl;
      rewrite list_lookup_insert_eq by exact Hlt; intros [= <-];
      unfold load_exclusive_if_path; simpl; intros Hf' Hl'; [|discriminate].
    destruct (Util_StrDupA X _ path); [|reflexivity].
    simpl in Hc. apply Z.eqb_eq in Hc. contradiction.
  - rewrite list_lookup_insert_eq by exact Hlt. intros [= <-].
    unfold load_exclusive_if_path; simpl. intros _ Hl'. contradiction.
Qed.

Lemma PDB_LoadEnsureEx_length w q :
  length (heap (fst (PDB_LoadEnsureEx X w q))) = length (heap w).
Proof.
  unfold PDB_LoadEnsureEx.
  destruct (pPdbContext w) as [ctx|]; [|reflexivity].
  destruct (heap w !! q) as [e|]; [|reflexivity].
  destruct (fLoadFailed e); [reflexivity|].
  destruct (negb (qwLoadAddress e =? 0)); [reflexivity|].
  destruct (SymFindFileInPath X _ _ _ _) as [path|]; simpl.
  - match goal with |- context [if ?c then _ else _] => destruct c end; simpl;
      apply length_insert.
  - apply length_insert.
Qed.

Lemma run_load_length w c :
  length (heap (fst (run_load X w c))) = length (heap w).
Proof.
  destruct c as [q|h]; simpl.
  - apply PDB_LoadEnsureEx_length.
  - unfold PDB_LoadEnsure. destruct (PDB_EntryFromHandle X w h).
    + apply PDB_LoadEnsureEx_length.
    + reflexivity.
Qed.

Lemma run_loads_exclusive cs : forall w p e e',
  heap w !! p = Some e -> load_exclusive_if_path e ->
  heap (run_loads X w cs) !! p = Some e' ->
  load_exclusive_if_path e'.
Proof.
  induction cs as [|c cs IH]; intros w p e e' He Hex; simpl.
  - same_entry.
  - assert (Hlen : exists e1, heap (fst (run_load X w c)) !! p = Some e1).
    { destruct (heap (fst (run_load X w c)) !! p) as [e1|] eqn:E1; [eauto|].
      exfalso. apply lookup_ge_None in E1. apply lookup_lt_Some in He.
      rewrite run_load_length in E1. lia. }
    destruct Hlen as [e1 He1]. apply (IH _ _ e1); [exact He1|].
    destruct c as [q|h]; simpl in He1.
    + exact (PDB_LoadEnsureEx_exclusive _ _ _ _ _ He Hex He1).
    + unfold PDB_LoadEnsure in He1. destruct (PDB_EntryFromHandle X w h).
      * exact (PDB_LoadEnsureEx_exclusive _ _ _ _ _ He Hex He1).
      * simpl in He1. rewrite He in He1. injection He1 as <-. exact Hex.
Qed.

Lemma PDB_LoadEnsureEx_true w p :
  snd (PDB_LoadEnsureEx X w p) = true ->
  exists e', heap (fst (PDB_LoadEnsureEx X w p)) !! p = Some e'
             /\ fLoadFailed e' = false /\ qwLoadAddress e' <> 0.
Proof.
  unfold PDB_LoadEnsureEx.
  destruct (pPdbContext w) as [ctx|]; [|simpl; discriminate].
  destruct (heap w !! p) as [e|] eqn:He; [|simpl; discriminate].
  destruct (fLoadFailed e) eqn:Hf; [simpl; discriminate|].
  destruct (Z.eqb_spec (qwLoadAddress e) 0) as [Hz|Hnz]; simpl.
  2:{ intros _. exists e. auto. }
  assert (Hlt : (p < length (heap w))%nat) by (eapply lookup_lt_Some; exact He).
  destruct (SymFindFileInPath X _ _ _ _) as [path|]; simpl; [|discriminate].
  match goal with |- context [if ?c then _ else _] => destruct c eqn:Hc end; simpl;
    [discriminate|]. intros _.
  rewrite list_lookup_insert_eq by exact Hlt. eexists. split; [reflexivity|]. simpl.
  split; [reflexivity|]. apply orb_false_iff in Hc. destruct Hc as [_ Hc].
  apply Z.eqb_neq in Hc. exact Hc.
Qed.

End LoaderFacts.

(** C1, the claim as stated: on a registered entry a nonzero
    [qwLoadAddress] and [fLoadFailed] exclude each other.  Here the backend
    locates and loads the file and [Util_StrDupA] returns NULL for the path:
    the entry ends up failed and loaded. *)
Lemma C1_failed_and_loaded :
  snd (PDB_LoadEnsureEx X_nodup world_registered 0) = false
  /\ fLoadFailed <$> heap (fst (PDB_LoadEnsureEx X_nodup world_registered 0)) !! 0%nat
     = Some true
  /\ qwLoadAddress <$> heap (fst (PDB_LoadEnsureEx X_nodup world_registered 0)) !! 0%nat
     = Some VMMWIN_PDB_LOAD_ADDRESS_BASE.
Proof. vm_compute. repeat split. Qed.

(** A load that returns FALSE, with the subsystem initialised, has set
    [fLoadFailed] on the entry. *)
Lemma PDB_LoadEnsureEx_false (X : EXTERNALS) w p e :
  pPdbContext w <> None -> heap w !! p = Some e ->
  snd (PDB_LoadEnsureEx X w p) = false ->
  exists e', heap (fst (PDB_LoadEnsureEx X w p)) !! p = Some e' /\ fLoadFailed e' = true.
Proof.
  intros Hctx He. unfold PDB_LoadEnsureEx. rewrite He.
  destruct (pPdbContext w) as [ctx|]; [|contradiction].
  destruct (fLoadFailed e) eqn:Hf; [intros _; exists e; auto|].
  destruct (negb (qwLoadAddress e =? 0)); [discriminate|].
  assert (Hlt : (p < length (heap w))%nat) by (eapply lookup_lt_Some; exact He).
  destruct (SymFindFileInPath X _ _ _ _) as [path|]; cbn [fst snd].
  - match goal with |- context [if ?c then _ else _] => destruct c end;
      cbn [fst snd]; [|discriminate].
    intros _. eexists.
    split; [cbn [set_entry heap set_ctx emit]; apply list_lookup_insert_eq; exact Hlt|].
    reflexivity.
  - intros _. eexists.
    split; [cbn [set_entry heap emit]; apply list_lookup_insert_eq; exact Hlt|].
    reflexivity.
Qed.

(** C1, amended: for an entry of the heap, (1) once [fLoadFailed] is set or
    [qwLoadAddress] is nonzero no sequence of [PDB_LoadEnsureEx] and
    [PDB_LoadEnsure] calls, on this or any other entry, changes the entry;
    (2) on an entry whose [fLoadFailed] is set every later
    [PDB_LoadEnsureEx] returns FALSE and leaves the world, the trace of
    backend calls included, as it was; (3) a load that returns TRUE leaves
    [fLoadFailed] clear and [qwLoadAddress] nonzero; (4) [fLoadFailed]
    together with a nonzero [qwLoadAddress] occurs only where the path was
    not duplicated, and this is kept by every sequence of loads; (5) with
    the subsystem initialised, a load that returns FALSE has set
    [fLoadFailed] on the entry, so that after it, and after any sequence of
    further loads, [PDB_LoadEnsureEx] on the entry returns FALSE and leaves
    the world, the trace of backend calls included, as it was. *)
Theorem C1_load_state_final (X : EXTERNALS) (w : WORLD) (p : nat) (e : PDB_ENTRY)
    (cs : list LOAD_CALL) :
  heap w !! p = Some e ->
  (load_final e -> heap (run_loads X w cs) !! p = Some e)
  /\ (fLoadFailed e = true ->
      PDB_LoadEnsureEx X (run_loads X w cs) p = (run_loads X w cs, false))
  /\ (snd (PDB_LoadEnsureEx X w p) = true ->
      exists e', heap (fst (PDB_LoadEnsureEx X w p)) !! p = Some e'
                 /\ fLoadFailed e' = false /\ qwLoadAddress e' <> 0)
  /\ (load_exclusive_if_path e ->
      forall e', heap (run_loads X w cs) !! p = Some e' -> load_exclusive_if_path e')
  /\ (pPdbContext w <> None -> snd (PDB_LoadEnsureEx X w p) = false ->
      exists e',
        heap (fst (PDB_LoadEnsureEx X w p)) !! p = Some e'
        /\ fLoadFailed e' = true
        /\ heap (run_loads X (fst (PDB_LoadEnsureEx X w p)) cs) !! p = Some e'
        /\ PDB_LoadEnsureEx X (run_loads X (fst (PDB_LoadEnsureEx X w p)) cs) p
           = (run_loads X (fst (PDB_LoadEnsureEx X w p)) cs, false)).
Proof.
  intros He. repeat split.
  - intros Hfin. apply run_loads_final; assumption.
  - intros Hf. eapply PDB_LoadEnsureEx_failed; [|exact Hf].
    apply run_loads_final; [exact He|left; exact Hf].
  - apply PDB_LoadEnsureEx_true.
  - intros Hex e'. eapply run_loads_exclusive; eassumption.
  - intros Hctx Hfalse.
    destruct (PDB_LoadEnsureEx_false X w p e Hctx He Hfalse) as (e' & He' & Hf).
    assert (Hkept : heap (run_loads X (fst (PDB_LoadEnsureEx X w p)) cs) !! p = Some e')
      by (apply run_loads_final; [exact He'|left; exact Hf]).
    exists e'. split; [exact He'|]. split; [exact Hf|]. split; [exact Hkept|].
    exact (PDB_LoadEnsureEx_failed X _ p e' Hkept Hf).
Qed.

Lemma C1_load_state_final_witness :
  exists e',
    heap (fst (PDB_LoadEnsureEx X_nofile world_registered_enabled 0)) !! 0%nat = Some e'
    /\ fLoadFailed e' = true
    /\ heap (run_loads X_nofile (fst (PDB_LoadEnsureEx X_nofile world_registered_enabled 0))
               [CallEx 0; CallHandle 1883368706899315958; CallEx 0]) !! 0%nat = Some e'
    /\ PDB_LoadEnsureEx X_nofile
         (run_loads X_nofile (fst (PDB_LoadEnsureEx X_nofile world_registered_enabled 0))
            [CallEx 0; CallHandle 1883368706899315958; CallEx 0]) 0
       = (run_loads X_nofile (fst (PDB_LoadEnsureEx X_nofile world_registered_enabled 0))
            [CallEx 0; CallHandle 1883368706899315958; CallEx 0], false).
Proof.
  refine (proj2 (proj2 (proj2 (proj2
            (C1_load_state_final X_nofile world_registered_enabled 0
               (mkPDB_ENTRY 1883368706899315958 0x1000 (Some "ntoskrnl"%string)
                            (Some "ntkrnlmp.pdb"%string) sample_guid 1 0x2000 false None 0)
               [CallEx 0; CallHandle 1883368706899315958; CallEx 0] eq_refl)))) _ _).
  - discriminate.
  - reflexivity.
Defined.

(** ** Registration *)

Section RegistryFacts.

Variable X : EXTERNALS.

(** A triple whose fingerprint is already indexed: nothing is touched. *)
Lemma PDB_AddModuleEntry_present w ctx va cb szModule szPdbName guid age :
  pPdbContext w = Some ctx ->
  ObMap_ExistsKey (pmPdbByHash ctx) (PDB_HashPdb X szPdbName guid age) = true ->
  PDB_AddModuleEntry X w va cb szModule szPdbName guid age
  = (w, PDB_HashPdb X szPdbName guid age).
Proof.
  intros Hctx Hex. unfold PDB_AddModuleEntry. rewrite Hctx, Hex. reflexivity.
Qed.

(** A new triple, with the allocation granted: the world afterwards. *)
Lemma PDB_AddModuleEntry_fresh w ctx va cb szModule szPdbName guid age :
  pPdbContext w = Some ctx ->
  ObMap_ExistsKey (pmPdbByHash ctx) (PDB_HashPdb X szPdbName guid age) = false ->
  Ob_Alloc X (trace w) = true ->
  exists e t,
    PDB_AddModuleEntry X w va cb szModule szPdbName guid age
    = (mkWORLD
         (Some (mkCTX (fDisabled ctx)
                  (pmPdbByHash ctx ++ [(PDB_HashPdb X szPdbName guid age, length (heap w))])
                  (ObMap_Push (pmPdbByModule ctx) (PDB_HashModuleName X szModule)
                              (length (heap w)))
                  (qwLoadAddressNext ctx)))
         (f32 w) (heap w ++ [e]) t,
       PDB_HashPdb X szPdbName guid age)
    /\ qwHash e = PDB_HashPdb X szPdbName guid age
    /\ fLoadFailed e = false.
Proof.
  intros Hctx Hex Hal. unfold PDB_AddModuleEntry. rewrite Hctx, Hex. simpl.
  rewrite Hal. simpl. rewrite (ObMap_Push_fresh _ _ _ Hex).
  eexists. eexists. split; [reflexivity|]. split; reflexivity.
Qed.

End RegistryFacts.

(** C2, the claim as stated: with the subsystem initialised and the
    allocation granted the handle is nonzero.  For this triple the
    fingerprint is zero: the entry is created and indexed, and the handle
    returned is 0. *)
Lemma C2_zero_handle :
  snd (PDB_AddModuleEntry sample_X world_initial 0x1000 0x2000
         "ntoskrnl"%string "ntkrnlmp.pdb"%string zero_guid 1) = 0
  /\ length (heap (fst (PDB_AddModuleEntry sample_X world_initial 0x1000 0x2000
                          "ntoskrnl"%string "ntkrnlmp.pdb"%string zero_guid 1))) = 1%nat
  /\ pmPdbByHash <$> pPdbContext (fst (PDB_AddModuleEntry sample_X world_initial 0x1000 0x2000
                          "ntoskrnl"%string "ntkrnlmp.pdb"%string zero_guid 1))
     = Some [(0, 0%nat)].
Proof. vm_compute. repeat split. Qed.

(** Whatever [Util_HashStringA] is, every name and age has a GUID that
    brings the fingerprint to zero. *)
Lemma PDB_HashPdb_zero_exists (X : EXTERNALS) (szPdbName : string) (dwPdbAge : Z) :
  exists pbPdbGUID,
    length pbPdbGUID = 16%nat
    /\ Forall (fun b => 0 <= b < 2 ^ 8) pbPdbGUID
    /\ PDB_HashPdb X szPdbName pbPdbGUID dwPdbAge = 0.
Proof.
  set (h1 := qword (dwPdbAge + ror13_qword (qword (Util_HashStringA X szPdbName)))).
  set (r := ror13_qword (qword (0 + ror13_qword h1))).
  set (hi := qword (- r)).
  assert (Hhi : 0 <= hi < 2 ^ (8 * Z.of_nat 8)).
  { unfold hi, qword. apply Z.mod_pos_bound. lia. }
  exists (repeat 0 8 ++ le_encode 8 hi). split; [reflexivity|]. split.
  - apply Forall_app. split.
    + repeat constructor; lia.
    + cbn [le_encode]. repeat constructor; apply Z.mod_pos_bound; lia.
  - unfold PDB_HashPdb. fold h1.
    assert (H0 : read_qword (repeat 0 8 ++ le_encode 8 hi) 0 = 0) by reflexivity.
    assert (H8 : read_qword (repeat 0 8 ++ le_encode 8 hi) 8 = hi).
    { unfold read_qword. cbn [repeat app skipn]. rewrite drop_0.
      rewrite firstn_all2 by (cbn [le_encode length]; lia).
      apply le_decode_encode. exact Hhi. }
    rewrite H0, H8. fold r. unfold hi, qword.
    rewrite Zplus_mod_idemp_l. replace (- r + r) with 0 by lia. reflexivity.
Qed.

(** C2, amended: with the subsystem initialised and the allocation granted
    when one is made, a first registration returns the fingerprint of the
    triple (zero when the fingerprint is zero), and a second registration of
    the same triple, under any module binding, returns the same handle and
    leaves the world as it was: no second entry, both indices and their
    sizes unchanged. *)
Theorem C2_add_idempotent (X : EXTERNALS) (w : WORLD) (ctx : VMMWIN_PDB_CONTEXT)
    (va cb : Z) (szModule : string) (va' cb' : Z) (szModule' : string)
    (szPdbName : string) (guid : list Z) (age : Z) :
  pPdbContext w = Some ctx ->
  (ObMap_ExistsKey (pmPdbByHash ctx) (PDB_HashPdb X szPdbName guid age) = false ->
   Ob_Alloc X (trace w) = true) ->
  let r1 := PDB_AddModuleEntry X w va cb szModule szPdbName guid age in
  let r2 := PDB_AddModuleEntry X (fst r1) va' cb' szModule' szPdbName guid age in
  snd r1 = PDB_HashPdb X szPdbName guid age
  /\ snd r2 = snd r1
  /\ fst r2 = fst r1
  /\ (pmPdbByHash <$> pPdbContext (fst r2)) = (pmPdbByHash <$> pPdbContext (fst r1))
  /\ (ObMap_Size <$> (pmPdbByHash <$> pPdbContext (fst r2)))
     = (ObMap_Size <$> (pmPdbByHash <$> pPdbContext (fst r1)))
  /\ length (heap (fst r2)) = length (heap (fst r1)).
Proof.
  intros Hctx Hal r1 r2.
  assert (H2 : r2 = (fst r1, PDB_HashPdb X szPdbName guid age)
               /\ snd r1 = PDB_HashPdb X szPdbName guid age).
  { subst r2 r1.
    destruct (ObMap_ExistsKey (pmPdbByHash ctx) (PDB_HashPdb X szPdbName guid age)) eqn:Hex.
    - rewrite (PDB_AddModuleEntry_present X w ctx va cb szModule _ _ _ Hctx Hex). simpl.
      split; [|reflexivity].
      apply (PDB_AddModuleEntry_present X w ctx); assumption.
    - destruct (PDB_AddModuleEntry_fresh X w ctx va cb szModule _ _ _ Hctx Hex (Hal eq_refl))
        as (e & t & -> & _). simpl. split; [|reflexivity].
      eapply PDB_AddModuleEntry_present; [reflexivity|]. simpl.
      unfold ObMap_ExistsKey. rewrite ObMap_GetByKey_app.
      rewrite (ObMap_ExistsKey_false _ _ Hex), Z.eqb_refl. reflexivity. }
  destruct H2 as [-> ->]. simpl. repeat split.
Qed.

Lemma C2_add_idempotent_witness :
  snd (PDB_AddModuleEntry sample_X world_registered 0x7000 0x3000
         "ntkrnlmp"%string "ntkrnlmp.pdb"%string sample_guid 1) = 1883368706899315958
  /\ fst (PDB_AddModuleEntry sample_X world_registered 0x7000 0x3000
         "ntkrnlmp"%string "ntkrnlmp.pdb"%string sample_guid 1) = world_registered.
Proof.
  pose proof (C2_add_idempotent sample_X world_initial ctx_initial 0x1000 0x2000
                "ntoskrnl"%string 0x7000 0x3000 "ntkrnlmp"%string
                "ntkrnlmp.pdb"%string sample_guid 1 eq_refl (fun _ => eq_refl)) as H.
  cbv zeta in H. destruct H as (H1 & H2 & H3 & _).
  split.
  - exact (eq_trans H2 H1).
  - exact H3.
Defined.

(** ** Lookup by module name *)

(** C3: with the subsystem initialised and enabled, "nt" and "ntoskrnl"
    resolve to the same handle; and whenever the entry indexed under the
    name the lookup hashes (the name itself, or "ntoskrnl" for "nt" and for
    NULL) has [fLoadFailed] set, the lookup returns zero. *)
Theorem C3_module_name_lookup (X : EXTERNALS) (w : WORLD) (ctx : VMMWIN_PDB_CONTEXT) :
  pPdbContext w = Some ctx -> fDisabled ctx = false ->
  PDB_GetHandleFromModuleName X w (Some "nt"%string)
  = PDB_GetHandleFromModuleName X w (Some "ntoskrnl"%string)
  /\ forall (szModule : option string) (p : nat) (e : PDB_ENTRY),
       ObMap_GetByKey (pmPdbByModule ctx)
         (PDB_HashModuleName X (PDB_CanonicalModuleName szModule)) = Some p ->
       heap w !! p = Some e -> fLoadFailed e = true ->
       PDB_GetHandleFromModuleName X w szModule = 0.
Proof.
  intros Hctx Hen. split.
  - reflexivity.
  - intros szModule p e Hp He Hf. unfold PDB_GetHandleFromModuleName.
    rewrite Hctx, Hen, Hp, He, Hf. reflexivity.
Qed.

Lemma C3_module_name_lookup_witness :
  PDB_GetHandleFromModuleName X_nofile world_failed (Some "nt"%string) = 0
  /\ PDB_GetHandleFromModuleName X_nofile world_failed (Some "ntoskrnl"%string) = 0.
Proof.
  pose proof (C3_module_name_lookup X_nofile world_failed
                (mkCTX false [(1883368706899315958, 0%nat)] [(1531402980, 0%nat)]
                       VMMWIN_PDB_LOAD_ADDRESS_BASE) eq_refl eq_refl) as [H1 H2].
  split.
  - exact (H2 (Some "nt"%string) 0%nat entry_failed eq_refl eq_refl eq_refl).
  - exact (H2 (Some "ntoskrnl"%string) 0%nat entry_failed eq_refl eq_refl eq_refl).
Defined.

(** C8: a NULL module name is looked up as "ntoskrnl". *)
Theorem C8_null_module_name (X : EXTERNALS) (w : WORLD) :
  PDB_CanonicalModuleName None = "ntoskrnl"%string
  /\ PDB_GetHandleFromModuleName X w None
     = PDB_GetHandleFromModuleName X w (Some "ntoskrnl"%string).
Proof. split; reflexivity. Qed.

(** C4, the claim as stated: [PDB_GetHandleFromModuleName] on the shared
    module name returns the handle of the first entry.  Two fingerprints are
    registered under the module name "nt" in an enabled subsystem: the lookup
    of "nt" is redirected to "ntoskrnl" and returns 0.  The same two
    registrations under "ntoskrnl" while the subsystem is still disabled:
    the lookup returns 0 as well. *)
Lemma C4_lookup_misses_first :
  (let r1 := PDB_AddModuleEntry sample_X world_enabled 0x1000 0x2000
               "nt"%string "nt.pdb"%string sample_guid 1 in
   let r2 := PDB_AddModuleEntry sample_X (fst r1) 0x5000 0x2000
               "nt"%string "nt.pdb"%string sample_guid 2 in
   snd r1 = 11042557644879230170 /\ snd r2 = 11042557919757137114
   /\ PDB_GetHandleFromModuleName sample_X (fst r2) (Some "nt"%string) = 0)
  /\
  (let r1 := PDB_AddModuleEntry sample_X world_initial 0x1000 0x2000
               "ntoskrnl"%string "ntkrnlmp.pdb"%string sample_guid 1 in
   let r2 := PDB_AddModuleEntry sample_X (fst r1) 0x5000 0x2000
               "ntoskrnl"%string "ntkrnlmp.pdb"%string sample_guid 2 in
   snd r1 = 1883368706899315958 /\ snd r2 = 1883368981777222902
   /\ PDB_GetHandleFromModuleName sample_X (fst r2) (Some "ntoskrnl"%string) = 0).
Proof. vm_compute. repeat split. Qed.

(** C4, amended: two triples with distinct fingerprints, neither indexed
    yet, are registered under one module name whose hash is not indexed yet
    (the pointers of the module-name index lie in the heap, and both
    allocations are granted).
    Then the module-name index maps the name to the first entry; the second
    entry is indexed under its own fingerprint and occurs nowhere in the
    module-name index; and, when the subsystem is enabled and the name is not
    the synonym "nt", [PDB_GetHandleFromModuleName] on the name returns the
    handle of the first entry. *)
Theorem C4_first_module_wins (X : EXTERNALS) (w : WORLD) (ctx : VMMWIN_PDB_CONTEXT)
    (va1 cb1 va2 cb2 : Z) (szModule : string)
    (name1 : string) (guid1 : list Z) (age1 : Z)
    (name2 : string) (guid2 : list Z) (age2 : Z) :
  let fp1 := PDB_HashPdb X name1 guid1 age1 in
  let fp2 := PDB_HashPdb X name2 guid2 age2 in
  let r1 := PDB_AddModuleEntry X w va1 cb1 szModule name1 guid1 age1 in
  let r2 := PDB_AddModuleEntry X (fst r1) va2 cb2 szModule name2 guid2 age2 in
  let p1 := length (heap w) in
  let p2 := S (length (heap w)) in
  pPdbContext w = Some ctx ->
  fp1 <> fp2 ->
  ObMap_ExistsKey (pmPdbByHash ctx) fp1 = false ->
  ObMap_ExistsKey (pmPdbByHash ctx) fp2 = false ->
  ObMap_ExistsKey (pmPdbByModule ctx) (PDB_HashModuleName X szModule) = false ->
  Forall (fun kp => (snd kp < length (heap w))%nat) (pmPdbByModule ctx) ->
  Ob_Alloc X (trace w) = true ->
  Ob_Alloc X (trace (fst r1)) = true ->
  exists ctx2 e1 e2,
    pPdbContext (fst r2) = Some ctx2
    /\ snd r1 = fp1 /\ snd r2 = fp2
    /\ heap (fst r2) !! p1 = Some e1 /\ qwHash e1 = fp1
    /\ heap (fst r2) !! p2 = Some e2 /\ qwHash e2 = fp2
    /\ ObMap_GetByKey (pmPdbByModule ctx2) (PDB_HashModuleName X szModule) = Some p1
    /\ ObMap_GetByKey (pmPdbByHash ctx2) fp1 = Some p1
    /\ ObMap_GetByKey (pmPdbByHash ctx2) fp2 = Some p2
    /\ ~ In p2 (map snd (pmPdbByModule ctx2))
    /\ (fDisabled ctx = false -> szModule <> "nt"%string ->
        PDB_GetHandleFromModuleName X (fst r2) (Some szModule) = fp1).
Proof.
  intros fp1 fp2 r1 r2 p1 p2 Hctx Hne Hf1 Hf2 Hfm Hwf Hal1 Hal2.
  destruct (PDB_AddModuleEntry_fresh X w ctx va1 cb1 szModule _ _ _ Hctx Hf1 Hal1)
    as (e1 & t1 & E1 & Hq1 & Hl1).
  fold fp1 in E1, Hq1. fold r1 in E1.
  rewrite (ObMap_Push_fresh _ _ _ Hfm) in E1.
  set (ctx1 := mkCTX (fDisabled ctx) (pmPdbByHash ctx ++ [(fp1, length (heap w))])
                     (pmPdbByModule ctx ++ [(PDB_HashModuleName X szModule, length (heap w))])
                     (qwLoadAddressNext ctx)) in E1.
  assert (Hf2' : ObMap_ExistsKey (pmPdbByHash ctx1) fp2 = false).
  { unfold ObMap_ExistsKey. simpl. rewrite ObMap_GetByKey_app.
    rewrite (ObMap_ExistsKey_false _ _ Hf2).
    destruct (Z.eqb_spec fp1 fp2); [contradiction|reflexivity]. }
  assert (Hm1 : ObMap_GetByKey (pmPdbByModule ctx1) (PDB_HashModuleName X szModule)
                = Some (length (heap w))).
  { simpl. rewrite ObMap_GetByKey_app, (ObMap_ExistsKey_false _ _ Hfm), Z.eqb_refl.
    reflexivity. }
  assert (Hctx1 : pPdbContext (fst r1) = Some ctx1) by (rewrite E1; reflexivity).
  destruct (PDB_AddModuleEntry_fresh X (fst r1) ctx1 va2 cb2 szModule _ _ _ Hctx1 Hf2' Hal2)
    as (e2 & t2 & E2 & Hq2 & Hl2).
  fold fp2 in E2, Hq2. fold r2 in E2.
  assert (Hh1 : heap (fst r1) = heap w ++ [e1]) by (rewrite E1; reflexivity).
  rewrite Hh1 in E2. rewrite length_app in E2. simpl length in E2.
  replace (length (heap w) + 1)%nat with p2 in E2 by (unfold p2; lia).
  assert (Hex1 : ObMap_ExistsKey (pmPdbByModule ctx1) (PDB_HashModuleName X szModule) = true)
    by (unfold ObMap_ExistsKey; rewrite Hm1; reflexivity).
  rewrite (ObMap_Push_present _ _ _ Hex1) in E2.
  eexists. exists e1, e2. rewrite E2. simpl.
  split; [reflexivity|].
  split; [rewrite E1; reflexivity|].
  split; [reflexivity|].
  split. { rewrite lookup_app_l by (rewrite length_app; simpl; lia).
           unfold p1. apply list_lookup_middle. reflexivity. }
  split; [exact Hq1|].
  split. { unfold p2. apply list_lookup_middle. rewrite length_app. simpl. lia. }
  split; [exact Hq2|].
  cbn [pmPdbByHash pmPdbByModule].
  split; [exact Hm1|].
  split. { rewrite ObMap_GetByKey_app. simpl. rewrite ObMap_GetByKey_app.
           rewrite (ObMap_ExistsKey_false _ _ Hf1), Z.eqb_refl. reflexivity. }
  split. { pose proof (ObMap_ExistsKey_false _ _ Hf2') as Hn2. simpl in Hn2.
           rewrite ObMap_GetByKey_app, Hn2, Z.eqb_refl. reflexivity. }
  split.
  { rewrite map_app. simpl. intros Hin. apply in_app_or in Hin. destruct Hin as [Hin|Hin].
    - apply in_map_iff in Hin. destruct Hin as (kp & Hkp & Hin).
      rewrite Forall_forall in Hwf. apply list_elem_of_In in Hin.
      specialize (Hwf kp Hin). unfold p2 in Hkp. lia.
    - simpl in Hin. unfold p2 in Hin. lia. }
  intros Hen Hnt.
  assert (Hc : PDB_CanonicalModuleName (Some szModule) = szModule).
  { unfold PDB_CanonicalModuleName.
    destruct (String.eqb_spec "nt"%string szModule); [congruence|reflexivity]. }
  unfold PDB_GetHandleFromModuleName.
  cbn [pPdbContext fst fDisabled pmPdbByModule heap]. rewrite Hen, Hc.
  cbn [pmPdbByModule ctx1] in Hm1. rewrite Hm1.
  rewrite lookup_app_l by (rewrite length_app; simpl; lia).
  rewrite list_lookup_middle by reflexivity. rewrite Hl1. exact Hq1.
Qed.

Lemma C4_first_module_wins_witness :
  PDB_GetHandleFromModuleName sample_X
    (fst (PDB_AddModuleEntry sample_X world_registered_enabled 0x5000 0x2000
            "ntoskrnl"%string "ntkrnlmp.pdb"%string sample_guid 2))
    (Some "ntoskrnl"%string) = 1883368706899315958.
Proof.
  pose proof (C4_first_module_wins sample_X world_enabled ctx_enabled
                0x1000 0x2000 0x5000 0x2000 "ntoskrnl"%string
                "ntkrnlmp.pdb"%string sample_guid 1 "ntkrnlmp.pdb"%string sample_guid 2) as H.
  cbv zeta in H.
  destruct H as (ctx2 & e1 & e2 & _ & _ & _ & _ & _ & _ & _ & _ & _ & _ & _ & H).
  - reflexivity.
  - vm_compute. discriminate.
  - reflexivity.
  - reflexivity.
  - reflexivity.
  - constructor.
  - reflexivity.
  - reflexivity.
  - apply H; [reflexivity|discriminate].
Defined.

(** ** Lookup by module address *)

Lemma find_module_base_none (hp : list PDB_ENTRY) (pm : OB_MAP) (va : Z) :
  (forall k p e, In (k, p) pm -> hp !! p = Some e -> vaModuleBase e <> va) ->
  forall n i, find_module_base hp pm va n i = None.
Proof.
  intros Hnew. induction n as [|n IH]; intros i; simpl; [reflexivity|].
  unfold ObMap_GetByIndex. destruct (pm !! i) as [[k p]|] eqn:Ei; simpl; [|apply IH].
  destruct (hp !! p) as [e|] eqn:Ep; [|apply IH].
  assert (Hin : In (k, p) pm).
  { apply list_elem_of_In. eapply list_elem_of_lookup_2. exact Ei. }
  destruct (Z.eqb_spec va (vaModuleBase e)) as [Heq|Hne]; [|apply IH].
  exfalso. apply (Hnew k p e Hin Ep). congruence.
Qed.

(** C7: for a module base no entry of the registry is bound to, a reported
    image size of zero or of more than 0x04000000 bytes makes
    [PDB_GetHandleFromModuleAddress] return zero with the context and the
    heap untouched; the only outside call made, if any, is [PE_GetSize], so
    neither [PE_GetCodeViewInfo] nor the registration is reached. *)
Theorem C7_module_size_bound (X : EXTERNALS) (w : WORLD) (pProcess va : Z) :
  (forall ctx k p e, pPdbContext w = Some ctx -> In (k, p) (pmPdbByHash ctx) ->
                     heap w !! p = Some e -> vaModuleBase e <> va) ->
  (qword (PE_GetSize X (trace w) pProcess va) = 0
   \/ 0x04000000 < qword (PE_GetSize X (trace w) pProcess va)) ->
  snd (PDB_GetHandleFromModuleAddress X w pProcess va) = 0
  /\ pPdbContext (fst (PDB_GetHandleFromModuleAddress X w pProcess va)) = pPdbContext w
  /\ heap (fst (PDB_GetHandleFromModuleAddress X w pProcess va)) = heap w
  /\ (trace (fst (PDB_GetHandleFromModuleAddress X w pProcess va)) = trace w
      \/ trace (fst (PDB_GetHandleFromModuleAddress X w pProcess va))
         = trace w ++ [EvPE_GetSize pProcess va]).
Proof.
  intros Hnew Hsize. unfold PDB_GetHandleFromModuleAddress.
  destruct (pPdbContext w) as [ctx|] eqn:Hctx.
  - rewrite find_module_base_none by (intros k p e; apply (Hnew ctx k p e eq_refl)).
    assert (Hc : (qword (PE_GetSize X (trace w) pProcess va) =? 0)
                 || (0x04000000 <? qword (PE_GetSize X (trace w) pProcess va)) = true).
    { apply orb_true_iff. destruct Hsize as [H|H].
      - left. apply Z.eqb_eq. exact H.
      - right. apply Z.ltb_lt. exact H. }
    rewrite Hc. simpl. rewrite Hctx. auto.
  - simpl. rewrite Hctx. auto.
Qed.

Lemma C7_module_size_bound_witness :
  snd (PDB_GetHandleFromModuleAddress X_big world_registered 4 0x7000) = 0
  /\ heap (fst (PDB_GetHandleFromModuleAddress X_big world_registered 4 0x7000))
     = heap world_registered.
Proof.
  pose proof (C7_module_size_bound X_big world_registered 4 0x7000) as H.
  destruct H as (H1 & _ & H3 & _).
  - intros ctx k p e Hctx Hin He. vm_compute in Hctx. injection Hctx as <-.
    destruct Hin as [[= <- <-]|[]]. vm_compute in He. injection He as <-.
    vm_compute. discriminate.
  - right. reflexivity.
  - split; [exact H1|exact H3].
Defined.

(** ** The 16-bit variants *)

(** C9: [PDB_GetTypeSizeShort] and [PDB_GetTypeChildOffsetShort] return TRUE
    exactly when the full-width query returns TRUE with a value of at most
    0xffff; then the WORD written is that value, not a truncation of it, and
    on failure the WORD is left as it was.  The world is the one the
    full-width query leaves. *)
Theorem C9_short_variants (X : EXTERNALS) (w : WORLD) (hPDB : Z)
    (szTypeName wszTypeChildName : string) (pw : option Z) :
  (let full := PDB_GetTypeSize X w hPDB szTypeName (indeterminate X (trace w)) in
   let short := PDB_GetTypeSizeShort X w hPDB szTypeName pw in
   fst (fst short) = fst (fst full)
   /\ (snd (fst short) = true <-> snd (fst full) = true /\ snd full <= 0xffff)
   /\ (snd (fst short) = true -> snd short = (fun _ => snd full) <$> pw)
   /\ (snd (fst short) = false -> snd short = pw))
  /\
  (let full := PDB_GetTypeChildOffset X w hPDB szTypeName wszTypeChildName
                 (indeterminate X (trace w)) in
   let short := PDB_GetTypeChildOffsetShort X w hPDB szTypeName wszTypeChildName pw in
   fst (fst short) = fst (fst full)
   /\ (snd (fst short) = true <-> snd (fst full) = true /\ snd full <= 0xffff)
   /\ (snd (fst short) = true -> snd short = (fun _ => snd full) <$> pw)
   /\ (snd (fst short) = false -> snd short = pw)).
Proof.
  assert (Hword : forall v, 0 <= v -> (0xffff <? v) = false -> word v = v).
  { intros v H0 H. apply Z.ltb_ge in H. unfold word. apply Z.mod_small. lia. }
  assert (Hsz : forall w0 d, 0 <= snd (PDB_GetTypeSize X w0 hPDB szTypeName d)
                             \/ snd (fst (PDB_GetTypeSize X w0 hPDB szTypeName d)) = false).
  { intros w0 d. unfold PDB_GetTypeSize.
    destruct (PDB_EntryFromHandle X w0 hPDB) as [p|]; [|right; reflexivity].
    destruct (PDB_LoadEnsureEx X w0 p) as [w1 b]. destruct b; [|right; reflexivity].
    simpl. destruct (SymGetTypeFromName X _ _ _) as [ok si]. simpl. left.
    unfold dword. apply Z.mod_pos_bound. lia. }
  assert (Hloop : forall n i w0 la ids nm d,
             0 <= snd (PDB_GetTypeChildOffset_Loop X n i w0 la ids nm d)
             \/ snd (fst (PDB_GetTypeChildOffset_Loop X n i w0 la ids nm d)) = false).
  { induction n as [|n IH]; intros i w0 la ids nm d; simpl.
    - right. reflexivity.
    - destruct (SymGetTypeInfo_SYMNAME X _ _ _) as [s|]; [|apply IH].
      destruct (String.eqb nm s); [|apply IH].
      destruct (SymGetTypeInfo_OFFSET X _ _ _) as [o|]; [|apply IH].
      left. simpl. unfold dword. apply Z.mod_pos_bound. lia. }
  assert (Hco : forall w0 d,
             0 <= snd (PDB_GetTypeChildOffset X w0 hPDB szTypeName wszTypeChildName d)
             \/ snd (fst (PDB_GetTypeChildOffset X w0 hPDB szTypeName wszTypeChildName d))
                = false).
  { intros w0 d. unfold PDB_GetTypeChildOffset.
    destruct (PDB_EntryFromHandle X w0 hPDB) as [p|]; [|right; reflexivity].
    destruct (PDB_LoadEnsureEx X w0 p) as [w1 b]. destruct b; [|right; reflexivity].
    simpl. destruct (SymEnumTypesByName X _ _ _) as [types ok].
    destruct (negb ok || _); [right; reflexivity|].
    destruct (SymGetTypeInfo_CHILDRENCOUNT X _ _ _) as [c|]; [|right; reflexivity].
    destruct (dword c =? 0); [right; reflexivity|].
    destruct (negb (LocalAlloc X _ _)); [right; reflexivity|].
    destruct (SymGetTypeInfo_FINDCHILDREN X _ _ _ _) as [ids|]; [|right; reflexivity].
    apply Hloop. }
  assert (Hgen : forall (w1 : WORLD) (ok : bool) (v : Z),
             (0 <= v \/ ok = false) ->
             let short := if negb ok || (0xffff <? v) then (w1, false, pw)
                          else (w1, true, (fun _ => word v) <$> pw) in
             fst (fst short) = w1
             /\ (snd (fst short) = true <-> ok = true /\ v <= 0xffff)
             /\ (snd (fst short) = true -> snd short = (fun _ => v) <$> pw)
             /\ (snd (fst short) = false -> snd short = pw)).
  { intros w1 ok v H0. cbv zeta. destruct ok; simpl.
    - destruct H0 as [H0|H0]; [|discriminate].
      destruct (0xffff <? v) eqn:Hv; simpl.
      + apply Z.ltb_lt in Hv. split; [reflexivity|]. split; [|split].
        * split; [discriminate|]. intros [_ H]. lia.
        * discriminate.
        * reflexivity.
      + rewrite (Hword v H0 Hv). apply Z.ltb_ge in Hv. split; [reflexivity|].
        split; [|split].
        * split; [intros _; split; [reflexivity|exact Hv]|reflexivity].
        * reflexivity.
        * discriminate.
    - split; [reflexivity|]. split; [|split].
      + split; [discriminate|]. intros [H _]. discriminate.
      + discriminate.
      + reflexivity. }
  split; cbv zeta.
  - unfold PDB_GetTypeSizeShort.
    specialize (Hsz w (indeterminate X (trace w))).
    destruct (PDB_GetTypeSize X w hPDB szTypeName (indeterminate X (trace w)))
      as [[w1 ok] v]. apply (Hgen w1 ok v). exact Hsz.
  - unfold PDB_GetTypeChildOffsetShort.
    specialize (Hco w (indeterminate X (trace w))).
    destruct (PDB_GetTypeChildOffset X w hPDB szTypeName wszTypeChildName
                (indeterminate X (trace w))) as [[w1 ok] v]. apply (Hgen w1 ok v). exact Hco.
Qed.

(** ** Symbol offsets on a 32-bit target *)

Lemma PDB_LoadEnsureEx_f32 (X : EXTERNALS) (w : WORLD) (p : nat) :
  f32 (fst (PDB_LoadEnsureEx X w p)) = f32 w.
Proof.
  unfold PDB_LoadEnsureEx.
  destruct (pPdbContext w) as [ctx|]; [|reflexivity].
  destruct (heap w !! p) as [e|]; [|reflexivity].
  destruct (fLoadFailed e); [reflexivity|].
  destruct (negb (qwLoadAddress e =? 0)); [reflexivity|].
  destruct (SymFindFileInPath X _ _ _ _) as [path|]; simpl; [|reflexivity].
  match goal with |- context [if ?c then _ else _] => destruct c end; reflexivity.
Qed.

Lemma symbol_offset_range (s : SYMBOL_INFO) : 0 <= symbol_offset s < 2 ^ 64.
Proof. unfold symbol_offset, qword. apply Z.mod_pos_bound. lia. Qed.

Lemma PDB_GetSymbolOffset_Callback_spec (s : SYMBOL_INFO) (d : Z) :
  PDB_GetSymbolOffset_Callback s d
  = (if symbol_offset s <? 0x10000000 then symbol_offset s else d, false).
Proof.
  unfold PDB_GetSymbolOffset_Callback. fold (symbol_offset s).
  destruct (Z.ltb_spec (symbol_offset s) 0x10000000) as [Hlt|Hge]; [|reflexivity].
  f_equal. unfold dword. apply Z.mod_small.
  pose proof (symbol_offset_range s). lia.
Qed.

(** The callback stops the enumeration at the first symbol. *)
Lemma enumerate_offset_first (syms : list SYMBOL_INFO) (d : Z) :
  enumerate PDB_GetSymbolOffset_Callback syms d
  = match syms with
    | [] => d
    | s :: _ => if symbol_offset s <? 0x10000000 then symbol_offset s else d
    end.
Proof.
  destruct syms as [|s syms]; simpl; [reflexivity|].
  rewrite PDB_GetSymbolOffset_Callback_spec. reflexivity.
Qed.

(** C10: on a 32-bit target, (1) the enumeration callback records the offset
    of a symbol only when it is below 0x10000000, and stops the enumeration;
    (2) when [PDB_GetSymbolOffset] returns TRUE the offset it wrote is
    nonzero and below 0x10000000; (3) for a symbol name whose first match
    lies at offset zero or at 0x10000000 or beyond, [PDB_GetSymbolOffset]
    returns FALSE and leaves zero in [*pdwSymbolOffset], whatever the
    enumeration itself returned. *)
Theorem C10_symbol_offset_32bit (X : EXTERNALS) (w : WORLD) (hPDB : Z)
    (szSymbolName : string) :
  f32 w = true ->
  (forall s d, PDB_GetSymbolOffset_Callback s d
               = (if symbol_offset s <? 0x10000000 then symbol_offset s else d, false))
  /\ (snd (fst (PDB_GetSymbolOffset X w hPDB szSymbolName)) = true ->
      0 < snd (PDB_GetSymbolOffset X w hPDB szSymbolName) < 0x10000000)
  /\ ((forall t la,
         match fst (SymEnumSymbols X t la szSymbolName) with
         | s :: _ => symbol_offset s = 0 \/ 0x10000000 <= symbol_offset s
         | [] => True
         end) ->
      snd (fst (PDB_GetSymbolOffset X w hPDB szSymbolName)) = false
      /\ snd (PDB_GetSymbolOffset X w hPDB szSymbolName) = 0).
Proof.
  intros H32. split; [exact PDB_GetSymbolOffset_Callback_spec|].
  unfold PDB_GetSymbolOffset.
  destruct (PDB_EntryFromHandle X w hPDB) as [p|].
  2:{ split; [discriminate|]. intros _. split; reflexivity. }
  pose proof (PDB_LoadEnsureEx_f32 X w p) as Hf.
  destruct (PDB_LoadEnsureEx X w p) as [w1 b]. simpl in Hf.
  destruct b; simpl.
  2:{ split; [discriminate|]. intros _. split; reflexivity. }
  rewrite Hf, H32.
  set (la := match heap w1 !! p with Some e => qwLoadAddress e | None => 0 end).
  destruct (SymEnumSymbols X (trace w1) la szSymbolName) as [syms ok] eqn:Es.
  rewrite enumerate_offset_first.
  assert (Hbad : (forall t la0,
                    match fst (SymEnumSymbols X t la0 szSymbolName) with
                    | s :: _ => symbol_offset s = 0 \/ 0x10000000 <= symbol_offset s
                    | [] => True
                    end) ->
                 match syms with
                 | s :: _ => symbol_offset s = 0 \/ 0x10000000 <= symbol_offset s
                 | [] => True
                 end).
  { intros H. specialize (H (trace w1) la). rewrite Es in H. exact H. }
  destruct syms as [|s syms].
  - destruct ok; simpl; (split; [discriminate|]); intros _; split; reflexivity.
  - pose proof (symbol_offset_range s) as Hr.
    destruct (Z.ltb_spec (symbol_offset s) 0x10000000) as [Hlt|Hge].
    + destruct (Z.eqb_spec (symbol_offset s) 0) as [Hz|Hnz].
      * destruct ok; simpl; (split; [discriminate|]); intros _; split; auto.
      * destruct ok; simpl.
        -- split; [intros _; lia|]. intros H. specialize (Hbad H). lia.
        -- split; [discriminate|]. intros H. specialize (Hbad H). lia.
    + destruct ok; simpl; (split; [discriminate|]); intros _; split; reflexivity.
Qed.

Lemma C10_symbol_offset_32bit_witness :
  snd (fst (PDB_GetSymbolOffset X_far world_registered32 1883368706899315958
              "PsInitialSystemProcess"%string)) = false
  /\ snd (PDB_GetSymbolOffset X_far world_registered32 1883368706899315958
              "PsInitialSystemProcess"%string) = 0.
Proof.
  apply (proj2 (proj2 (C10_symbol_offset_32bit X_far world_registered32 1883368706899315958
                         "PsInitialSystemProcess"%string eq_refl))).
  intros t la. simpl. right. unfold symbol_offset, qword. simpl.
  replace (la + 268435456 - la) with 268435456 by lia. reflexivity.
Defined.

(** ** The type-display worker *)

Section DisplayFacts.

Variable T : DT_EXTERNALS.

Lemma DT_fix_typename_fields pe :
  dwTag (DT_fix_typename T pe) = dwTag pe
  /\ qwBitFieldLength (DT_fix_typename T pe) = qwBitFieldLength pe
  /\ (dwTag pe = SymTagUDT -> DT_fix_typename T pe = pe).
Proof.
  unfold DT_fix_typename.
  destruct (Z.eqb_spec (dwTag pe) SymTagArrayType) as [Ha|Ha];
    destruct (Z.eqb_spec (dwTag pe) SymTagPointerType) as [Hp|Hp];
    rewrite ?andb_false_r; simpl;
    try (destruct (is_none (wszTypeName pe) && negb (dwPtrTypeIndex pe =? 0));
         simpl; try destruct (TI_GET_SYMNAME T (dwPtrTypeIndex pe)); simpl;
         repeat split; auto; unfold SymTagUDT, SymTagArrayType, SymTagPointerType in *;
         intros; lia).
Qed.

Lemma DT_fix_pointer_fields pe :
  dwTag (DT_fix_pointer T pe) = dwTag pe
  /\ wszTypeName (DT_fix_pointer T pe) = wszTypeName pe
  /\ qwBitFieldLength (DT_fix_pointer T pe) = qwBitFieldLength pe.
Proof.
  unfold DT_fix_pointer.
  destruct (negb (dwPtrTypeIndex pe =? 0) && is_none (wszTypeName pe)); [|auto].
  match goal with |- context [if ?c then _ else _] => destruct c end; simpl; auto.
Qed.

Lemma DT_fix_special_fields pe :
  wszTypeName (DT_fix_special pe) = wszTypeName pe
  /\ qwBitFieldLength (DT_fix_special pe) = qwBitFieldLength pe
  /\ (dwTag pe <> SymTagUDT -> dwTag (DT_fix_special pe) = dwTag pe).
Proof.
  unfold DT_fix_special. destruct (wszTypeName pe) as [s|] eqn:E; [|auto].
  destruct (Z.eqb_spec (dwTag pe) SymTagUDT) as [Hu|Hu]; simpl.
  - match goal with |- context [if ?c then _ else _] => destruct c end; simpl; auto.
    repeat split; auto. contradiction.
  - auto.
Qed.

(** The tag and the type name the worker ends up with for a field. *)
Lemma DT_final_tag pe :
  dwTag (DT_fix_special (DT_fix_pointer T (DT_fix_typename T pe)))
  = dwTag (DT_fix_special pe).
Proof.
  destruct (DT_fix_typename_fields pe) as (Ht & _ & Hu).
  destruct (Z.eqb_spec (dwTag pe) SymTagUDT) as [Hudt|Hn].
  - rewrite (Hu Hudt).
    destruct (DT_fix_pointer_fields pe) as (Ht' & Hn' & _).
    unfold DT_fix_special. rewrite Hn', Ht'.
    destruct (wszTypeName pe); [|exact Ht'].
    match goal with |- context [if ?c then _ else _] => destruct c end; simpl; auto.
  - destruct (DT_fix_pointer_fields (DT_fix_typename T pe)) as (Ht' & _ & _).
    destruct (DT_fix_special_fields (DT_fix_pointer T (DT_fix_typename T pe))) as (_ & _ & H1).
    destruct (DT_fix_special_fields pe) as (_ & _ & H2).
    rewrite H1, H2 by congruence. congruence.
Qed.

Lemma DT_final_typename pe :
  DT_is_udt pe = true ->
  wszTypeName (DT_fix_special (DT_fix_pointer T (DT_fix_typename T pe))) = wszTypeName pe.
Proof.
  unfold DT_is_udt. intros H. apply Z.eqb_eq in H.
  assert (Hudt : dwTag pe = SymTagUDT).
  { destruct (Z.eqb_spec (dwTag pe) SymTagUDT) as [Hu|Hn]; [exact Hu|].
    destruct (DT_fix_special_fields pe) as (_ & _ & H2). rewrite H2 in H by exact Hn.
    contradiction. }
  destruct (DT_fix_typename_fields pe) as (_ & _ & Hu). rewrite (Hu Hudt).
  destruct (DT_fix_special_fields (DT_fix_pointer T pe)) as (-> & _ & _).
  destruct (DT_fix_pointer_fields pe) as (_ & -> & _). reflexivity.
Qed.

Lemma DT_final_bits pe :
  qwBitFieldLength (DT_fix_special (DT_fix_pointer T (DT_fix_typename T pe)))
  = qwBitFieldLength pe.
Proof.
  destruct (DT_fix_special_fields (DT_fix_pointer T (DT_fix_typename T pe))) as (_ & -> & _).
  destruct (DT_fix_pointer_fields (DT_fix_typename T pe)) as (_ & _ & ->).
  destruct (DT_fix_typename_fields pe) as (_ & -> & _). reflexivity.
Qed.

Lemma PDB_DisplayTypeNt_DoWork_Loop_cons rec iLevel cnt nm mem cb pe pInfo' i cbLast base ctx :
  PDB_DisplayTypeNt_DoWork_Loop T rec iLevel cnt nm mem cb (pe :: pInfo') i cbLast base ctx
  = let cbType := DT_cbType pe in
    let pe1 := DT_fix_typename T pe in
    let cur := DT_bit_cursor cbLast cbType base in
    let pe2 := DT_fix_special (DT_fix_pointer T pe1) in
    let next := PDB_DisplayTypeNt_DoWork_Loop T rec iLevel cnt nm mem cb pInfo' (i + 1) cbType
                  (qword (cur + qwBitFieldLength pe2)) in
    if dwTag pe2 =? SymTagUDT then
      let ctx1 := DT_commit ctx (DT_line_prefix iLevel pe1 ++ [PcUdt (wszTypeName pe2)]) in
      if negb (dwChildCount pe2 =? 0) && (iLevel <? iLevelMax ctx1)
         && (is_none mem || (qword (dwOffset pe2 + qwLength pe2) <=? cb))
      then match rec ctx1 (byte (iLevel + 1)) (dwTypeIndex pe2) (dwChildCount pe2)
                     (wszTypeName pe2) ((fun pb => pb + dwOffset pe2) <$> mem)
                     (if is_none mem then 0 else dword (cb - dwOffset pe2)) with
           | Some c => next c
           | None => None
           end
      else next ctx1
    else
      next (DT_commit ctx
              (DT_line_prefix iLevel pe1
               ++ [PcType (PDB_DisplayTypeNt_GetTypeName pe2 cbType)
                          (if negb (qwBitFieldLength pe2 =? 0)
                           then DT_bit_annotation cur (qword (cur + qwBitFieldLength pe2 - 1))
                           else EmptyString)]
               ++ DT_line_value T pe2 cbType cur mem ++ DT_line_string T cnt i nm mem)).
Proof. reflexivity. Qed.

(** At the depth limit the loop commits one line per child and calls
    nothing. *)
Lemma PDB_DisplayTypeNt_DoWork_Loop_flat rec iLevel cnt nm mem cb :
  forall pInfo i cbLast base ctx,
    iLevelMax ctx <= iLevel ->
    exists lines,
      PDB_DisplayTypeNt_DoWork_Loop T rec iLevel cnt nm mem cb pInfo i cbLast base ctx
      = Some (mkPDB_DT_CONTEXT (szu8 ctx ++ lines) (iLevelMax ctx) (calls ctx))
      /\ length lines = length pInfo
      /\ forall (k : nat) pe, pInfo !! k = Some pe -> DT_is_udt pe = true ->
           exists ln, lines !! k = Some ln /\ last ln = Some (PcUdt (wszTypeName pe)).
Proof.
  induction pInfo as [|pe pInfo IH]; intros i last0 base ctx Hmax.
  - exists []. simpl. rewrite app_nil_r. destruct ctx. repeat split.
    intros k pe H. rewrite lookup_nil in H. discriminate.
  - rewrite PDB_DisplayTypeNt_DoWork_Loop_cons. cbv zeta. rewrite DT_final_tag.
    destruct (dwTag (DT_fix_special pe) =? SymTagUDT) eqn:Hudt.
    + assert (Hlt : (iLevel <? iLevelMax ctx) = false) by (apply Z.ltb_ge; exact Hmax).
      cbn [iLevelMax DT_commit]. rewrite Hlt, andb_false_r. cbn [andb].
      match goal with
      | |- context [DT_commit ctx ?l] =>
        destruct (IH (i + 1) (DT_cbType pe)
                    (qword (DT_bit_cursor last0 (DT_cbType pe) base
                            + qwBitFieldLength
                                (DT_fix_special (DT_fix_pointer T (DT_fix_typename T pe)))))
                    (DT_commit ctx l) Hmax) as (lines & E & Hlen & Hk);
        exists (l :: lines)
      end.
      rewrite E. cbn [szu8 iLevelMax calls DT_commit]. rewrite <- app_assoc.
      split; [reflexivity|]. split; [simpl; rewrite Hlen; reflexivity|].
      intros [|k] pe' Hpe Hu.
      * simpl in Hpe. injection Hpe as <-. eexists. split; [reflexivity|].
        rewrite last_snoc. rewrite (DT_final_typename pe Hu). reflexivity.
      * apply (Hk k pe' Hpe Hu).
    + match goal with
      | |- context [DT_commit ctx ?l] =>
        destruct (IH (i + 1) (DT_cbType pe)
                    (qword (DT_bit_cursor last0 (DT_cbType pe) base
                            + qwBitFieldLength
                                (DT_fix_special (DT_fix_pointer T (DT_fix_typename T pe)))))
                    (DT_commit ctx l) Hmax) as (lines & E & Hlen & Hk);
        exists (l :: lines)
      end.
      rewrite E. cbn [szu8 iLevelMax calls DT_commit]. rewrite <- app_assoc.
      split; [reflexivity|]. split; [simpl; rewrite Hlen; reflexivity|].
      intros [|k] pe' Hpe Hu.
      * simpl in Hpe. injection Hpe as <-. unfold DT_is_udt in Hu. congruence.
      * apply (Hk k pe' Hpe Hu).
Qed.

Lemma DT_ext_refl M ctx : DT_ext M ctx ctx.
Proof. split; [reflexivity|]. exists []. rewrite app_nil_r. split; [reflexivity|constructor]. Qed.

Lemma DT_ext_trans M c1 c2 c3 : DT_ext M c1 c2 -> DT_ext M c2 c3 -> DT_ext M c1 c3.
Proof.
  intros (H1 & n1 & E1 & F1) (H2 & n2 & E2 & F2). split; [congruence|].
  exists (n1 ++ n2). rewrite E2, E1, <- app_assoc. split; [reflexivity|].
  apply Forall_app. split; assumption.
Qed.

Lemma DT_ext_commit M ctx l : DT_ext M ctx (DT_commit ctx l).
Proof. split; [reflexivity|]. exists []. simpl. rewrite app_nil_r. split; [reflexivity|constructor]. Qed.

(** The loop stays within the limit when the worker one level down does. *)
Lemma PDB_DisplayTypeNt_DoWork_Loop_bounded rec iLevel cnt nm mem cb M :
  (forall ctx0 ty c nm0 mem0 cb0,
      iLevelMax ctx0 = M -> iLevel < M ->
      exists ctx0', rec ctx0 (byte (iLevel + 1)) ty c nm0 mem0 cb0 = Some ctx0'
                    /\ DT_ext M ctx0 ctx0') ->
  forall pInfo i cbLast base ctx,
    iLevelMax ctx = M ->
    exists ctx', PDB_DisplayTypeNt_DoWork_Loop T rec iLevel cnt nm mem cb pInfo i cbLast base ctx
                 = Some ctx' /\ DT_ext M ctx ctx'.
Proof.
  intros Hrec. induction pInfo as [|pe pInfo IH]; intros i last0 base ctx HM.
  - exists ctx. split; [reflexivity|apply DT_ext_refl].
  - rewrite PDB_DisplayTypeNt_DoWork_Loop_cons. cbv zeta.
    destruct (dwTag _ =? SymTagUDT).
    + match goal with |- context [DT_commit ctx ?l] => set (ctx1 := DT_commit ctx l) end.
      assert (HM1 : iLevelMax ctx1 = M) by exact HM.
      destruct (negb _ && (iLevel <? iLevelMax ctx1) && _) eqn:Hc.
      * apply andb_true_iff in Hc. destruct Hc as [Hc _].
        apply andb_true_iff in Hc. destruct Hc as [_ Hc]. apply Z.ltb_lt in Hc.
        rewrite HM1 in Hc.
        match goal with
        | |- context [rec ctx1 ?l ?ty ?c ?n ?m ?b] =>
          destruct (Hrec ctx1 ty c n m b HM1 Hc) as (ctx2 & -> & Hext)
        end.
        assert (HM2 : iLevelMax ctx2 = M) by (destruct Hext as [-> _]; exact HM1).
        match goal with
        | |- context [PDB_DisplayTypeNt_DoWork_Loop T rec _ _ _ _ _ pInfo ?i' ?l' ?b' ctx2] =>
          destruct (IH i' l' b' ctx2 HM2) as (ctx' & -> & Hext')
        end.
        exists ctx'. split; [reflexivity|].
        eapply DT_ext_trans; [apply DT_ext_commit|].
        eapply DT_ext_trans; eassumption.
      * match goal with
        | |- context [PDB_DisplayTypeNt_DoWork_Loop T rec _ _ _ _ _ pInfo ?i' ?l' ?b' ctx1] =>
          destruct (IH i' l' b' ctx1 HM1) as (ctx' & -> & Hext')
        end.
        exists ctx'. split; [reflexivity|].
        eapply DT_ext_trans; [apply DT_ext_commit|exact Hext'].
    + match goal with |- context [DT_commit ctx ?l] => set (ctx1 := DT_commit ctx l) end.
      assert (HM1 : iLevelMax ctx1 = M) by exact HM.
      match goal with
      | |- context [PDB_DisplayTypeNt_DoWork_Loop T rec _ _ _ _ _ pInfo ?i' ?l' ?b' ctx1] =>
        destruct (IH i' l' b' ctx1 HM1) as (ctx' & -> & Hext')
      end.
      exists ctx'. split; [reflexivity|].
      eapply DT_ext_trans; [apply DT_ext_commit|exact Hext'].
Qed.

Lemma DT_ext_enter M ctx iLevel ty :
  0 <= iLevel <= M -> DT_ext M ctx (DT_enter ctx iLevel ty).
Proof.
  intros H. split; [reflexivity|]. exists [(iLevel, ty)]. split; [reflexivity|].
  constructor; [exact H|constructor].
Qed.

(** With one unit of fuel per level left the worker returns, and every
    invocation it makes runs at a level within the limit. *)
Lemma PDB_DisplayTypeNt_DoWork_bounded :
  forall (fuel : nat) ctx iLevel ty cnt nm mem cb,
    0 <= iLevel <= iLevelMax ctx -> iLevelMax ctx <= 255 ->
    (Z.to_nat (iLevelMax ctx - iLevel) < fuel)%nat ->
    exists ctx', PDB_DisplayTypeNt_DoWork T fuel ctx iLevel ty cnt nm mem cb = Some ctx'
                 /\ DT_ext (iLevelMax ctx) ctx ctx'.
Proof.
  induction fuel as [|fuel IH]; intros ctx iLevel ty cnt nm mem cb Hl HM Hf; [lia|].
  pose proof (DT_ext_enter (iLevelMax ctx) ctx iLevel ty Hl) as Hent.
  cbn [PDB_DisplayTypeNt_DoWork].
  destruct (negb (DT_LocalAlloc T _ _)); [eauto|].
  destruct (SymGetTypeInfoEx_CHILDREN T ty cnt) as [IP1|]; [|eauto].
  destruct (negb (cnt =? _)); [eauto|].
  destruct (negb (DT_LocalAlloc T _ _)); [eauto|].
  destruct (SymGetTypeInfoEx_TYPES T _) as [IP2|]; [|eauto].
  destruct (PDB_DisplayTypeNt_DoWork_Loop_bounded
              (PDB_DisplayTypeNt_DoWork T fuel) iLevel cnt nm mem cb (iLevelMax ctx))
    with (pInfo := DT_merge IP1 IP2) (i := 0) (cbLast := 0) (base := 0)
         (ctx := DT_enter ctx iLevel ty) as (ctx' & E & Hext).
  - intros ctx0 ty0 c0 nm0 mem0 cb0 HM0 Hlt.
    assert (Hb : byte (iLevel + 1) = iLevel + 1) by (unfold byte; apply Z.mod_small; lia).
    rewrite Hb. rewrite <- HM0. apply IH; rewrite HM0; lia.
  - reflexivity.
  - exists ctx'. split; [exact E|]. eapply DT_ext_trans; eassumption.
Qed.

Lemma DT_merge_length IP1 : forall IP2, length (DT_merge IP1 IP2) = length IP1.
Proof. induction IP1 as [|a IP1 IH]; intros IP2; simpl; [|rewrite IH]; reflexivity. Qed.

(** At the depth limit the worker logs its own invocation only and, when
    both requests are answered, commits one line per child. *)
Lemma PDB_DisplayTypeNt_DoWork_flat (fuel : nat) ctx iLevel ty cnt nm mem cb :
  iLevelMax ctx <= iLevel -> (0 < fuel)%nat ->
  exists ctx',
    PDB_DisplayTypeNt_DoWork T fuel ctx iLevel ty cnt nm mem cb = Some ctx'
    /\ calls ctx' = calls ctx ++ [(iLevel, ty)]
    /\ forall IP1 IP2, DT_fetched T ctx iLevel ty cnt IP1 IP2 ->
         exists lines,
           szu8 ctx' = szu8 ctx ++ lines
           /\ length lines = length IP1
           /\ forall (k : nat) pe, DT_merge IP1 IP2 !! k = Some pe -> DT_is_udt pe = true ->
                exists ln, lines !! k = Some ln /\ last ln = Some (PcUdt (wszTypeName pe)).
Proof.
  intros Hmax Hf. destruct fuel as [|fuel]; [lia|].
  cbn [PDB_DisplayTypeNt_DoWork]. cbn [calls DT_enter].
  destruct (DT_LocalAlloc T (calls ctx ++ [(iLevel, ty)]) (cnt * 72)) eqn:A1; cbn [negb].
  2:{ eexists. split; [reflexivity|]. split; [reflexivity|].
      intros IP1 IP2 (H & _). congruence. }
  destruct (SymGetTypeInfoEx_CHILDREN T ty cnt) as [IP1|] eqn:E1.
  2:{ eexists. split; [reflexivity|]. split; [reflexivity|].
      intros IP1 IP2 (_ & H & _). congruence. }
  destruct (Z.eqb_spec cnt (Z.of_nat (length IP1))) as [Hc|Hc]; cbn [negb].
  2:{ eexists. split; [reflexivity|]. split; [reflexivity|].
      intros IP1' IP2 (_ & H & H' & _). congruence. }
  destruct (DT_LocalAlloc T (calls ctx ++ [(iLevel, ty)]) (cnt * 4)) eqn:A2; cbn [negb].
  2:{ eexists. split; [reflexivity|]. split; [reflexivity|].
      intros IP1' IP2 (_ & _ & _ & H & _). congruence. }
  destruct (SymGetTypeInfoEx_TYPES T (map r1_TYPEID IP1)) as [IP2|] eqn:E2.
  2:{ eexists. split; [reflexivity|]. split; [reflexivity|].
      intros IP1' IP2 (_ & H & _ & _ & H'). congruence. }
  destruct (PDB_DisplayTypeNt_DoWork_Loop_flat (PDB_DisplayTypeNt_DoWork T fuel)
              iLevel cnt nm mem cb (DT_merge IP1 IP2) 0 0 0 (DT_enter ctx iLevel ty) Hmax)
    as (lines & E & Hlen & Hk).
  rewrite E. eexists. split; [reflexivity|]. split; [reflexivity|].
  intros IP1' IP2' (_ & H1 & _ & _ & H2).
  assert (IP1' = IP1) by congruence. subst IP1'.
  assert (IP2' = IP2) by congruence. subst IP2'.
  exists lines. split; [reflexivity|]. split; [|exact Hk].
  rewrite Hlen. apply DT_merge_length.
Qed.

Lemma line_bits_prefix iLevel pe name buf rest :
  line_bits (DT_line_prefix iLevel pe ++ [PcType name buf] ++ rest) = Some buf.
Proof.
  unfold DT_line_prefix.
  destruct (negb (dwArrayCount pe =? 0)); destruct (negb (dwPtrTypeIndex pe =? 0));
    reflexivity.
Qed.

(** A field that is not rendered as an aggregate: one line with the bit
    annotation at the cursor, and the cursor advanced by the bit length. *)
Lemma PDB_DisplayTypeNt_DoWork_Loop_scalar rec iLevel cnt nm mem cb pe pInfo i cbLast base ctx :
  DT_is_udt pe = false ->
  exists ln,
    PDB_DisplayTypeNt_DoWork_Loop T rec iLevel cnt nm mem cb (pe :: pInfo) i cbLast base ctx
    = PDB_DisplayTypeNt_DoWork_Loop T rec iLevel cnt nm mem cb pInfo (i + 1) (DT_cbType pe)
        (qword (DT_bit_cursor cbLast (DT_cbType pe) base + qwBitFieldLength pe))
        (DT_commit ctx ln)
    /\ line_bits ln
       = Some (if negb (qwBitFieldLength pe =? 0)
               then DT_bit_annotation (DT_bit_cursor cbLast (DT_cbType pe) base)
                      (qword (DT_bit_cursor cbLast (DT_cbType pe) base
                              + qwBitFieldLength pe - 1))
               else EmptyString).
Proof.
  intros Hs. rewrite PDB_DisplayTypeNt_DoWork_Loop_cons. cbv zeta.
  rewrite DT_final_tag. unfold DT_is_udt in Hs. rewrite Hs. rewrite DT_final_bits.
  eexists. split; [reflexivity|]. apply line_bits_prefix.
Qed.

(** Three scalar bitfields of 3, 5 and 4 bits in one-byte storage, entered
    with the cursor at zero, anywhere in the child list. *)
Lemma PDB_DisplayTypeNt_DoWork_Loop_bits_3_5_4 rec iLevel cnt nm mem cb pa pb pc pInfo
    i cbLast base ctx :
  qwBitFieldLength pa = 3 -> qwBitFieldLength pb = 5 -> qwBitFieldLength pc = 4 ->
  DT_cbType pa = 1 -> DT_cbType pb = 1 -> DT_cbType pc = 1 ->
  DT_is_udt pa = false -> DT_is_udt pb = false -> DT_is_udt pc = false ->
  DT_bit_cursor cbLast 1 base = 0 ->
  exists l1 l2 l3,
    PDB_DisplayTypeNt_DoWork_Loop T rec iLevel cnt nm mem cb (pa :: pb :: pc :: pInfo)
      i cbLast base ctx
    = PDB_DisplayTypeNt_DoWork_Loop T rec iLevel cnt nm mem cb pInfo (i + 1 + 1 + 1) 1 4
        (DT_commit (DT_commit (DT_commit ctx l1) l2) l3)
    /\ line_bits l1 = Some " bit[0:2]"%string
    /\ line_bits l2 = Some " bit[3:7]"%string
    /\ line_bits l3 = Some " bit[0:3]"%string.
Proof.
  intros La Lb Lc Sa Sb Sc Ua Ub Uc Hcur.
  destruct (PDB_DisplayTypeNt_DoWork_Loop_scalar rec iLevel cnt nm mem cb pa
              (pb :: pc :: pInfo) i cbLast base ctx Ua) as (l1 & -> & B1).
  rewrite Sa, La, Hcur in *.
  destruct (PDB_DisplayTypeNt_DoWork_Loop_scalar rec iLevel cnt nm mem cb pb
              (pc :: pInfo) (i + 1) 1 (qword (0 + 3)) (DT_commit ctx l1) Ub)
    as (l2 & -> & B2).
  rewrite Sb, Lb in *.
  destruct (PDB_DisplayTypeNt_DoWork_Loop_scalar rec iLevel cnt nm mem cb pc
              pInfo (i + 1 + 1) 1 (qword (DT_bit_cursor 1 1 (qword (0 + 3)) + 5))
              (DT_commit (DT_commit ctx l1) l2) Uc)
    as (l3 & -> & B3).
  rewrite Sc, Lc in *.
  exists l1, l2, l3. split; [reflexivity|]. split; [exact B1|]. split; [exact B2|exact B3].
Qed.

End DisplayFacts.

(** C5: (1) with the depth limit at 0 the worker, entered at level 0 as
    [PDB_DisplayTypeNt] enters it, returns, logs no invocation but its own,
    and, when both requests are answered, commits exactly one line per child,
    the line of a nested aggregate ending in its type name: no child of a
    nested aggregate is visited, whatever its child count.  (2) Entered at a
    level within the limit, with one unit of fuel per level left, the worker
    returns, and every invocation it makes runs at a level between 0 and
    [iLevelMax].  (3) The call [PDB_DisplayTypeNt] makes returns for every
    [cLevelMax], and all its invocations run at levels up to [cLevelMax]. *)
Theorem C5_depth_bounded (T : DT_EXTERNALS) (ty cnt : Z) (nm : option string)
    (mem : option Z) (cb : Z) :
  (forall (ctxDT : PDB_DT_CONTEXT) (fuel : nat),
      iLevelMax ctxDT = 0 -> (0 < fuel)%nat ->
      exists ctx',
        PDB_DisplayTypeNt_DoWork T fuel ctxDT 0 ty cnt nm mem cb = Some ctx'
        /\ calls ctx' = calls ctxDT ++ [(0, ty)]
        /\ forall IP1 IP2, DT_fetched T ctxDT 0 ty cnt IP1 IP2 ->
             exists lines,
               szu8 ctx' = szu8 ctxDT ++ lines
               /\ length lines = length IP1
               /\ forall (k : nat) pe,
                    DT_merge IP1 IP2 !! k = Some pe -> DT_is_udt pe = true ->
                    exists ln, lines !! k = Some ln
                               /\ last ln = Some (PcUdt (wszTypeName pe)))
  /\ (forall (ctxDT : PDB_DT_CONTEXT) (iLevel : Z) (fuel : nat),
        0 <= iLevel <= iLevelMax ctxDT -> iLevelMax ctxDT <= 255 ->
        (Z.to_nat (iLevelMax ctxDT - iLevel) < fuel)%nat ->
        exists ctx',
          PDB_DisplayTypeNt_DoWork T fuel ctxDT iLevel ty cnt nm mem cb = Some ctx'
          /\ DT_ext (iLevelMax ctxDT) ctxDT ctx')
  /\ (forall (cLevelMax : Z) (header : DT_LINE),
        exists ctx',
          PDB_DisplayTypeNt_Worker T cLevelMax header ty cnt mem cb = Some ctx'
          /\ Forall (fun c => 0 <= fst c <= byte cLevelMax) (calls ctx')).
Proof.
  split; [|split].
  - intros ctxDT fuel HM Hf. apply PDB_DisplayTypeNt_DoWork_flat; [lia|exact Hf].
  - intros ctxDT iLevel fuel Hl HM Hf. apply PDB_DisplayTypeNt_DoWork_bounded; assumption.
  - intros cLevelMax header. unfold PDB_DisplayTypeNt_Worker.
    assert (Hb : 0 <= byte cLevelMax < 2 ^ 8) by (unfold byte; apply Z.mod_pos_bound; lia).
    destruct (PDB_DisplayTypeNt_DoWork_bounded T (S (Z.to_nat (byte cLevelMax)))
                (mkPDB_DT_CONTEXT [header] (byte cLevelMax) []) 0 ty cnt None mem cb)
      as (ctx' & E & _ & new & Hc & HF); cbn [iLevelMax]; try lia.
    exists ctx'. split; [exact E|]. rewrite Hc. exact HF.
Qed.

Lemma C5_depth_bounded_witness :
  PDB_DisplayTypeNt_DoWork sample_T 1 (ctxDT_fresh 0) 0 2 2 None None 0
  = Some (mkPDB_DT_CONTEXT
            [[PcField 0 0 (Some "Inner"%string); PcUdt (Some "_INNER"%string)];
             [PcField 0 8 (Some "Tail"%string); PcType "byte"%string EmptyString]]
            0 [(0, 2)])
  /\ exists ctx',
       PDB_DisplayTypeNt_DoWork sample_T 3 (ctxDT_fresh 2) 0 2 2 None None 0 = Some ctx'
       /\ DT_ext 2 (ctxDT_fresh 2) ctx'.
Proof.
  split.
  - destruct (proj1 (C5_depth_bounded sample_T 2 2 None None 0) (ctxDT_fresh 0) 1%nat
                eq_refl (Nat.lt_0_succ 0)) as (ctx' & E & _).
    rewrite E. vm_compute in E. symmetry. exact E.
  - apply (proj1 (proj2 (C5_depth_bounded sample_T 2 2 None None 0)) (ctxDT_fresh 2) 0 3%nat).
    + simpl. lia.
    + simpl. lia.
    + simpl. lia.
Defined.

(** C6: (1) three consecutive children that are bitfields of 3, 5 and 4
    bits, each in one-byte storage and none rendered as an aggregate, entered
    with the cursor at zero, are rendered in three lines annotated bit[0:2],
    bit[3:7] and bit[0:3], and leave the cursor at 4; (2) in particular a
    type with just these three children is rendered so.  (3) The cursor a
    field starts at: it is kept (the fields accumulate) while the storage
    size is the one of the field before, is 1, 2, 4 or 8, and the cursor is
    below the storage width in bits; it is zero once the cursor has reached
    the storage width, and zero when the storage size changes. *)
Theorem C6_bit_cursor (T : DT_EXTERNALS) :
  (forall rec (iLevel cnt : Z) (nm : option string) (mem : option Z) (cb : Z)
          (pa pb pc : PDB_DT_INFO) (pInfo : list PDB_DT_INFO) (i cbTypeLast qwBitBase : Z)
          (ctxDT : PDB_DT_CONTEXT),
      qwBitFieldLength pa = 3 -> qwBitFieldLength pb = 5 -> qwBitFieldLength pc = 4 ->
      DT_cbType pa = 1 -> DT_cbType pb = 1 -> DT_cbType pc = 1 ->
      DT_is_udt pa = false -> DT_is_udt pb = false -> DT_is_udt pc = false ->
      DT_bit_cursor cbTypeLast 1 qwBitBase = 0 ->
      exists l1 l2 l3,
        PDB_DisplayTypeNt_DoWork_Loop T rec iLevel cnt nm mem cb (pa :: pb :: pc :: pInfo)
          i cbTypeLast qwBitBase ctxDT
        = PDB_DisplayTypeNt_DoWork_Loop T rec iLevel cnt nm mem cb pInfo (i + 1 + 1 + 1) 1 4
            (DT_commit (DT_commit (DT_commit ctxDT l1) l2) l3)
        /\ line_bits l1 = Some " bit[0:2]"%string
        /\ line_bits l2 = Some " bit[3:7]"%string
        /\ line_bits l3 = Some " bit[0:3]"%string)
  /\ (forall (fuel : nat) (ctxDT : PDB_DT_CONTEXT) (iLevel ty : Z) (nm : option string)
          (mem : option Z) (cb : Z) (a b c : DT_REQ1) (ta tb tc : DT_REQ2),
      DT_fetched T ctxDT iLevel ty 3 [a; b; c] [ta; tb; tc] ->
      r1_LENGTH a = 3 -> r1_LENGTH b = 5 -> r1_LENGTH c = 4 ->
      DT_cbType (DT_INFO_of a ta) = 1 ->
      DT_cbType (DT_INFO_of b tb) = 1 ->
      DT_cbType (DT_INFO_of c tc) = 1 ->
      DT_is_udt (DT_INFO_of a ta) = false ->
      DT_is_udt (DT_INFO_of b tb) = false ->
      DT_is_udt (DT_INFO_of c tc) = false ->
      exists ctx' l1 l2 l3,
        PDB_DisplayTypeNt_DoWork T (S fuel) ctxDT iLevel ty 3 nm mem cb = Some ctx'
        /\ szu8 ctx' = szu8 ctxDT ++ [l1; l2; l3]
        /\ line_bits l1 = Some " bit[0:2]"%string
        /\ line_bits l2 = Some " bit[3:7]"%string
        /\ line_bits l3 = Some " bit[0:3]"%string)
  /\ (forall cbType qwBitBase,
        is_1248 cbType = true -> qwBitBase < 8 * cbType ->
        DT_bit_cursor cbType cbType qwBitBase = qwBitBase)
  /\ (forall cbTypeLast cbType qwBitBase,
        0 <= cbType < 2 ^ 61 -> 8 * cbType <= qwBitBase ->
        DT_bit_cursor cbTypeLast cbType qwBitBase = 0)
  /\ (forall cbTypeLast cbType qwBitBase,
        cbTypeLast <> cbType -> DT_bit_cursor cbTypeLast cbType qwBitBase = 0).
Proof.
  split; [|split; [|split; [|split]]].
  - intros. apply PDB_DisplayTypeNt_DoWork_Loop_bits_3_5_4; assumption.
  - intros fuel ctxDT iLevel ty nm mem cb a b c ta tb tc (A1 & E1 & _ & A2 & E2)
           La Lb Lc Sa Sb Sc Ua Ub Uc.
    cbn [PDB_DisplayTypeNt_DoWork]. cbn [calls DT_enter].
    rewrite A1, E1. cbn [negb length Z.of_nat].
    change (3 =? Z.of_nat 3) with true. cbn [negb]. rewrite A2. cbn [negb].
    rewrite E2. cbn [DT_merge hd tl].
    destruct (PDB_DisplayTypeNt_DoWork_Loop_bits_3_5_4 T (PDB_DisplayTypeNt_DoWork T fuel)
                iLevel 3 nm mem cb (DT_INFO_of a ta) (DT_INFO_of b tb) (DT_INFO_of c tc) []
                0 0 0 (DT_enter ctxDT iLevel ty) La Lb Lc Sa Sb Sc Ua Ub Uc eq_refl)
      as (l1 & l2 & l3 & -> & B1 & B2 & B3).
    cbn [PDB_DisplayTypeNt_DoWork_Loop].
    eexists. exists l1, l2, l3. split; [reflexivity|].
    cbn [szu8 DT_commit DT_enter]. rewrite <- !app_assoc.
    split; [reflexivity|]. split; [exact B1|]. split; [exact B2|exact B3].
  - intros cbType base H1248 Hlt. unfold DT_bit_cursor.
    destruct (Z.eqb_spec base 0) as [Hz|Hnz]; cbn [negb]; [reflexivity|].
    rewrite Z.eqb_refl, H1248. cbn [negb orb].
    assert (Hs : qword (Z.shiftl cbType 3) = 8 * cbType).
    { unfold is_1248 in H1248. rewrite Z.shiftl_mul_pow2 by lia. unfold qword.
      rewrite Z.mod_small; [lia|].
      destruct (Z.eqb_spec cbType 1); [lia|]. destruct (Z.eqb_spec cbType 2); [lia|].
      destruct (Z.eqb_spec cbType 4); [lia|]. destruct (Z.eqb_spec cbType 8); [lia|].
      discriminate. }
    rewrite Hs. destruct (Z.leb_spec (8 * cbType) base); [lia|reflexivity].
  - intros cbTypeLast cbType base Hr Hge. unfold DT_bit_cursor.
    destruct (Z.eqb_spec base 0) as [Hz|Hnz]; cbn [negb]; [exact Hz|].
    assert (Hs : qword (Z.shiftl cbType 3) = 8 * cbType).
    { rewrite Z.shiftl_mul_pow2 by lia. unfold qword. rewrite Z.mod_small; lia. }
    rewrite Hs. destruct (Z.leb_spec (8 * cbType) base); [|lia].
    rewrite orb_true_r. reflexivity.
  - intros cbTypeLast cbType base Hne. unfold DT_bit_cursor.
    destruct (Z.eqb_spec base 0) as [Hz|Hnz]; cbn [negb]; [exact Hz|].
    destruct (Z.eqb_spec cbTypeLast cbType); [contradiction|reflexivity].
Qed.

Lemma C6_bit_cursor_witness :
  exists ctx' l1 l2 l3,
    PDB_DisplayTypeNt_DoWork sample_T 1 (ctxDT_fresh 0) 0 1 3 None None 0 = Some ctx'
    /\ szu8 ctx' = szu8 (ctxDT_fresh 0) ++ [l1; l2; l3]
    /\ line_bits l1 = Some " bit[0:2]"%string
    /\ line_bits l2 = Some " bit[3:7]"%string
    /\ line_bits l3 = Some " bit[0:3]"%string.
Proof.
  apply (proj1 (proj2 (C6_bit_cursor sample_T)) 0%nat (ctxDT_fresh 0) 0 1 None None 0
           (mkDT_REQ1 (Some "A"%string) 3 0 10) (mkDT_REQ1 (Some "B"%string) 5 0 10)
           (mkDT_REQ1 (Some "C"%string) 4 1 10)
           (sample_type 10) (sample_type 10) (sample_type 10));
    try reflexivity.
  repeat split.
Defined.

(** * Further properties of pdb.c *)

(** ** What a load leaves alone *)

Section RegistryKept.

Variable X : EXTERNALS.

Lemma same_identity_refl e : same_identity e e.
Proof. repeat split. Qed.

Lemma same_identity_trans e1 e2 e3 :
  same_identity e1 e2 -> same_identity e2 e3 -> same_identity e1 e3.
Proof.
  unfold same_identity. intros (A1 & A2 & A3 & A4 & A5 & A6 & A7) (B1 & B2 & B3 & B4 & B5 & B6 & B7).
  repeat split; congruence.
Qed.

Lemma same_registry_refl w : same_registry w w.
Proof.
  repeat split. intros p e He. exists e. split; [exact He|apply same_identity_refl].
Qed.

Lemma same_registry_trans w1 w2 w3 :
  same_registry w1 w2 -> same_registry w2 w3 -> same_registry w1 w3.
Proof.
  intros (A1 & A2 & A3 & A4) (B1 & B2 & B3 & B4). repeat split; try congruence.
  intros p e He. destruct (A4 p e He) as (e2 & He2 & I2).
  destruct (B4 p e2 He2) as (e3 & He3 & I3). exists e3. split; [exact He3|].
  eapply same_identity_trans; eassumption.
Qed.

Lemma same_registry_emit w ev : same_registry w (emit w ev).
Proof.
  repeat split. intros p e He. exists e. split; [exact He|apply same_identity_refl].
Qed.

Lemma same_registry_set_entry w p e e' :
  heap w !! p = Some e -> same_identity e e' -> same_registry w (set_entry w p e').
Proof.
  intros He Hid. split; [reflexivity|]. split; [reflexivity|].
  split; [apply length_insert|].
  intros q eq Hq. simpl. destruct (Nat.eq_dec q p) as [->|Hne].
  - exists e'. split.
    + apply list_lookup_insert_eq. eapply lookup_lt_Some. exact He.
    + congruence.
  - exists eq. split.
    + rewrite list_lookup_insert_ne by congruence. exact Hq.
    + apply same_identity_refl.
Qed.

Lemma same_registry_next w ctx n :
  pPdbContext w = Some ctx ->
  same_registry w (set_ctx w (mkCTX (fDisabled ctx) (pmPdbByHash ctx) (pmPdbByModule ctx) n)).
Proof.
  intros Hctx. split; [reflexivity|]. split.
  - unfold registry_of. simpl. rewrite Hctx. reflexivity.
  - split; [reflexivity|]. intros p e He. exists e.
    split; [exact He|apply same_identity_refl].
Qed.

Lemma PDB_LoadEnsureEx_same_registry w p :
  same_registry w (fst (PDB_LoadEnsureEx X w p)).
Proof.
  unfold PDB_LoadEnsureEx.
  destruct (pPdbContext w) as [ctx|] eqn:Hctx; [|apply same_registry_refl].
  destruct (heap w !! p) as [e|] eqn:He; [|apply same_registry_refl].
  destruct (fLoadFailed e); [apply same_registry_refl|].
  destruct (negb (qwLoadAddress e =? 0)); [apply same_registry_refl|].
  destruct (SymFindFileInPath X _ _ _ _) as [path|]; cbn [fst].
  - set (w1 := emit (emit (emit w _) _) _).
    assert (H1 : same_registry w w1).
    { unfold w1. eapply same_registry_trans; [apply same_registry_emit|].
      eapply same_registry_trans; apply same_registry_emit. }
    set (w2 := set_ctx w1 _).
    assert (H2 : same_registry w w2).
    { eapply same_registry_trans; [exact H1|]. apply same_registry_next. exact Hctx. }
    match goal with |- context [if ?c then _ else _] => destruct c end; cbn [fst];
      (eapply same_registry_trans; [exact H2|]);
      apply (same_registry_set_entry w2 p e); try exact He; repeat split.
  - eapply same_registry_trans; [apply same_registry_emit|].
    apply (same_registry_set_entry _ p e); [exact He|repeat split].
Qed.

Lemma run_loads_same_registry cs : forall w, same_registry w (run_loads X w cs).
Proof.
  induction cs as [|c cs IH]; intros w; simpl; [apply same_registry_refl|].
  eapply same_registry_trans; [|apply IH].
  destruct c as [q|h]; simpl.
  - apply PDB_LoadEnsureEx_same_registry.
  - unfold PDB_LoadEnsure. destruct (PDB_EntryFromHandle X w h).
    + apply PDB_LoadEnsureEx_same_registry.
    + apply same_registry_refl.
Qed.

Lemma PDB_GetTypeChildOffset_Loop_same_registry n : forall i w la ids nm d,
  same_registry w (fst (fst (PDB_GetTypeChildOffset_Loop X n i w la ids nm d))).
Proof.
  induction n as [|n IH]; intros i w la ids nm d; simpl; [apply same_registry_refl|].
  destruct (SymGetTypeInfo_SYMNAME X _ _ _) as [s|].
  - destruct (String.eqb nm s).
    + destruct (SymGetTypeInfo_OFFSET X _ _ _) as [o|]; simpl.
      * eapply same_registry_trans; apply same_registry_emit.
      * eapply same_registry_trans; [apply same_registry_emit|].
        eapply same_registry_trans; [apply same_registry_emit|apply IH].
    + eapply same_registry_trans; [apply same_registry_emit|apply IH].
  - eapply same_registry_trans; [apply same_registry_emit|apply IH].
Qed.

Lemma PDB_GetSymbolOffset_same_registry w h nm :
  same_registry w (fst (fst (PDB_GetSymbolOffset X w h nm))).
Proof.
  unfold PDB_GetSymbolOffset.
  destruct (PDB_EntryFromHandle X w h) as [p|]; [|apply same_registry_refl].
  pose proof (PDB_LoadEnsureEx_same_registry w p) as H.
  destruct (PDB_LoadEnsureEx X w p) as [w1 b]. cbn [fst] in H.
  destruct b; cbn [negb]; [|exact H].
  destruct (f32 w1).
  - destruct (SymEnumSymbols X _ _ _) as [syms ok].
    destruct ok; cbn [negb];
      [destruct (_ =? 0)|]; cbn [fst];
      (eapply same_registry_trans; [exact H|apply same_registry_emit]).
  - destruct (SymGetTypeFromName X _ _ _) as [ok si].
    destruct ok; cbn [negb fst];
      (eapply same_registry_trans; [exact H|apply same_registry_emit]).
Qed.

Lemma PDB_GetTypeSize_same_registry w h nm d :
  same_registry w (fst (fst (PDB_GetTypeSize X w h nm d))).
Proof.
  unfold PDB_GetTypeSize.
  destruct (PDB_EntryFromHandle X w h) as [p|]; [|apply same_registry_refl].
  pose proof (PDB_LoadEnsureEx_same_registry w p) as H.
  destruct (PDB_LoadEnsureEx X w p) as [w1 b]. cbn [fst] in H.
  destruct b; cbn [negb]; [|exact H].
  destruct (SymGetTypeFromName X _ _ _) as [ok si]. cbn [fst].
  eapply same_registry_trans; [exact H|apply same_registry_emit].
Qed.

Lemma PDB_GetTypeChildOffset_same_registry w h nm child d :
  same_registry w (fst (fst (PDB_GetTypeChildOffset X w h nm child d))).
Proof.
  unfold PDB_GetTypeChildOffset.
  destruct (PDB_EntryFromHandle X w h) as [p|]; [|apply same_registry_refl].
  pose proof (PDB_LoadEnsureEx_same_registry w p) as H.
  destruct (PDB_LoadEnsureEx X w p) as [w1 b]. cbn [fst] in H.
  destruct b; cbn [negb]; [|exact H].
  destruct (SymEnumTypesByName X _ _ _) as [types ok].
  assert (H1 : forall ev, same_registry w (emit w1 ev))
    by (intros ev; eapply same_registry_trans; [exact H|apply same_registry_emit]).
  destruct (negb ok || _); [apply H1|].
  assert (H2 : forall ev1 ev2, same_registry w (emit (emit w1 ev1) ev2))
    by (intros; eapply same_registry_trans; [apply H1|apply same_registry_emit]).
  destruct (SymGetTypeInfo_CHILDRENCOUNT X _ _ _) as [c|]; [|apply H2].
  destruct (dword c =? 0); [apply H2|].
  assert (H3 : forall ev1 ev2 ev3, same_registry w (emit (emit (emit w1 ev1) ev2) ev3))
    by (intros; eapply same_registry_trans; [apply H2|apply same_registry_emit]).
  destruct (negb (LocalAlloc X _ _)); [apply H3|].
  assert (H4 : forall ev1 ev2 ev3 ev4,
             same_registry w (emit (emit (emit (emit w1 ev1) ev2) ev3) ev4))
    by (intros; eapply same_registry_trans; [apply H3|apply same_registry_emit]).
  destruct (SymGetTypeInfo_FINDCHILDREN X _ _ _ _) as [ids|]; [|apply H4].
  eapply same_registry_trans; [apply H4|apply PDB_GetTypeChildOffset_Loop_same_registry].
Qed.

End RegistryKept.

Lemma PDB_GetSymbolFromOffset_same_registry (X : EXTERNALS) (V : EXTERNALS_VMM) w h off sz pd :
  same_registry w (fst (fst (fst (PDB_GetSymbolFromOffset X V w h off sz pd)))).
Proof.
  unfold PDB_GetSymbolFromOffset.
  destruct (PDB_EntryFromHandle X w h) as [p|]; [|apply same_registry_refl].
  pose proof (PDB_LoadEnsureEx_same_registry X w p) as H.
  destruct (PDB_LoadEnsureEx X w p) as [w1 b]. cbn [fst] in H.
  destruct b; cbn [negb]; [|exact H].
  destruct (SymFromAddr V _ _) as [[[d n] l]|]; exact H.
Qed.

(** X1: entries are immutable but for their load state, and no load or
    query touches the registry: after any sequence of [PDB_LoadEnsureEx] and
    [PDB_LoadEnsure] calls, and after [PDB_GetSymbolOffset],
    [PDB_GetTypeSize], [PDB_GetTypeChildOffset] and [PDB_GetSymbolFromOffset],
    the context has the same [fDisabled] flag and the same two indices, the
    heap has the same length, and every entry keeps its fingerprint, module
    base, module size, names, GUID and age. *)
Theorem X1_registry_kept (X : EXTERNALS) (V : EXTERNALS_VMM) (w : WORLD)
    (cs : list LOAD_CALL) (hPDB : Z) (sz sz' : string) (d : Z)
    (osz : option string) (od : option Z) :
  same_registry w (run_loads X w cs)
  /\ same_registry w (fst (fst (PDB_GetSymbolOffset X w hPDB sz)))
  /\ same_registry w (fst (fst (PDB_GetTypeSize X w hPDB sz d)))
  /\ same_registry w (fst (fst (PDB_GetTypeChildOffset X w hPDB sz sz' d)))
  /\ same_registry w (fst (fst (fst (PDB_GetSymbolFromOffset X V w hPDB d osz od)))).
Proof.
  split; [apply run_loads_same_registry|].
  split; [apply PDB_GetSymbolOffset_same_registry|].
  split; [apply PDB_GetTypeSize_same_registry|].
  split; [apply PDB_GetTypeChildOffset_same_registry|].
  apply PDB_GetSymbolFromOffset_same_registry.
Qed.

(** ** The slot counter *)

Lemma load_slots_app t t' : load_slots (t ++ t') = load_slots t ++ load_slots t'.
Proof.
  induction t as [|ev t IH]; simpl; [reflexivity|].
  destruct ev; simpl; rewrite IH; reflexivity.
Qed.









(** ** Handles resolve *)

Lemma ObMap_GetByKey_In pm k p : ObMap_GetByKey pm k = Some p -> In (k, p) pm.
Proof.
  induction pm as [|[k0 p0] pm IH]; simpl; [discriminate|].
  destruct (Z.eqb_spec k0 k) as [->|].
  - intros [= ->]. left. reflexivity.
  - intros H. right. exact (IH H).
Qed.

Lemma ObMap_GetByKey_None pm k : ObMap_GetByKey pm k = None -> ~ In k (map fst pm).
Proof.
  induction pm as [|[k0 p0] pm IH]; simpl; [tauto|].
  destruct (Z.eqb_spec k0 k) as [->|Hne]; [discriminate|].
  intros H [E|Hin]; [exact (Hne E)|exact (IH H Hin)].
Qed.

Lemma ObMap_GetByKey_NoDup pm k p :
  List.NoDup (map fst pm) -> In (k, p) pm -> ObMap_GetByKey pm k = Some p.
Proof.
  induction pm as [|[k0 p0] pm IH]; simpl; [tauto|].
  intros Hnd [E|Hin].
  - injection E as -> ->. rewrite Z.eqb_refl. reflexivity.
  - apply NoDup_cons_iff in Hnd as [Hnot Hnd].
    destruct (Z.eqb_spec k0 k) as [->|].
    + exfalso. apply Hnot. change k with (fst (k, p)). apply in_map. exact Hin.
    + exact (IH Hnd Hin).
Qed.

Lemma ObMap_NoDup_snoc pm k p :
  List.NoDup (map fst pm) -> ObMap_GetByKey pm k = None ->
  List.NoDup (map fst (pm ++ [(k, p)])).
Proof.
  intros Hnd Hnone. rewrite map_app. simpl.
  induction pm as [|[k0 p0] pm IH]; simpl in *.
  - constructor; [simpl; tauto|constructor].
  - apply NoDup_cons_iff in Hnd as [Hnot Hnd].
    destruct (Z.eqb_spec k0 k) as [->|Hne]; [discriminate|].
    constructor; [|exact (IH Hnd Hnone)].
    rewrite in_app_iff. simpl. intros [H|[H|[]]]; [exact (Hnot H)|congruence].
Qed.

Lemma ObMap_Push_In pm k p k' p' :
  In (k', p') (ObMap_Push pm k p) -> In (k', p') pm \/ (k', p') = (k, p).
Proof.
  unfold ObMap_Push. destruct (ObMap_ExistsKey pm k); [tauto|].
  rewrite in_app_iff. simpl. intros [H|[H|[]]]; [left; exact H|right; congruence].
Qed.

Lemma same_registry_wf w w' : same_registry w w' -> registry_wf w -> registry_wf w'.
Proof.
  intros (_ & Hreg & _ & Hent) Hwf ctx' Hctx'.
  unfold registry_of in Hreg. rewrite Hctx' in Hreg.
  destruct (pPdbContext w) as [ctx|] eqn:Hctx; [|discriminate].
  simpl in Hreg. injection Hreg as Hd Hh Hm.
  destruct (Hwf ctx Hctx) as (W0 & W1 & W2). rewrite Hh, Hm.
  split; [exact W0|]. split.
  - intros k p Hk. destruct (W1 k p Hk) as (e & He & Hq).
    destruct (Hent p e He) as (e' & He' & Hid). exists e'. split; [exact He'|].
    destruct Hid as (-> & _). exact Hq.
  - intros k p Hk. destruct (W2 k p Hk) as (e & He & Hq).
    destruct (Hent p e He) as (e' & He' & Hid). exists e'. split; [exact He'|].
    destruct Hid as (-> & _). exact Hq.
Qed.

Lemma registry_wf_empty f t hp d n : registry_wf (mkWORLD (Some (mkCTX d [] [] n)) f hp t).
Proof.
  intros ctx [= <-]. simpl. split; [constructor|]. split; intros k p [].
Qed.

Lemma PDB_AddModuleEntry_wf (X : EXTERNALS) w va cb szModule szPdbName guid age :
  registry_wf w ->
  registry_wf (fst (PDB_AddModuleEntry X w va cb szModule szPdbName guid age)).
Proof.
  intros Hwf.
  destruct (pPdbContext w) as [ctx|] eqn:Hctx.
  2:{ unfold PDB_AddModuleEntry. rewrite Hctx. exact Hwf. }
  destruct (ObMap_ExistsKey (pmPdbByHash ctx) (PDB_HashPdb X szPdbName guid age)) eqn:Hex.
  { rewrite (PDB_AddModuleEntry_present X w ctx _ _ _ _ _ _ Hctx Hex). exact Hwf. }
  destruct (Ob_Alloc X (trace w)) eqn:Hal.
  2:{ unfold PDB_AddModuleEntry. rewrite Hctx, Hex. simpl. rewrite Hal. simpl.
      eapply same_registry_wf; [apply same_registry_emit|exact Hwf]. }
  destruct (PDB_AddModuleEntry_fresh X w ctx va cb szModule _ _ _ Hctx Hex Hal)
    as (e1 & t1 & -> & Hq1 & _).
  destruct (Hwf ctx Hctx) as (W0 & W1 & W2). cbn [fst].
  intros ctx' [= <-]. cbn [pmPdbByHash pmPdbByModule heap].
  pose proof (ObMap_ExistsKey_false _ _ Hex) as Hnone.
  assert (Hnew : (heap w ++ [e1]) !! length (heap w) = Some e1)
    by (apply list_lookup_middle; reflexivity).
  split; [apply ObMap_NoDup_snoc; assumption|]. split.
  - intros k p Hk. apply in_app_iff in Hk as [Hk|[Hk|[]]].
    + destruct (W1 k p Hk) as (e & He & Hq).
      exists e. split; [|exact Hq]. apply lookup_app_l_Some. exact He.
    + injection Hk as <- <-. exists e1. split; [exact Hnew|exact Hq1].
  - intros k p Hk. apply ObMap_Push_In in Hk as [Hk|Hk].
    + destruct (W2 k p Hk) as (e & He & Hq). exists e.
      split; [apply lookup_app_l_Some; exact He|]. apply in_app_iff. left. exact Hq.
    + injection Hk as -> ->. exists e1. split; [exact Hnew|]. rewrite Hq1.
      apply in_app_iff. right. left. reflexivity.
Qed.

Lemma PDB_GetHandleFromModuleAddress_wf (X : EXTERNALS) w pProcess va :
  registry_wf w -> registry_wf (fst (PDB_GetHandleFromModuleAddress X w pProcess va)).
Proof.
  intros Hwf. unfold PDB_GetHandleFromModuleAddress.
  destruct (pPdbContext w) as [ctx|]; [|exact Hwf].
  destruct (find_module_base _ _ _ _ _); [exact Hwf|].
  assert (H1 : registry_wf (emit w (EvPE_GetSize pProcess va)))
    by (eapply same_registry_wf; [apply same_registry_emit|exact Hwf]).
  destruct (_ || _); [exact H1|].
  assert (H2 : registry_wf (emit (emit w (EvPE_GetSize pProcess va))
                                 (EvPE_GetCodeViewInfo pProcess va)))
    by (eapply same_registry_wf; [apply same_registry_emit|exact H1]).
  destruct (PE_GetCodeViewInfo X _ _ _) as [cv|]; [|exact H2].
  apply PDB_AddModuleEntry_wf. exact H2.
Qed.

(** X3: handles resolve.  Call a registry sound when no fingerprint is
    indexed twice, every pair of the by-fingerprint index leads to an entry
    with that fingerprint, and every pair of the module-name index leads to
    an entry indexed under its own fingerprint (an empty registry is sound).
    Soundness is kept by [PDB_AddModuleEntry], by
    [PDB_GetHandleFromModuleAddress] and by every sequence of loads.  In a
    sound registry a nonzero handle returned by
    [PDB_GetHandleFromModuleName] is the key of an entry of the
    by-fingerprint index that carries this fingerprint and has not failed to
    load; and the handle [PDB_AddModuleEntry] returns, once the allocation
    it may need is granted, is, in the world it leaves, the key of an entry
    of the by-fingerprint index that carries this fingerprint (an entry that
    was there before may have failed to load). *)
Theorem X3_handles_resolve (X : EXTERNALS) (w : WORLD) (ctx : VMMWIN_PDB_CONTEXT) :
  registry_wf w -> pPdbContext w = Some ctx ->
  (forall va cb szModule szPdbName guid age,
      registry_wf (fst (PDB_AddModuleEntry X w va cb szModule szPdbName guid age)))
  /\ (forall pProcess va,
        registry_wf (fst (PDB_GetHandleFromModuleAddress X w pProcess va)))
  /\ (forall cs, registry_wf (run_loads X w cs))
  /\ (forall szModule,
        PDB_GetHandleFromModuleName X w szModule <> 0 ->
        exists p e,
          ObMap_GetByKey (pmPdbByHash ctx) (PDB_GetHandleFromModuleName X w szModule) = Some p
          /\ heap w !! p = Some e
          /\ qwHash e = PDB_GetHandleFromModuleName X w szModule
          /\ fLoadFailed e = false)
  /\ (forall va cb szModule szPdbName guid age,
        (ObMap_ExistsKey (pmPdbByHash ctx) (PDB_HashPdb X szPdbName guid age) = false ->
         Ob_Alloc X (trace w) = true) ->
        exists ctx1 p e,
          pPdbContext (fst (PDB_AddModuleEntry X w va cb szModule szPdbName guid age))
          = Some ctx1
          /\ ObMap_GetByKey (pmPdbByHash ctx1)
               (snd (PDB_AddModuleEntry X w va cb szModule szPdbName guid age)) = Some p
          /\ heap (fst (PDB_AddModuleEntry X w va cb szModule szPdbName guid age)) !! p
             = Some e
          /\ qwHash e = snd (PDB_AddModuleEntry X w va cb szModule szPdbName guid age)).
Proof.
  intros Hwf Hctx.
  split; [intros; apply PDB_AddModuleEntry_wf; exact Hwf|].
  split; [intros; apply PDB_GetHandleFromModuleAddress_wf; exact Hwf|].
  split; [intros cs; eapply same_registry_wf; [apply run_loads_same_registry|exact Hwf]|].
  destruct (Hwf ctx Hctx) as (W0 & W1 & W2).
  split.
  - intros szModule. unfold PDB_GetHandleFromModuleName. rewrite Hctx.
    destruct (fDisabled ctx); [congruence|].
    destruct (ObMap_GetByKey (pmPdbByModule ctx) _) as [p|] eqn:Hp; [|congruence].
    destruct (W2 _ p (ObMap_GetByKey_In _ _ _ Hp)) as (e & He & Hq). rewrite He.
    destruct (fLoadFailed e) eqn:Hf; [congruence|]. intros _.
    exists p, e. split; [apply ObMap_GetByKey_NoDup; assumption|]. auto.
  - intros va cb szModule szPdbName guid age Hal.
    destruct (ObMap_ExistsKey (pmPdbByHash ctx) (PDB_HashPdb X szPdbName guid age)) eqn:Hex.
    + rewrite (PDB_AddModuleEntry_present X w ctx _ _ _ _ _ _ Hctx Hex). cbn [fst snd].
      unfold ObMap_ExistsKey in Hex.
      destruct (ObMap_GetByKey (pmPdbByHash ctx) _) as [p|] eqn:Hp; [|discriminate].
      destruct (W1 _ p (ObMap_GetByKey_In _ _ _ Hp)) as (e & He & Hq).
      exists ctx, p, e. auto.
    + destruct (PDB_AddModuleEntry_fresh X w ctx va cb szModule _ _ _ Hctx Hex (Hal eq_refl))
        as (e1 & t1 & E & Hq1 & _).
      rewrite E in *. cbn [fst snd] in *.
      eexists. exists (length (heap w)), e1. split; [reflexivity|].
      cbn [pmPdbByHash heap]. split.
      * rewrite ObMap_GetByKey_app, (ObMap_ExistsKey_false _ _ Hex), Z.eqb_refl. reflexivity.
      * split; [apply list_lookup_middle; reflexivity|exact Hq1].
Qed.

Lemma X3_handles_resolve_witness :
  exists p e,
    ObMap_GetByKey [(1883368706899315958, 0%nat)]
      (PDB_GetHandleFromModuleName sample_X world_registered_enabled (Some "nt"%string))
    = Some p
    /\ heap world_registered_enabled !! p = Some e
    /\ qwHash e = PDB_GetHandleFromModuleName sample_X world_registered_enabled
                    (Some "nt"%string)
    /\ fLoadFailed e = false.
Proof.
  apply (proj1 (proj2 (proj2 (proj2
           (X3_handles_resolve sample_X world_registered_enabled
              (mkCTX false [(1883368706899315958, 0%nat)] [(1531402980, 0%nat)]
                     VMMWIN_PDB_LOAD_ADDRESS_BASE)
              (PDB_AddModuleEntry_wf sample_X world_enabled 0x1000 0x2000
                 "ntoskrnl"%string "ntkrnlmp.pdb"%string sample_guid 1
                 (registry_wf_empty _ _ _ _ _))
              eq_refl))))).
  vm_compute. discriminate.
Defined.

(** ** Queries that are turned away *)

Section Rejection.

Variable X : EXTERNALS.
Variable V : EXTERNALS_VMM.

Lemma PDB_EntryFromHandle_guard w hPDB :
  pPdbContext w = None
  \/ (exists ctx, pPdbContext w = Some ctx /\ fDisabled ctx = true)
  \/ hPDB = 0 ->
  PDB_EntryFromHandle X w hPDB = None.
Proof.
  unfold PDB_EntryFromHandle. intros [->|[(ctx & -> & ->)| ->]]; [reflexivity..|].
  destruct (pPdbContext w) as [ctx|]; [|reflexivity].
  rewrite Z.eqb_refl, orb_true_r. reflexivity.
Qed.

(** The handle [PDB_GetSymbolAddress] and [PDB_GetSymbolPBYTE] pass on leads
    to the entry of the handle they were given, unless it is zero. *)
Lemma PDB_ResolveHandle_entry w hPDB h' :
  PDB_ResolveHandle X w hPDB = Some h' ->
  PDB_EntryFromHandle X w h'
  = if h' =? 0 then None else PDB_EntryFromHandle X w hPDB.
Proof.
  unfold PDB_ResolveHandle, PDB_EntryFromHandle.
  destruct (pPdbContext w) as [ctx|]; [|discriminate].
  destruct (fDisabled ctx); [discriminate|]. cbn [orb].
  destruct (Z.eqb_spec hPDB 0); [discriminate|].
  destruct (Z.eqb_spec hPDB (PDB_HANDLE_KERNEL X)) as [Hk|Hk]; intros [= <-].
  - destruct (Z.eqb_spec (PDB_GetHandleFromModuleName X w (Some "ntoskrnl"%string)) 0);
      [reflexivity|].
    destruct (Z.eqb_spec (PDB_GetHandleFromModuleName X w (Some "ntoskrnl"%string))
                (PDB_HANDLE_KERNEL X)); reflexivity.
  - destruct (Z.eqb_spec hPDB 0); [contradiction|].
    destruct (Z.eqb_spec hPDB (PDB_HANDLE_KERNEL X)); [contradiction|reflexivity].
Qed.

Lemma PDB_ResolveHandle_none w hPDB :
  PDB_ResolveHandle X w hPDB = None -> PDB_EntryFromHandle X w hPDB = None.
Proof.
  unfold PDB_ResolveHandle, PDB_EntryFromHandle.
  destruct (pPdbContext w) as [ctx|]; [|reflexivity].
  destruct (fDisabled ctx || (hPDB =? 0)); [reflexivity|discriminate].
Qed.

Lemma turned_away_resolved w hPDB h' :
  PDB_ResolveHandle X w hPDB = Some h' -> turned_away X w hPDB -> turned_away X w h'.
Proof.
  intros Hr Ht. unfold turned_away. rewrite (PDB_ResolveHandle_entry _ _ _ Hr).
  destruct (h' =? 0); [exact I|exact Ht].
Qed.

Lemma turned_away_offset w hPDB nm :
  turned_away X w hPDB -> PDB_GetSymbolOffset X w hPDB nm = (w, false, 0).
Proof.
  unfold turned_away, PDB_GetSymbolOffset.
  destruct (PDB_EntryFromHandle X w hPDB) as [p|]; [|reflexivity].
  intros ->. reflexivity.
Qed.

Lemma turned_away_size w hPDB nm d :
  turned_away X w hPDB -> PDB_GetTypeSize X w hPDB nm d = (w, false, d).
Proof.
  unfold turned_away, PDB_GetTypeSize.
  destruct (PDB_EntryFromHandle X w hPDB) as [p|]; [|reflexivity].
  intros ->. reflexivity.
Qed.

Lemma turned_away_child w hPDB nm child d :
  turned_away X w hPDB -> PDB_GetTypeChildOffset X w hPDB nm child d = (w, false, d).
Proof.
  unfold turned_away, PDB_GetTypeChildOffset.
  destruct (PDB_EntryFromHandle X w hPDB) as [p|]; [|reflexivity].
  intros ->. reflexivity.
Qed.

Lemma turned_away_all w hPDB :
  turned_away X w hPDB ->
  PDB_LoadEnsure X w hPDB = (w, false)
  /\ (forall nm, PDB_GetSymbolOffset X w hPDB nm = (w, false, 0))
  /\ (forall nm va0, PDB_GetSymbolAddress X w hPDB nm va0 = (w, false, va0))
  /\ (forall nm pProcess pb0 cb,
        PDB_GetSymbolPBYTE X V w hPDB nm pProcess pb0 cb = (w, false, pb0))
  /\ (forall off sz pd, PDB_GetSymbolFromOffset X V w hPDB off sz pd = (w, false, sz, pd))
  /\ (forall nm d, PDB_GetTypeSize X w hPDB nm d = (w, false, d))
  /\ (forall nm pw, PDB_GetTypeSizeShort X w hPDB nm pw = (w, false, pw))
  /\ (forall nm child d, PDB_GetTypeChildOffset X w hPDB nm child d = (w, false, d))
  /\ (forall nm child pw,
        PDB_GetTypeChildOffsetShort X w hPDB nm child pw = (w, false, pw)).
Proof.
  intros Ht.
  split.
  { unfold PDB_LoadEnsure. unfold turned_away in Ht.
    destruct (PDB_EntryFromHandle X w hPDB); [exact Ht|reflexivity]. }
  split; [intros; apply turned_away_offset; exact Ht|].
  split.
  { intros nm va0. unfold PDB_GetSymbolAddress.
    destruct (PDB_ResolveHandle X w hPDB) as [h'|] eqn:Hr; [|reflexivity].
    rewrite (turned_away_offset w h' nm (turned_away_resolved _ _ _ Hr Ht)). reflexivity. }
  split.
  { intros nm pProcess pb0 cb. unfold PDB_GetSymbolPBYTE.
    destruct (PDB_ResolveHandle X w hPDB) as [h'|] eqn:Hr; [|reflexivity].
    rewrite (turned_away_offset w h' nm (turned_away_resolved _ _ _ Hr Ht)). reflexivity. }
  split.
  { intros off sz pd. unfold PDB_GetSymbolFromOffset. unfold turned_away in Ht.
    destruct (PDB_EntryFromHandle X w hPDB); [rewrite Ht|]; reflexivity. }
  split; [intros; apply turned_away_size; exact Ht|].
  split.
  { intros nm pw. unfold PDB_GetTypeSizeShort. rewrite (turned_away_size _ _ _ _ Ht).
    reflexivity. }
  split; [intros; apply turned_away_child; exact Ht|].
  intros nm child pw. unfold PDB_GetTypeChildOffsetShort.
  rewrite (turned_away_child _ _ _ _ _ Ht). reflexivity.
Qed.

End Rejection.

(** X4: the guard of the query API.  When the subsystem is not initialised,
    or is disabled, or the handle is zero, or the handle (after the
    resolution of the kernel pseudo-handle) is no key of the by-fingerprint
    index, every query returns FALSE, makes no outside call and changes
    nothing: the world, the trace of its outside calls included, is the one
    it was called in and the caller's output, the byte buffer of
    [PDB_GetSymbolPBYTE] included, is as it was, except that
    [PDB_GetSymbolOffset] has set its output to zero; [PDB_GetModuleName]
    leaves the buffer alone. *)
Theorem X4_query_guard (X : EXTERNALS) (V : EXTERNALS_VMM) (w : WORLD) (hPDB : Z) :
  pPdbContext w = None
  \/ (exists ctx, pPdbContext w = Some ctx /\ fDisabled ctx = true)
  \/ hPDB = 0
  \/ PDB_EntryFromHandle X w hPDB = None ->
  PDB_LoadEnsure X w hPDB = (w, false)
  /\ (forall nm, PDB_GetSymbolOffset X w hPDB nm = (w, false, 0))
  /\ (forall nm va0, PDB_GetSymbolAddress X w hPDB nm va0 = (w, false, va0))
  /\ (forall nm pProcess pb0 cb,
        PDB_GetSymbolPBYTE X V w hPDB nm pProcess pb0 cb = (w, false, pb0))
  /\ (forall off sz pd, PDB_GetSymbolFromOffset X V w hPDB off sz pd = (w, false, sz, pd))
  /\ (forall nm d, PDB_GetTypeSize X w hPDB nm d = (w, false, d))
  /\ (forall nm pw, PDB_GetTypeSizeShort X w hPDB nm pw = (w, false, pw))
  /\ (forall nm child d, PDB_GetTypeChildOffset X w hPDB nm child d = (w, false, d))
  /\ (forall nm child pw,
        PDB_GetTypeChildOffsetShort X w hPDB nm child pw = (w, false, pw))
  /\ (forall buf, PDB_GetModuleName X w hPDB buf = Some (false, buf)).
Proof.
  intros H.
  assert (Hnone : PDB_EntryFromHandle X w hPDB = None).
  { destruct H as [H|[H|[H|H]]]; [| | |exact H];
      apply PDB_EntryFromHandle_guard; tauto. }
  assert (Ht : turned_away X w hPDB) by (unfold turned_away; rewrite Hnone; exact I).
  destruct (turned_away_all X V w hPDB Ht) as (A & B & C & D & E & F & G & I1 & J).
  repeat (split; [assumption|]).
  intros buf. unfold PDB_GetModuleName. rewrite Hnone. reflexivity.
Qed.

Lemma X4_query_guard_witness :
  PDB_GetSymbolPBYTE sample_X V_zero world_registered 1883368706899315958
    "PsInitialSystemProcess"%string 4 [1; 2; 3] 3
  = (world_registered, false, [1; 2; 3]).
Proof.
  apply (proj1 (proj2 (proj2 (proj2
    (X4_query_guard sample_X V_zero world_registered 1883368706899315958
       (or_intror (or_introl
          (ex_intro _ (mkCTX true [(1883368706899315958, 0%nat)] [(1531402980, 0%nat)]
                             VMMWIN_PDB_LOAD_ADDRESS_BASE)
                    (conj eq_refl eq_refl))))))))
    "PsInitialSystemProcess"%string 4 [1; 2; 3] 3).
Defined.

(** X5: a database that failed to load fails fast everywhere.  When the
    handle leads to an entry whose [fLoadFailed] is set, every query that
    needs the database returns FALSE without any outside call: the world,
    its trace included, is unchanged, and the caller's output, the byte
    buffer of [PDB_GetSymbolPBYTE] included, is as it was (zero for
    [PDB_GetSymbolOffset]). *)
Theorem X5_failed_entry_fails_fast (X : EXTERNALS) (V : EXTERNALS_VMM) (w : WORLD)
    (hPDB : Z) (p : nat) (e : PDB_ENTRY) :
  PDB_EntryFromHandle X w hPDB = Some p -> heap w !! p = Some e -> fLoadFailed e = true ->
  PDB_LoadEnsure X w hPDB = (w, false)
  /\ (forall nm, PDB_GetSymbolOffset X w hPDB nm = (w, false, 0))
  /\ (forall nm va0, PDB_GetSymbolAddress X w hPDB nm va0 = (w, false, va0))
  /\ (forall nm pProcess pb0 cb,
        PDB_GetSymbolPBYTE X V w hPDB nm pProcess pb0 cb = (w, false, pb0))
  /\ (forall off sz pd, PDB_GetSymbolFromOffset X V w hPDB off sz pd = (w, false, sz, pd))
  /\ (forall nm d, PDB_GetTypeSize X w hPDB nm d = (w, false, d))
  /\ (forall nm pw, PDB_GetTypeSizeShort X w hPDB nm pw = (w, false, pw))
  /\ (forall nm child d, PDB_GetTypeChildOffset X w hPDB nm child d = (w, false, d))
  /\ (forall nm child pw,
        PDB_GetTypeChildOffsetShort X w hPDB nm child pw = (w, false, pw)).
Proof.
  intros Hp He Hf. apply turned_away_all. unfold turned_away. rewrite Hp.
  exact (PDB_LoadEnsureEx_failed X w p e He Hf).
Qed.

Lemma X5_failed_entry_fails_fast_witness :
  PDB_GetSymbolFromOffset sample_X V_zero world_failed 1883368706899315958 0x40
    (Some "old"%string) (Some 9)
  = (world_failed, false, Some "old"%string, Some 9).
Proof.
  apply (proj1 (proj2 (proj2 (proj2 (proj2
    (X5_failed_entry_fails_fast sample_X V_zero world_failed 1883368706899315958
       0%nat entry_failed eq_refl eq_refl eq_refl))))) 0x40 (Some "old"%string) (Some 9)).
Defined.

(** ** Lookup by module address, and what a registration makes findable *)

Lemma find_module_base_some hp pm va : forall n j h,
  find_module_base hp pm va n j = Some h ->
  exists i k p e, pm !! i = Some (k, p) /\ hp !! p = Some e
                  /\ vaModuleBase e = va /\ qwHash e = h.
Proof.
  induction n as [|n IH]; intros j h; simpl; [discriminate|].
  unfold ObMap_GetByIndex. destruct (pm !! j) as [[k p]|] eqn:Ej; simpl; [|apply IH].
  destruct (hp !! p) as [e|] eqn:Ep; [|apply IH].
  destruct (Z.eqb_spec va (vaModuleBase e)) as [Heq|Hne]; [|apply IH].
  intros [= <-]. exists j, k, p, e. auto.
Qed.

Lemma find_module_base_first hp pm va i k p e :
  pm !! i = Some (k, p) -> hp !! p = Some e -> vaModuleBase e = va ->
  (forall j k' p' e', (j < i)%nat -> pm !! j = Some (k', p') -> hp !! p' = Some e' ->
                      vaModuleBase e' <> va) ->
  forall n j, (j <= i < j + n)%nat -> find_module_base hp pm va n j = Some (qwHash e).
Proof.
  intros Hi Hp Hva Hfirst. induction n as [|n IH]; intros j Hj; [lia|]. simpl.
  destruct (Nat.eq_dec j i) as [->|Hne].
  - unfold ObMap_GetByIndex. rewrite Hi. simpl. rewrite Hp, Hva, Z.eqb_refl. reflexivity.
  - assert (Hlt : (j < i)%nat) by lia.
    unfold ObMap_GetByIndex. destruct (pm !! j) as [[k' p']|] eqn:Ej; simpl;
      [|apply IH; lia].
    destruct (hp !! p') as [e'|] eqn:Ep'; [|apply IH; lia].
    destruct (Z.eqb_spec va (vaModuleBase e')) as [Heq|_]; [|apply IH; lia].
    exfalso. apply (Hfirst j k' p' e' Hlt Ej Ep'). congruence.
Qed.

Lemma find_module_base_total hp pm va i k p e :
  pm !! i = Some (k, p) -> hp !! p = Some e -> vaModuleBase e = va ->
  forall n j, (j <= i < j + n)%nat -> exists h, find_module_base hp pm va n j = Some h.
Proof.
  intros Hi Hp Hva. induction n as [|n IH]; intros j Hj; [lia|]. simpl.
  destruct (Nat.eq_dec j i) as [->|Hne].
  - unfold ObMap_GetByIndex. rewrite Hi. simpl. rewrite Hp, Hva, Z.eqb_refl. eauto.
  - unfold ObMap_GetByIndex. destruct (pm !! j) as [[k' p']|]; simpl; [|apply IH; lia].
    destruct (hp !! p') as [e'|]; [|apply IH; lia].
    destruct (va =? vaModuleBase e'); [eauto|apply IH; lia].
Qed.

Lemma ObMap_Size_nat pm : Z.to_nat (ObMap_Size pm) = length pm.
Proof. unfold ObMap_Size. apply Nat2Z.id. Qed.

(** X6: the lookup by module address returns the fingerprint of the first
    entry, in the order of the by-fingerprint index, that is bound to the
    address; it does so without any outside call and without changing the
    world, whether or not the subsystem is disabled and whatever the load
    state of the entry is. *)
Theorem X6_address_lookup_first (X : EXTERNALS) (w : WORLD) (ctx : VMMWIN_PDB_CONTEXT)
    (pProcess va : Z) (i : nat) (k : Z) (p : nat) (e : PDB_ENTRY) :
  pPdbContext w = Some ctx ->
  pmPdbByHash ctx !! i = Some (k, p) -> heap w !! p = Some e -> vaModuleBase e = va ->
  (forall j k' p' e', (j < i)%nat -> pmPdbByHash ctx !! j = Some (k', p') ->
                      heap w !! p' = Some e' -> vaModuleBase e' <> va) ->
  PDB_GetHandleFromModuleAddress X w pProcess va = (w, qwHash e).
Proof.
  intros Hctx Hi Hp Hva Hfirst. unfold PDB_GetHandleFromModuleAddress. rewrite Hctx.
  rewrite ObMap_Size_nat.
  rewrite (find_module_base_first _ _ _ i k p e Hi Hp Hva Hfirst).
  - reflexivity.
  - apply lookup_lt_Some in Hi. lia.
Qed.

Lemma X6_address_lookup_first_witness :
  PDB_GetHandleFromModuleAddress sample_X world_failed 4 0x1000
  = (world_failed, 1883368706899315958).
Proof.
  apply (X6_address_lookup_first sample_X world_failed
           (mkCTX false [(1883368706899315958, 0%nat)] [(1531402980, 0%nat)]
                  VMMWIN_PDB_LOAD_ADDRESS_BASE)
           4 0x1000 0 1883368706899315958 0 entry_failed
           eq_refl eq_refl eq_refl eq_refl).
  intros j k' p' e' Hj. lia.
Defined.

(** The entry a registration creates. *)
Lemma PDB_AddModuleEntry_fresh_entry (X : EXTERNALS) w ctx va cb szModule szPdbName guid age :
  pPdbContext w = Some ctx ->
  ObMap_ExistsKey (pmPdbByHash ctx) (PDB_HashPdb X szPdbName guid age) = false ->
  Ob_Alloc X (trace w) = true ->
  PDB_AddModuleEntry X w va cb szModule szPdbName guid age
  = (mkWORLD
       (Some (mkCTX (fDisabled ctx)
                (pmPdbByHash ctx ++ [(PDB_HashPdb X szPdbName guid age, length (heap w))])
                (ObMap_Push (pmPdbByModule ctx) (PDB_HashModuleName X szModule)
                            (length (heap w)))
                (qwLoadAddressNext ctx)))
       (f32 w)
       (heap w ++ [mkPDB_ENTRY (PDB_HashPdb X szPdbName guid age) va
                     (Util_StrDupA X (trace w ++ [EvOb_Alloc; EvUtil_StrDupA szPdbName])
                                   szModule)
                     (Util_StrDupA X (trace w ++ [EvOb_Alloc]) szPdbName)
                     (firstn 16 guid) age cb false None 0])
       (trace w ++ [EvOb_Alloc; EvUtil_StrDupA szPdbName; EvUtil_StrDupA szModule]),
     PDB_HashPdb X szPdbName guid age).
Proof.
  intros Hctx Hex Hal. unfold PDB_AddModuleEntry. rewrite Hctx, Hex. simpl.
  rewrite Hal. simpl. rewrite (ObMap_Push_fresh _ _ _ Hex).
  rewrite <- !app_assoc. reflexivity.
Qed.

(** The scan of the index once an entry bound to [va] has been appended. *)
Lemma find_module_base_snoc hp pm va e1 fp :
  (forall k p e, In (k, p) pm -> hp !! p = Some e -> vaModuleBase e <> va) ->
  vaModuleBase e1 = va -> qwHash e1 = fp ->
  find_module_base (hp ++ [e1]) (pm ++ [(fp, length hp)]) va
    (length (pm ++ [(fp, length hp)])) 0 = Some fp.
Proof.
  intros Hnew Hva Hfp.
  set (pm1 := pm ++ [(fp, length hp)]). set (hp1 := hp ++ [e1]).
  assert (Hlast : hp1 !! length hp = Some e1)
    by (apply list_lookup_middle; reflexivity).
  assert (Hall : forall k p e, In (k, p) pm1 -> hp1 !! p = Some e ->
                               vaModuleBase e = va -> qwHash e = fp).
  { intros k p e Hin He Hvae. apply in_app_iff in Hin as [Hin|[Hin|[]]].
    - destruct (Nat.lt_ge_cases p (length hp)) as [Hlt|Hge].
      + exfalso. apply (Hnew k p e Hin); [|exact Hvae].
        unfold hp1 in He. rewrite lookup_app_l in He by exact Hlt. exact He.
      + assert (p = length hp) as ->.
        { apply lookup_lt_Some in He. unfold hp1 in He. rewrite length_app in He.
          simpl in He. lia. }
        rewrite Hlast in He. injection He as <-. exact Hfp.
    - injection Hin as _ <-. rewrite Hlast in He. injection He as <-. exact Hfp. }
  destruct (find_module_base hp1 pm1 va (length pm1) 0) as [h|] eqn:Ef.
  - destruct (find_module_base_some _ _ _ _ _ _ Ef) as (i & k & p & e & Hi & Hp & Hvae & <-).
    rewrite (Hall k p e); [reflexivity| |exact Hp|exact Hvae].
    apply list_elem_of_In. eapply list_elem_of_lookup_2. exact Hi.
  - exfalso.
    assert (Hi : pm1 !! length pm = Some (fp, length hp))
      by (apply list_lookup_middle; reflexivity).
    destruct (find_module_base_total hp1 pm1 va _ _ _ e1 Hi Hlast Hva
                (length pm1) 0) as (h & Hh).
    + unfold pm1. rewrite length_app. simpl. lia.
    + congruence.
Qed.

(** X7: a registration makes the module findable by its address.  After
    [PDB_AddModuleEntry] has created an entry (new fingerprint, allocation
    granted) for a module base that no indexed entry was bound to, the
    lookup by that address returns the new handle, for any process, with no
    outside call and no change to the world. *)
Theorem X7_add_then_address_lookup (X : EXTERNALS) (w : WORLD) (ctx : VMMWIN_PDB_CONTEXT)
    (va cb : Z) (szModule szPdbName : string) (guid : list Z) (age pProcess : Z) :
  pPdbContext w = Some ctx ->
  ObMap_ExistsKey (pmPdbByHash ctx) (PDB_HashPdb X szPdbName guid age) = false ->
  Ob_Alloc X (trace w) = true ->
  (forall k p e, In (k, p) (pmPdbByHash ctx) -> heap w !! p = Some e ->
                 vaModuleBase e <> va) ->
  PDB_GetHandleFromModuleAddress X
    (fst (PDB_AddModuleEntry X w va cb szModule szPdbName guid age)) pProcess va
  = PDB_AddModuleEntry X w va cb szModule szPdbName guid age.
Proof.
  intros Hctx Hex Hal Hnew.
  rewrite (PDB_AddModuleEntry_fresh_entry X w ctx va cb szModule _ _ _ Hctx Hex Hal).
  cbn [fst]. unfold PDB_GetHandleFromModuleAddress. cbn [pPdbContext pmPdbByHash heap].
  rewrite ObMap_Size_nat.
  rewrite find_module_base_snoc by first [exact Hnew | reflexivity]. reflexivity.
Qed.

Lemma X7_add_then_address_lookup_witness :
  PDB_GetHandleFromModuleAddress sample_X world_registered 4 0x1000
  = (world_registered, 1883368706899315958).
Proof.
  apply (X7_add_then_address_lookup sample_X world_initial ctx_initial 0x1000 0x2000
           "ntoskrnl"%string "ntkrnlmp.pdb"%string sample_guid 1 4
           eq_refl eq_refl eq_refl).
  intros k p e [].
Defined.

(** ** Strings handed back to the caller *)

Lemma substring_0_length n : forall s, (String.length (substring 0 n s) <= n)%nat.
Proof.
  induction n as [|n IH]; intros [|c s]; simpl; try lia.
  specialize (IH s). lia.
Qed.

Lemma substring_0_prefix n : forall s, String.prefix (substring 0 n s) s = true.
Proof.
  induction n as [|n IH]; intros [|c s]; simpl; try reflexivity.
  destruct (ascii_dec c c); [apply IH|contradiction].
Qed.

(** X8: a registration makes the module name readable.  With the subsystem
    enabled, after [PDB_AddModuleEntry] has created an entry whose handle is
    neither zero nor the kernel pseudo-handle, [PDB_GetModuleName] on the
    returned handle succeeds with the duplicate of the module name that was
    stored, cut to at most MAX_PATH - 1 = 259 characters: what is written is
    a prefix of the stored name and fits the caller's MAX_PATH buffer with
    its terminator.  When the duplication of the name had failed, the entry
    holds a NULL name and the call ends in the invalid-parameter handler of
    [strncpy_s]. *)
Theorem X8_add_then_module_name (X : EXTERNALS) (w : WORLD) (ctx : VMMWIN_PDB_CONTEXT)
    (va cb : Z) (szModule szPdbName : string) (guid : list Z) (age : Z) (buf : string) :
  pPdbContext w = Some ctx -> fDisabled ctx = false ->
  ObMap_ExistsKey (pmPdbByHash ctx) (PDB_HashPdb X szPdbName guid age) = false ->
  Ob_Alloc X (trace w) = true ->
  PDB_HashPdb X szPdbName guid age <> 0 ->
  PDB_HashPdb X szPdbName guid age <> PDB_HANDLE_KERNEL X ->
  PDB_GetModuleName X
    (fst (PDB_AddModuleEntry X w va cb szModule szPdbName guid age))
    (snd (PDB_AddModuleEntry X w va cb szModule szPdbName guid age)) buf
  = (fun sz => (true, strncpy_s_MAX_PATH sz))
      <$> Util_StrDupA X (trace w ++ [EvOb_Alloc; EvUtil_StrDupA szPdbName]) szModule
  /\ forall sz,
       Util_StrDupA X (trace w ++ [EvOb_Alloc; EvUtil_StrDupA szPdbName]) szModule = Some sz ->
       (String.length (strncpy_s_MAX_PATH sz) <= 259)%nat
       /\ String.prefix (strncpy_s_MAX_PATH sz) sz = true.
Proof.
  intros Hctx Hen Hex Hal Hnz Hnk.
  rewrite (PDB_AddModuleEntry_fresh_entry X w ctx va cb szModule _ _ _ Hctx Hex Hal).
  cbn [fst snd]. split.
  - unfold PDB_GetModuleName, PDB_EntryFromHandle. cbn [pPdbContext fDisabled pmPdbByHash heap].
    rewrite Hen. cbn [orb].
    destruct (Z.eqb_spec (PDB_HashPdb X szPdbName guid age) 0); [contradiction|].
    destruct (Z.eqb_spec (PDB_HashPdb X szPdbName guid age) (PDB_HANDLE_KERNEL X));
      [contradiction|].
    rewrite ObMap_GetByKey_app, (ObMap_ExistsKey_false _ _ Hex), Z.eqb_refl.
    rewrite list_lookup_middle by reflexivity. cbn [szModuleName].
    destruct (Util_StrDupA X _ szModule); reflexivity.
  - intros sz _. split; [apply substring_0_length|apply substring_0_prefix].
Qed.

Lemma X8_add_then_module_name_witness :
  PDB_GetModuleName sample_X world_registered_enabled 1883368706899315958 EmptyString
  = Some (true, "ntoskrnl"%string).
Proof.
  refine (proj1 (X8_add_then_module_name sample_X world_enabled ctx_enabled 0x1000 0x2000
           "ntoskrnl"%string "ntkrnlmp.pdb"%string sample_guid 1 EmptyString
           eq_refl eq_refl eq_refl eq_refl _ _)).
  - vm_compute. discriminate.
  - vm_compute. discriminate.
Defined.

(** ** Symbol addresses *)

Lemma PDB_ResolveHandle_key (X : EXTERNALS) w hPDB h' :
  PDB_ResolveHandle X w hPDB = Some h' ->
  exists ctx, pPdbContext w = Some ctx
              /\ PDB_EntryFromHandle X w hPDB = ObMap_GetByKey (pmPdbByHash ctx) h'.
Proof.
  unfold PDB_ResolveHandle, PDB_EntryFromHandle.
  destruct (pPdbContext w) as [ctx|]; [|discriminate].
  destruct (fDisabled ctx || (hPDB =? 0)); [discriminate|].
  intros [= <-]. exists ctx. split; reflexivity.
Qed.

Lemma PDB_GetSymbolOffset_true (X : EXTERNALS) w hPDB nm :
  snd (fst (PDB_GetSymbolOffset X w hPDB nm)) = true ->
  exists p e, PDB_EntryFromHandle X w hPDB = Some p /\ heap w !! p = Some e.
Proof.
  unfold PDB_GetSymbolOffset.
  destruct (PDB_EntryFromHandle X w hPDB) as [p|]; [|discriminate].
  destruct (heap w !! p) as [e|] eqn:He; [eauto|].
  unfold PDB_LoadEnsureEx. rewrite He. destruct (pPdbContext w); discriminate.
Qed.

(** X9: a symbol address is the module base plus the symbol offset.  For a
    handle that resolves to a nonzero handle: when [PDB_GetSymbolOffset]
    fails, [PDB_GetSymbolAddress] and [PDB_GetSymbolPBYTE] fail in the world
    the offset query leaves, with the address output and the buffer as they
    were and no read made.  When it succeeds, the address is the module base
    of the handle's entry plus the offset, modulo 2^64;
    [PDB_GetSymbolAddress] succeeds with it in the world the offset query
    leaves, and [PDB_GetSymbolPBYTE] makes one more outside call, the read
    of [cb] bytes at exactly this address into the caller's buffer, and
    returns what the read returns. *)
Theorem X9_symbol_address (X : EXTERNALS) (V : EXTERNALS_VMM) (w : WORLD)
    (hPDB h' : Z) (nm : string) (va0 pProcess : Z) (pb0 : list Z) (cb : Z) :
  PDB_ResolveHandle X w hPDB = Some h' -> h' <> 0 ->
  (snd (fst (PDB_GetSymbolOffset X w hPDB nm)) = false ->
     PDB_GetSymbolAddress X w hPDB nm va0
     = (fst (fst (PDB_GetSymbolOffset X w hPDB nm)), false, va0)
     /\ PDB_GetSymbolPBYTE X V w hPDB nm pProcess pb0 cb
        = (fst (fst (PDB_GetSymbolOffset X w hPDB nm)), false, pb0))
  /\ (snd (fst (PDB_GetSymbolOffset X w hPDB nm)) = true ->
      exists p e,
        PDB_EntryFromHandle X w hPDB = Some p /\ heap w !! p = Some e
        /\ PDB_GetSymbolAddress X w hPDB nm va0
           = (fst (fst (PDB_GetSymbolOffset X w hPDB nm)), true,
              qword (vaModuleBase e + snd (PDB_GetSymbolOffset X w hPDB nm)))
        /\ PDB_GetSymbolPBYTE X V w hPDB nm pProcess pb0 cb
           = (emit (fst (fst (PDB_GetSymbolOffset X w hPDB nm)))
                   (EvVmmRead pProcess
                      (qword (vaModuleBase e + snd (PDB_GetSymbolOffset X w hPDB nm))) cb),
              fst (VmmRead_Process V (trace (fst (fst (PDB_GetSymbolOffset X w hPDB nm))))
                     pProcess
                     (qword (vaModuleBase e + snd (PDB_GetSymbolOffset X w hPDB nm)))
                     cb pb0),
              snd (VmmRead_Process V (trace (fst (fst (PDB_GetSymbolOffset X w hPDB nm))))
                     pProcess
                     (qword (vaModuleBase e + snd (PDB_GetSymbolOffset X w hPDB nm)))
                     cb pb0))).
Proof.
  intros Hr Hnz.
  assert (Heq : PDB_EntryFromHandle X w h' = PDB_EntryFromHandle X w hPDB).
  { rewrite (PDB_ResolveHandle_entry X w hPDB h' Hr).
    destruct (Z.eqb_spec h' 0); [contradiction|reflexivity]. }
  assert (Hoff : PDB_GetSymbolOffset X w h' nm = PDB_GetSymbolOffset X w hPDB nm).
  { unfold PDB_GetSymbolOffset. rewrite Heq. reflexivity. }
  destruct (PDB_ResolveHandle_key X w hPDB h' Hr) as (ctx & Hctx & Hkey).
  pose proof (PDB_GetSymbolOffset_same_registry X w hPDB nm) as Hsame.
  pose proof (PDB_GetSymbolOffset_true X w hPDB nm) as Htrue.
  unfold PDB_GetSymbolAddress, PDB_GetSymbolPBYTE. rewrite Hr, Hoff.
  destruct (PDB_GetSymbolOffset X w hPDB nm) as [[w1 ok] off]. cbn [fst snd] in *.
  split; intros ->; cbn [negb]; [split; reflexivity|].
  destruct (Htrue eq_refl) as (p & e & Hp & He). exists p, e.
  split; [exact Hp|]. split; [exact He|].
  destruct Hsame as (_ & Hreg & _ & Hent).
  unfold registry_of in Hreg. rewrite Hctx in Hreg.
  destruct (pPdbContext w1) as [ctx1|]; [|discriminate].
  simpl in Hreg. injection Hreg as _ Hh _. rewrite Hh, <- Hkey, Hp.
  destruct (Hent p e He) as (e' & He' & _ & Hva & _). rewrite He', Hva.
  split; [reflexivity|].
  destruct (VmmRead_Process V _ _ _ _ _). reflexivity.
Qed.

Lemma X9_symbol_address_witness :
  PDB_GetSymbolAddress X_sym world_registered_enabled 1883368706899315958
    "PsInitialSystemProcess"%string 0
  = (fst (fst (PDB_GetSymbolOffset X_sym world_registered_enabled 1883368706899315958
                 "PsInitialSystemProcess"%string)), true, 0x346678).
Proof.
  destruct (proj2 (X9_symbol_address X_sym V_zero world_registered_enabled
                     1883368706899315958 1883368706899315958
                     "PsInitialSystemProcess"%string 0 4 [] 8 eq_refl
                     ltac:(discriminate)) eq_refl)
    as (p & e & Hp & He & Ha & _).
  vm_compute in Hp. injection Hp as <-. vm_compute in He. injection He as <-.
  rewrite Ha. reflexivity.
Defined.

(** ** The raw scan for the kernel's debug-info record *)

Lemma le_decode_nonneg pb : 0 <= le_decode pb.
Proof.
  induction pb as [|b pb IH]; simpl; [lia|].
  apply Z.lor_nonneg. split; [unfold byte; apply Z.mod_pos_bound; lia|].
  apply Z.shiftl_nonneg. exact IH.
Qed.

Lemma cstring_of_bytes_length pb : (String.length (cstring_of_bytes pb) <= length pb)%nat.
Proof.
  induction pb as [|b pb IH]; simpl; [lia|].
  destruct (byte b =? 0); simpl; lia.
Qed.

Lemma cstring_of_bytes_nt b0 b1 rest :
  bytes_eqb [110; 116] [b0; b1] = true ->
  String.prefix "nt"%string (cstring_of_bytes (b0 :: b1 :: rest)) = true.
Proof.
  cbn [bytes_eqb]. intros H.
  apply andb_true_iff in H as [Ha H]. apply andb_true_iff in H as [Hb _].
  apply Z.eqb_eq in Ha, Hb.
  change (byte 110) with 110 in Ha. change (byte 116) with 116 in Hb.
  cbn [cstring_of_bytes]. rewrite <- Ha, <- Hb.
  change (110 =? 0) with false. change (116 =? 0) with false.
  change (ascii_of_N (Z.to_N 110)) with "n"%char.
  change (ascii_of_N (Z.to_N 116)) with "t"%char.
  cbn [String.prefix].
  destruct (ascii_dec "n" "n"); [|contradiction].
  destruct (ascii_dec "t" "t"); [|contradiction].
  destruct (cstring_of_bytes rest); reflexivity.
Qed.

Lemma PDB_Initialize_Async_Kernel_ScanForPdbInfo_Loop_spec pb limit : forall n k0,
  match PDB_Initialize_Async_Kernel_ScanForPdbInfo_Loop pb limit n (4 * k0) with
  | Some cv =>
    exists k, k0 <= k < k0 + Z.of_nat n /\ 4 * k < limit
              /\ scan_match pb (4 * k) = true /\ cv = scan_result pb (4 * k)
              /\ forall k', k0 <= k' < k -> scan_match pb (4 * k') = false
  | None =>
    forall k, k0 <= k < k0 + Z.of_nat n -> 4 * k < limit -> scan_match pb (4 * k) = false
  end.
Proof.
  induction n as [|n IH]; intros k0.
  - simpl. intros k Hk. lia.
  - cbn [PDB_Initialize_Async_Kernel_ScanForPdbInfo_Loop].
    destruct (Z.ltb_spec (4 * k0) limit) as [Hlt|Hge].
    + destruct (scan_match pb (4 * k0)) eqn:Hm.
      * exists k0. split; [lia|]. split; [exact Hlt|]. split; [exact Hm|].
        split; [reflexivity|]. intros k' Hk'. lia.
      * replace (4 * k0 + 4) with (4 * (k0 + 1)) by lia.
        specialize (IH (k0 + 1)).
        destruct (PDB_Initialize_Async_Kernel_ScanForPdbInfo_Loop pb limit n (4 * (k0 + 1)))
          as [cv|].
        -- destruct IH as (k & Hk & Hl & Hmk & Hcv & Hfirst).
           exists k. repeat split; try lia; try assumption.
           intros k' Hk'. destruct (Z.eq_dec k' k0) as [->|Hne]; [exact Hm|].
           apply Hfirst. lia.
        -- intros k Hk Hl. destruct (Z.eq_dec k k0) as [->|Hne]; [exact Hm|].
           apply IH; lia.
    + intros k Hk Hl. lia.
Qed.

Lemma scan_match_result pb i :
  scan_match pb i = true ->
  0 <= cv_Age (scan_result pb i) <= 0x20
  /\ length (cv_Guid (scan_result pb i)) = 16%nat
  /\ (String.length (cv_PdbFileName (scan_result pb i)) <= 12)%nat
  /\ String.prefix "nt"%string (cv_PdbFileName (scan_result pb i)) = true.
Proof.
  unfold scan_match, scan_result. cbn [cv_Age cv_Guid cv_PdbFileName].
  intros H. apply andb_true_iff in H as [H H4]. apply andb_true_iff in H as [H H3].
  apply andb_true_iff in H as [_ H2].
  split; [|split; [|split]].
  - split; [apply le_decode_nonneg|].
    destruct (Z.ltb_spec 0x20 (le_decode (buf_bytes pb (i + 20) 4))); [discriminate|lia].
  - unfold buf_bytes. rewrite !length_map, length_seq. reflexivity.
  - etransitivity; [apply cstring_of_bytes_length|].
    unfold buf_bytes. rewrite length_map, length_seq. reflexivity.
  - unfold buf_bytes in *. cbn [seq map] in H3. cbn [seq map].
    apply cstring_of_bytes_nt. exact H3.
Qed.

(** X10: the raw scan of the kernel image.  With a kernel base and the 8 MiB
    buffer granted, the scan leaves the registry alone and adds the
    allocation and the read of the image to the trace.  When
    it reports a record, the record lies at a 4-aligned offset of the image,
    it is the first 4-aligned offset below 0x00800000 - sizeof(PE_CODEVIEW)
    that carries the signature "RSDS", an age of at most 0x20, a file name
    starting with "nt" and ".pdb" with its terminator from the ninth
    character on; the reported age is at most 0x20, the GUID has 16 bytes,
    the file name starts with "nt" and has at most 12 characters, and all 37
    bytes the test looks at lie inside the buffer when the record type has
    at least that size.  When it reports nothing, no 4-aligned offset below
    the limit passes the test. *)
Theorem X10_kernel_scan (X : EXTERNALS) (V : EXTERNALS_VMM) (w : WORLD) (pSystemProcess : Z) :
  kernel_vaBase V <> 0 -> LocalAlloc X (trace w) 0x00800000 = true ->
  37 <= sizeof_PE_CODEVIEW V <= 0x00800000 ->
  fst (PDB_Initialize_Async_Kernel_ScanForPdbInfo X V w pSystemProcess)
  = emit (emit w (EvLocalAlloc 0x00800000))
         (EvVmmReadEx pSystemProcess (kernel_vaBase V) 0x00800000)
  /\ match snd (PDB_Initialize_Async_Kernel_ScanForPdbInfo X V w pSystemProcess) with
     | Some cv =>
       exists k,
         0 <= 4 * k /\ 4 * k + 37 <= 0x00800000
         /\ 4 * k < 0x00800000 - sizeof_PE_CODEVIEW V
         /\ scan_match (VmmReadEx_ZEROPAD V (trace w ++ [EvLocalAlloc 0x00800000])
                          pSystemProcess (kernel_vaBase V) 0x00800000) (4 * k) = true
         /\ cv = scan_result (VmmReadEx_ZEROPAD V (trace w ++ [EvLocalAlloc 0x00800000])
                                pSystemProcess (kernel_vaBase V) 0x00800000) (4 * k)
         /\ (forall k', 0 <= k' < k ->
               scan_match (VmmReadEx_ZEROPAD V (trace w ++ [EvLocalAlloc 0x00800000])
                             pSystemProcess (kernel_vaBase V) 0x00800000) (4 * k') = false)
         /\ 0 <= cv_Age cv <= 0x20
         /\ length (cv_Guid cv) = 16%nat
         /\ (String.length (cv_PdbFileName cv) <= 12)%nat
         /\ String.prefix "nt"%string (cv_PdbFileName cv) = true
     | None =>
       forall k, 0 <= 4 * k < 0x00800000 - sizeof_PE_CODEVIEW V ->
         scan_match (VmmReadEx_ZEROPAD V (trace w ++ [EvLocalAlloc 0x00800000])
                       pSystemProcess (kernel_vaBase V) 0x00800000) (4 * k) = false
     end.
Proof.
  intros Hbase Hal Hsz. unfold PDB_Initialize_Async_Kernel_ScanForPdbInfo.
  destruct (Z.eqb_spec (kernel_vaBase V) 0); [contradiction|].
  rewrite Hal. cbn [negb fst snd emit trace].
  split; [reflexivity|].
  set (pb := VmmReadEx_ZEROPAD V _ _ _ _).
  set (limit := 0x00800000 - sizeof_PE_CODEVIEW V).
  pose proof (PDB_Initialize_Async_Kernel_ScanForPdbInfo_Loop_spec pb limit
                (Z.to_nat ((limit + 3) / 4)) 0) as Hspec.
  change (4 * 0) with 0 in Hspec.
  destruct (PDB_Initialize_Async_Kernel_ScanForPdbInfo_Loop pb limit _ 0) as [cv|].
  - destruct Hspec as (k & Hk & Hl & Hm & -> & Hfirst).
    destruct (scan_match_result pb (4 * k) Hm) as (A & B & C & D).
    exists k. unfold limit in *. repeat split; try lia; try assumption.
  - intros k Hk. apply Hspec; [|lia].
    rewrite Z2Nat.id by (apply Z.div_pos; unfold limit; lia).
    assert (k + 1 <= (limit + 3) / 4) by (apply Z.div_le_lower_bound; lia). lia.
Qed.

Lemma X10_kernel_scan_witness :
  match snd (PDB_Initialize_Async_Kernel_ScanForPdbInfo sample_X V_kernel world_initial 4) with
  | Some cv => 0 <= cv_Age cv <= 0x20
               /\ String.prefix "nt"%string (cv_PdbFileName cv) = true
  | None => False
  end.
Proof.
  pose proof (X10_kernel_scan sample_X V_kernel world_initial 4
                ltac:(discriminate) eq_refl ltac:(vm_compute; split; discriminate)) as [_ H].
  destruct (snd (PDB_Initialize_Async_Kernel_ScanForPdbInfo sample_X V_kernel world_initial 4))
    as [cv|] eqn:E.
  - destruct H as (k & _ & _ & _ & _ & _ & _ & Hage & _ & _ & Hnt). split; assumption.
  - vm_compute in E. discriminate E.
Defined.

(** ** The kernel bootstrap *)

Lemma registry_grows_refl w : registry_grows w w.
Proof.
  split; [reflexivity|]. split; [reflexivity|].
  intros p e He. exists e. split; [exact He|apply same_identity_refl].
Qed.

Lemma registry_grows_trans w1 w2 w3 :
  registry_grows w1 w2 -> registry_grows w2 w3 -> registry_grows w1 w3.
Proof.
  intros (A1 & B1 & C1) (A2 & B2 & C2).
  split; [congruence|]. split; [congruence|].
  intros p e He. destruct (C1 p e He) as (e' & He' & Hid).
  destruct (C2 p e' He') as (e'' & He'' & Hid').
  exists e''. split; [exact He''|]. exact (same_identity_trans _ _ _ Hid Hid').
Qed.

Lemma same_registry_grows w w' : same_registry w w' -> registry_grows w w'.
Proof.
  intros (A & B & _ & C). split; [exact A|]. split; [|exact C].
  unfold registry_of in B.
  destruct (pPdbContext w'), (pPdbContext w); simpl in *; congruence.
Qed.

Lemma PDB_AddModuleEntry_grows (X : EXTERNALS) w va cb szModule szPdbName guid age :
  registry_grows w (fst (PDB_AddModuleEntry X w va cb szModule szPdbName guid age)).
Proof.
  destruct (pPdbContext w) as [ctx|] eqn:Hctx.
  2:{ unfold PDB_AddModuleEntry. rewrite Hctx. apply registry_grows_refl. }
  destruct (ObMap_ExistsKey (pmPdbByHash ctx) (PDB_HashPdb X szPdbName guid age)) eqn:Hex.
  { rewrite (PDB_AddModuleEntry_present X w ctx _ _ _ _ _ _ Hctx Hex).
    apply registry_grows_refl. }
  destruct (Ob_Alloc X (trace w)) eqn:Hal.
  2:{ unfold PDB_AddModuleEntry. rewrite Hctx, Hex. simpl. rewrite Hal. simpl.
      apply same_registry_grows, same_registry_emit. }
  rewrite (PDB_AddModuleEntry_fresh_entry X w ctx va cb szModule _ _ _ Hctx Hex Hal).
  cbn [fst]. split; [reflexivity|]. split; [cbn; rewrite Hctx; reflexivity|].
  intros p e He. exists e. split; [|apply same_identity_refl].
  cbn [heap]. apply lookup_app_l_Some. exact He.
Qed.

Lemma PDB_Initialize_Async_Kernel_ScanForPdbInfo_grows (X : EXTERNALS) (V : EXTERNALS_VMM)
    w pSystemProcess :
  registry_grows w (fst (PDB_Initialize_Async_Kernel_ScanForPdbInfo X V w pSystemProcess)).
Proof.
  unfold PDB_Initialize_Async_Kernel_ScanForPdbInfo.
  destruct (kernel_vaBase V =? 0); [apply registry_grows_refl|].
  destruct (negb _); [apply same_registry_grows, same_registry_emit|].
  apply same_registry_grows.
  eapply same_registry_trans; apply same_registry_emit.
Qed.

(** X11: the kernel bootstrap.  [PDB_Initialize_Async_Kernel_ThreadProc]
    returns 0 or 1.  When it returns 1 the subsystem is enabled and the
    by-fingerprint index holds an entry that is loaded: not failed, with a
    nonzero load address.  When it returns 0 the disabled flag is what it
    was, so that a subsystem that was disabled stays disabled.  In both
    cases every entry that existed is still there with its identity. *)
Theorem X11_kernel_bootstrap (X : EXTERNALS) (V : EXTERNALS_VMM) (w : WORLD)
    (PdbInfo : option PE_CODEVIEW) :
  (snd (PDB_Initialize_Async_Kernel_ThreadProc X V w PdbInfo) = 0
   \/ snd (PDB_Initialize_Async_Kernel_ThreadProc X V w PdbInfo) = 1)
  /\ (snd (PDB_Initialize_Async_Kernel_ThreadProc X V w PdbInfo) = 1 ->
      exists ctx' k p e,
        pPdbContext (fst (PDB_Initialize_Async_Kernel_ThreadProc X V w PdbInfo)) = Some ctx'
        /\ fDisabled ctx' = false
        /\ ObMap_GetByKey (pmPdbByHash ctx') k = Some p
        /\ heap (fst (PDB_Initialize_Async_Kernel_ThreadProc X V w PdbInfo)) !! p = Some e
        /\ fLoadFailed e = false /\ qwLoadAddress e <> 0)
  /\ (snd (PDB_Initialize_Async_Kernel_ThreadProc X V w PdbInfo) = 0 ->
      fDisabled <$> pPdbContext (fst (PDB_Initialize_Async_Kernel_ThreadProc X V w PdbInfo))
      = fDisabled <$> pPdbContext w)
  /\ (forall p e, heap w !! p = Some e ->
        exists e',
          heap (fst (PDB_Initialize_Async_Kernel_ThreadProc X V w PdbInfo)) !! p = Some e'
          /\ same_identity e e').
Proof.
  assert (Hdone : forall w', registry_grows w w' ->
            ((0 = 0 \/ 0 = 1)
             /\ (0 = 1 -> exists ctx' k p e,
                   pPdbContext w' = Some ctx' /\ fDisabled ctx' = false
                   /\ ObMap_GetByKey (pmPdbByHash ctx') k = Some p
                   /\ heap w' !! p = Some e
                   /\ fLoadFailed e = false /\ qwLoadAddress e <> 0)
             /\ (0 = 0 -> fDisabled <$> pPdbContext w' = fDisabled <$> pPdbContext w)
             /\ (forall p e, heap w !! p = Some e ->
                   exists e', heap w' !! p = Some e' /\ same_identity e e'))).
  { intros w' (_ & Hf & He). split; [left; reflexivity|]. split; [discriminate|].
    split; [intros _; exact Hf|exact He]. }
  unfold PDB_Initialize_Async_Kernel_ThreadProc.
  destruct (pPdbContext w) as [ctx|] eqn:Hctx;
    [|apply Hdone, registry_grows_refl].
  cbv zeta. set (wp := emit w (EvVmmProcessGet 4)).
  assert (Hwp : registry_grows w wp) by apply same_registry_grows, same_registry_emit.
  destruct (VmmProcessGet V (trace w) 4) as [pObSystemProcess|];
    [|apply Hdone; exact Hwp].
  set (found := match PdbInfo with
                | Some cv => (wp, Some cv)
                | None => _
                end).
  assert (Hfound : registry_grows w (fst found)).
  { eapply registry_grows_trans; [exact Hwp|].
    unfold found. destruct PdbInfo as [cv|]; [apply registry_grows_refl|].
    destruct (PE_GetCodeViewInfo X (trace wp) pObSystemProcess (kernel_vaBase V)) as [cv|].
    - apply same_registry_grows, same_registry_emit.
    - eapply registry_grows_trans;
        [apply same_registry_grows, same_registry_emit
        |apply PDB_Initialize_Async_Kernel_ScanForPdbInfo_grows]. }
  destruct found as [w0 [cv|]]; cbn [fst] in Hfound; [|apply Hdone; exact Hfound].
  pose proof (PDB_AddModuleEntry_grows X w0 (kernel_vaBase V) (dword (kernel_cbSize V))
                "ntoskrnl"%string (cv_PdbFileName cv) (cv_Guid cv) (cv_Age cv)) as Hadd.
  destruct (PDB_AddModuleEntry X w0 _ _ _ _ _ _) as [w1 qwPdbHash]. cbn [fst] in Hadd.
  pose proof (registry_grows_trans _ _ _ Hfound Hadd) as H1.
  destruct (pPdbContext w1) as [ctx1|] eqn:Hctx1; [|apply Hdone; exact H1].
  destruct (ObMap_GetByKey (pmPdbByHash ctx1) qwPdbHash) as [pObKernelEntry|] eqn:Hkey;
    [|apply Hdone; exact H1].
  pose proof (PDB_LoadEnsureEx_same_registry X w1 pObKernelEntry) as Hload.
  pose proof (PDB_LoadEnsureEx_true X w1 pObKernelEntry) as Htrue.
  destruct (PDB_LoadEnsureEx X w1 pObKernelEntry) as [w2 fLoaded]. cbn [fst snd] in *.
  pose proof (registry_grows_trans _ _ _ H1 (same_registry_grows _ _ Hload)) as H2.
  destruct fLoaded; cbn [negb]; [|apply Hdone; exact H2].
  destruct Hload as (_ & Hreg & _).
  unfold registry_of in Hreg. rewrite Hctx1 in Hreg.
  destruct (pPdbContext w2) as [ctx2|]; [|discriminate].
  simpl in Hreg. injection Hreg as _ Hh _.
  destruct (Htrue eq_refl) as (e' & He' & Hnf & Hla).
  cbn [fst snd]. split; [right; reflexivity|]. split.
  - intros _. eexists. exists qwPdbHash, pObKernelEntry, e'.
    cbn [set_ctx pPdbContext heap]. split; [reflexivity|].
    cbn [fDisabled pmPdbByHash]. rewrite Hh. auto.
  - split; [discriminate|]. destruct H2 as (_ & _ & H2). exact H2.
Qed.

(** ** Type display without an instance *)

Lemma DT_type_only_refl ctx : DT_type_only ctx ctx.
Proof. exists []. split; [symmetry; apply app_nil_r|constructor]. Qed.

Lemma DT_type_only_trans c1 c2 c3 :
  DT_type_only c1 c2 -> DT_type_only c2 c3 -> DT_type_only c1 c3.
Proof.
  intros (n1 & E1 & F1) (n2 & E2 & F2). exists (n1 ++ n2).
  split; [rewrite E2, E1, app_assoc; reflexivity|].
  apply Forall_app. split; assumption.
Qed.

Lemma DT_type_only_commit ctx wszln :
  forallb (fun pc => negb (DT_is_data pc)) wszln = true ->
  DT_type_only ctx (DT_commit ctx wszln).
Proof. intros H. exists [wszln]. split; [reflexivity|]. constructor; [exact H|constructor]. Qed.

Lemma DT_type_only_enter ctx iLevel ty : DT_type_only ctx (DT_enter ctx iLevel ty).
Proof. exists []. split; [symmetry; apply app_nil_r|constructor]. Qed.

Lemma DT_line_prefix_no_data iLevel pe :
  forallb (fun pc => negb (DT_is_data pc)) (DT_line_prefix iLevel pe) = true.
Proof.
  unfold DT_line_prefix.
  destruct (negb (dwArrayCount pe =? 0)), (negb (dwPtrTypeIndex pe =? 0)); reflexivity.
Qed.

Lemma DT_fix_typename_same T T' pe :
  DT_same_database T T' -> DT_fix_typename T pe = DT_fix_typename T' pe.
Proof. intros (_ & _ & _ & H & _). unfold DT_fix_typename. rewrite H. reflexivity. Qed.

Lemma DT_fix_pointer_same T T' pe :
  DT_same_database T T' -> DT_fix_pointer T pe = DT_fix_pointer T' pe.
Proof.
  intros (_ & _ & _ & _ & Hb & Ht). unfold DT_fix_pointer. rewrite Hb, Ht. reflexivity.
Qed.

Lemma PDB_DisplayTypeNt_DoWork_Loop_type_only T T' rec rec' iLevel cnt nm cb :
  DT_same_database T T' ->
  (forall ctx0 l ty c nm0 cb0,
      rec ctx0 l ty c nm0 None cb0 = rec' ctx0 l ty c nm0 None cb0
      /\ match rec ctx0 l ty c nm0 None cb0 with
         | Some ctx1 => DT_type_only ctx0 ctx1
         | None => True
         end) ->
  forall pInfo i cbLast base ctx,
    PDB_DisplayTypeNt_DoWork_Loop T rec iLevel cnt nm None cb pInfo i cbLast base ctx
    = PDB_DisplayTypeNt_DoWork_Loop T' rec' iLevel cnt nm None cb pInfo i cbLast base ctx
    /\ match PDB_DisplayTypeNt_DoWork_Loop T rec iLevel cnt nm None cb pInfo i cbLast base ctx
       with
       | Some ctx' => DT_type_only ctx ctx'
       | None => True
       end.
Proof.
  intros Hdb Hrec. induction pInfo as [|pe pInfo IH]; intros i last0 base ctx.
  - split; [reflexivity|apply DT_type_only_refl].
  - rewrite !PDB_DisplayTypeNt_DoWork_Loop_cons. cbv zeta.
    rewrite <- (DT_fix_typename_same T T' pe Hdb).
    rewrite <- (DT_fix_pointer_same T T' _ Hdb).
    destruct (dwTag _ =? SymTagUDT).
    + match goal with |- context [DT_commit ctx ?l] =>
        set (ctx1 := DT_commit ctx l);
        assert (H1 : DT_type_only ctx ctx1)
      end.
      { apply DT_type_only_commit. rewrite forallb_app, DT_line_prefix_no_data. reflexivity. }
      destruct (negb _ && (iLevel <? iLevelMax ctx1) && _).
      * cbn [fmap option_fmap option_map is_none].
        match goal with
        | |- context [rec ctx1 ?l ?ty ?c ?n None ?b] =>
          destruct (Hrec ctx1 l ty c n b) as [<- Hgrow];
          destruct (rec ctx1 l ty c n None b) as [ctx2|]
        end; [|split; [reflexivity|exact I]].
        match goal with
        | |- context [PDB_DisplayTypeNt_DoWork_Loop T rec _ _ _ _ _ pInfo ?i' ?l' ?b' ctx2] =>
          destruct (IH i' l' b' ctx2) as [<- Hnext];
          destruct (PDB_DisplayTypeNt_DoWork_Loop T rec iLevel cnt nm None cb pInfo i' l' b' ctx2)
        end; [|split; [reflexivity|exact I]].
        split; [reflexivity|].
        eapply DT_type_only_trans; [exact H1|].
        eapply DT_type_only_trans; eassumption.
      * match goal with
        | |- context [PDB_DisplayTypeNt_DoWork_Loop T rec _ _ _ _ _ pInfo ?i' ?l' ?b' ctx1] =>
          destruct (IH i' l' b' ctx1) as [<- Hnext];
          destruct (PDB_DisplayTypeNt_DoWork_Loop T rec iLevel cnt nm None cb pInfo i' l' b' ctx1)
        end; [|split; [reflexivity|exact I]].
        split; [reflexivity|]. eapply DT_type_only_trans; eassumption.
    + cbn [DT_line_value DT_line_string]. rewrite !app_nil_r.
      match goal with |- context [DT_commit ctx ?l] =>
        set (ctx1 := DT_commit ctx l);
        assert (H1 : DT_type_only ctx ctx1)
      end.
      { apply DT_type_only_commit. rewrite forallb_app, DT_line_prefix_no_data. reflexivity. }
      match goal with
      | |- context [PDB_DisplayTypeNt_DoWork_Loop T rec _ _ _ _ _ pInfo ?i' ?l' ?b' ctx1] =>
        destruct (IH i' l' b' ctx1) as [<- Hnext];
        destruct (PDB_DisplayTypeNt_DoWork_Loop T rec iLevel cnt nm None cb pInfo i' l' b' ctx1)
      end; [|split; [reflexivity|exact I]].
      split; [reflexivity|]. eapply DT_type_only_trans; eassumption.
Qed.

(** X12: a type displayed without an instance shows no target memory.  When
    the worker is entered without instance memory, its result is the same
    for every target memory, address test and target width behind the same
    type database: nothing of the target is consulted, at any level of
    nesting.  The lines committed before are kept, and no line added carries
    a decoded value or a decoded string. *)
Theorem X12_type_only_display (T T' : DT_EXTERNALS) (fuel : nat) (ctxDT : PDB_DT_CONTEXT)
    (iLevel dwTypeIndex dwChildCount : Z) (wszTypeName0 : option string) (cbMEM : Z) :
  DT_same_database T T' ->
  PDB_DisplayTypeNt_DoWork T fuel ctxDT iLevel dwTypeIndex dwChildCount wszTypeName0 None cbMEM
  = PDB_DisplayTypeNt_DoWork T' fuel ctxDT iLevel dwTypeIndex dwChildCount wszTypeName0 None
      cbMEM
  /\ match PDB_DisplayTypeNt_DoWork T fuel ctxDT iLevel dwTypeIndex dwChildCount wszTypeName0
             None cbMEM with
     | Some ctxDT' => DT_type_only ctxDT ctxDT'
     | None => True
     end.
Proof.
  intros Hdb. revert ctxDT iLevel dwTypeIndex dwChildCount wszTypeName0 cbMEM.
  induction fuel as [|fuel IH]; intros ctx iLevel ty cnt nm cb.
  - split; [reflexivity|exact I].
  - cbn [PDB_DisplayTypeNt_DoWork].
    pose proof Hdb as (Ha & Hc & Ht & _).
    rewrite <- !Ha, <- Hc.
    pose proof (DT_type_only_enter ctx iLevel ty) as Hent.
    destruct (negb (DT_LocalAlloc T _ _)); [split; [reflexivity|exact Hent]|].
    destruct (SymGetTypeInfoEx_CHILDREN T ty cnt) as [IP1|];
      [|split; [reflexivity|exact Hent]].
    destruct (negb (cnt =? _)); [split; [reflexivity|exact Hent]|].
    destruct (negb (DT_LocalAlloc T _ _)); [split; [reflexivity|exact Hent]|].
    rewrite <- Ht.
    destruct (SymGetTypeInfoEx_TYPES T _) as [IP2|]; [|split; [reflexivity|exact Hent]].
    destruct (PDB_DisplayTypeNt_DoWork_Loop_type_only T T'
                (PDB_DisplayTypeNt_DoWork T fuel) (PDB_DisplayTypeNt_DoWork T' fuel)
                iLevel cnt nm cb Hdb)
      with (pInfo := DT_merge IP1 IP2) (i := 0) (cbLast := 0) (base := 0)
           (ctx := DT_enter ctx iLevel ty) as [E Hgrow].
    + intros ctx0 l ty0 c0 nm0 cb0. apply IH.
    + split; [exact E|].
      destruct (PDB_DisplayTypeNt_DoWork_Loop T _ _ _ _ _ _ _ _ _ _ _); [|exact I].
      exact (DT_type_only_trans _ _ _ Hent Hgrow).
Qed.

Lemma X12_type_only_display_witness :
  PDB_DisplayTypeNt_DoWork sample_T 3 (ctxDT_fresh 2) 0 2 2 None None 0
  = PDB_DisplayTypeNt_DoWork sample_T_ff 3 (ctxDT_fresh 2) 0 2 2 None None 0.
Proof.
  refine (proj1 (X12_type_only_display sample_T sample_T_ff 3 (ctxDT_fresh 2) 0 2 2 None 0 _)).
  unfold DT_same_database. repeat (split; [intros; reflexivity|]). intros; reflexivity.
Defined.

(** ** After the shutdown *)

(** X13: after [PDB_Close] nothing is served and nothing is called.  The
    context pointer is cleared; [PDB_Close] itself calls [SymCleanup] and
    frees the two libraries when a context was published and calls nothing
    otherwise; a second [PDB_Close] does nothing; both handle lookups and the
    registration return 0, the loader and every query return FALSE and the
    kernel bootstrap returns 0, each leaving the closed world, the trace of
    its outside calls included, exactly as it is; [PDB_GetSymbolPBYTE] leaves
    the caller's buffer as it was. *)
Theorem X13_after_close (X : EXTERNALS) (V : EXTERNALS_VMM) (w : WORLD) :
  pPdbContext (PDB_Close w) = None
  /\ trace (PDB_Close w)
     = trace w ++ match pPdbContext w with
                  | Some _ => [EvSymCleanup; EvFreeLibrary "dbghelp.dll"%string;
                               EvFreeLibrary "symsrv.dll"%string]
                  | None => []
                  end
  /\ PDB_Close (PDB_Close w) = PDB_Close w
  /\ (forall szModule, PDB_GetHandleFromModuleName X (PDB_Close w) szModule = 0)
  /\ (forall pProcess va,
        PDB_GetHandleFromModuleAddress X (PDB_Close w) pProcess va = (PDB_Close w, 0))
  /\ (forall va cb szModule szPdbName guid age,
        PDB_AddModuleEntry X (PDB_Close w) va cb szModule szPdbName guid age
        = (PDB_Close w, 0))
  /\ (forall p, PDB_LoadEnsureEx X (PDB_Close w) p = (PDB_Close w, false))
  /\ (forall hPDB, PDB_LoadEnsure X (PDB_Close w) hPDB = (PDB_Close w, false))
  /\ (forall hPDB nm, PDB_GetSymbolOffset X (PDB_Close w) hPDB nm = (PDB_Close w, false, 0))
  /\ (forall hPDB nm va0,
        PDB_GetSymbolAddress X (PDB_Close w) hPDB nm va0 = (PDB_Close w, false, va0))
  /\ (forall hPDB nm pProcess pb0 cb,
        PDB_GetSymbolPBYTE X V (PDB_Close w) hPDB nm pProcess pb0 cb
        = (PDB_Close w, false, pb0))
  /\ (forall hPDB off sz pd,
        PDB_GetSymbolFromOffset X V (PDB_Close w) hPDB off sz pd
        = (PDB_Close w, false, sz, pd))
  /\ (forall hPDB nm d, PDB_GetTypeSize X (PDB_Close w) hPDB nm d = (PDB_Close w, false, d))
  /\ (forall hPDB nm child d,
        PDB_GetTypeChildOffset X (PDB_Close w) hPDB nm child d = (PDB_Close w, false, d))
  /\ (forall hPDB buf, PDB_GetModuleName X (PDB_Close w) hPDB buf = Some (false, buf))
  /\ (forall PdbInfo,
        PDB_Initialize_Async_Kernel_ThreadProc X V (PDB_Close w) PdbInfo = (PDB_Close w, 0)).
Proof.
  assert (Hnone : pPdbContext (PDB_Close w) = None).
  { unfold PDB_Close. destruct (pPdbContext w) eqn:E; [reflexivity|exact E]. }
  assert (Hentry : forall hPDB, PDB_EntryFromHandle X (PDB_Close w) hPDB = None).
  { intros hPDB. unfold PDB_EntryFromHandle. rewrite Hnone. reflexivity. }
  assert (Hall : forall hPDB, turned_away X (PDB_Close w) hPDB).
  { intros hPDB. unfold turned_away. rewrite Hentry. exact I. }
  split; [exact Hnone|].
  split.
  { unfold PDB_Close. destruct (pPdbContext w); [reflexivity|].
    symmetry. apply app_nil_r. }
  split; [unfold PDB_Close at 1; rewrite Hnone; reflexivity|].
  split; [intros; unfold PDB_GetHandleFromModuleName; rewrite Hnone; reflexivity|].
  split; [intros; unfold PDB_GetHandleFromModuleAddress; rewrite Hnone; reflexivity|].
  split; [intros; unfold PDB_AddModuleEntry; rewrite Hnone; reflexivity|].
  split; [intros; unfold PDB_LoadEnsureEx; rewrite Hnone; reflexivity|].
  split; [intros h; apply (turned_away_all X V _ h (Hall h))|].
  split; [intros h; apply (turned_away_all X V _ h (Hall h))|].
  split; [intros h; apply (turned_away_all X V _ h (Hall h))|].
  split; [intros h; apply (turned_away_all X V _ h (Hall h))|].
  split; [intros h; apply (turned_away_all X V _ h (Hall h))|].
  split; [intros h; apply (turned_away_all X V _ h (Hall h))|].
  split; [intros h; apply (turned_away_all X V _ h (Hall h))|].
  split; [intros; unfold PDB_GetModuleName; rewrite Hentry; reflexivity|].
  intros. unfold PDB_Initialize_Async_Kernel_ThreadProc. rewrite Hnone. reflexivity.
Qed.

(** ** The fingerprint *)

Lemma qword_range x : 0 <= qword x < 2 ^ 64.
Proof. unfold qword. apply Z.mod_pos_bound. lia. Qed.

Lemma qword_high_bits q i : 0 <= q < 2 ^ 64 -> 64 <= i -> Z.testbit q i = false.
Proof.
  intros Hq Hi. rewrite <- (Z.mod_small q (2 ^ 64)) by exact Hq.
  apply Z.mod_pow2_bits_high. lia.
Qed.

Lemma ror13_qword_bit q i :
  0 <= q < 2 ^ 64 -> 0 <= i ->
  Z.testbit (ror13_qword q) i
  = if i <? 51 then Z.testbit q (i + 13)
    else if i <? 64 then Z.testbit q (i - 51) else false.
Proof.
  intros Hq Hi. unfold ror13_qword, qword.
  rewrite Z.lor_spec, Z.shiftr_spec by exact Hi.
  destruct (Z.ltb_spec i 51) as [H51|H51].
  - rewrite Z.mod_pow2_bits_low by lia.
    rewrite Z.shiftl_spec by exact Hi.
    rewrite (Z.testbit_neg_r q (i - 51)) by lia. apply orb_false_r.
  - rewrite (qword_high_bits q (i + 13)) by lia. cbn [orb].
    destruct (Z.ltb_spec i 64) as [H64|H64].
    + rewrite Z.mod_pow2_bits_low by lia. apply Z.shiftl_spec. exact Hi.
    + apply Z.mod_pow2_bits_high. lia.
Qed.

Lemma ror13_qword_range q : 0 <= q < 2 ^ 64 -> 0 <= ror13_qword q < 2 ^ 64.
Proof.
  intros Hq.
  assert (H0 : 0 <= ror13_qword q).
  { unfold ror13_qword. apply Z.lor_nonneg. split; [apply Z.shiftr_nonneg; lia|].
    apply qword_range. }
  split; [exact H0|].
  destruct (Z.eq_dec (ror13_qword q) 0) as [->|Hne]; [lia|].
  apply Z.log2_lt_pow2; [lia|].
  destruct (Z.lt_ge_cases (Z.log2 (ror13_qword q)) 64) as [Hlt|Hge]; [exact Hlt|exfalso].
  pose proof (Z.bit_log2 (ror13_qword q) ltac:(lia)) as Hbit.
  rewrite ror13_qword_bit in Hbit by lia.
  destruct (Z.ltb_spec (Z.log2 (ror13_qword q)) 51); [lia|].
  destruct (Z.ltb_spec (Z.log2 (ror13_qword q)) 64); [lia|discriminate].
Qed.

Lemma ror13_qword_inj q q' :
  0 <= q < 2 ^ 64 -> 0 <= q' < 2 ^ 64 -> ror13_qword q = ror13_qword q' -> q = q'.
Proof.
  intros Hq Hq' E. apply Z.bits_inj'. intros j Hj.
  destruct (Z.lt_ge_cases j 64) as [H64|H64].
  - destruct (Z.lt_ge_cases j 13) as [H13|H13].
    + pose proof (ror13_qword_bit q (j + 51) Hq ltac:(lia)) as B.
      pose proof (ror13_qword_bit q' (j + 51) Hq' ltac:(lia)) as B'.
      rewrite E in B. rewrite B in B'.
      destruct (Z.ltb_spec (j + 51) 51); [lia|].
      destruct (Z.ltb_spec (j + 51) 64); [|lia].
      replace (j + 51 - 51) with j in B' by lia. exact B'.
    + pose proof (ror13_qword_bit q (j - 13) Hq ltac:(lia)) as B.
      pose proof (ror13_qword_bit q' (j - 13) Hq' ltac:(lia)) as B'.
      rewrite E in B. rewrite B in B'.
      destruct (Z.ltb_spec (j - 13) 51); [|lia].
      replace (j - 13 + 13) with j in B' by lia. exact B'.
  - rewrite !qword_high_bits by assumption. reflexivity.
Qed.

Lemma qword_add_inj_l c a b :
  0 <= a < 2 ^ 64 -> 0 <= b < 2 ^ 64 -> qword (a + c) = qword (b + c) -> a = b.
Proof.
  unfold qword. intros Ha Hb E.
  assert (H : (a - b) mod 2 ^ 64 = 0).
  { replace (a - b) with ((a + c) - (b + c)) by lia.
    rewrite Zminus_mod, E, Z.sub_diag. reflexivity. }
  apply Z.mod_divide in H; [|lia]. destruct H as [k Hk].
  assert (k = 0) by nia. lia.
Qed.

Lemma le_decode_bound pb : le_decode pb < 2 ^ (8 * Z.of_nat (length pb)).
Proof.
  induction pb as [|b pb IH]; [simpl; lia|].
  cbn [le_decode length]. pose proof (le_decode_nonneg pb) as H0.
  assert (Hb : 0 <= byte b < 2 ^ 8) by (unfold byte; apply Z.mod_pos_bound; lia).
  rewrite Z.shiftl_mul_pow2 by lia.
  assert (Hl : Z.lor (byte b) (le_decode pb * 2 ^ 8) = byte b + le_decode pb * 2 ^ 8).
  { rewrite <- Z.add_lor_land.
    assert (Hd : Z.land (byte b) (le_decode pb * 2 ^ 8) = 0); [|rewrite Hd; lia].
    apply Z.bits_inj'. intros i Hi. rewrite Z.land_spec, Z.bits_0.
    destruct (Z.lt_ge_cases i 8).
    - rewrite Z.mul_pow2_bits_low by lia. apply andb_false_r.
    - rewrite <- (Z.mod_small (byte b) (2 ^ 8)) by exact Hb.
      rewrite Z.mod_pow2_bits_high by lia. reflexivity. }
  rewrite Hl.
  replace (8 * Z.of_nat (S (length pb))) with (8 * Z.of_nat (length pb) + 8) by lia.
  rewrite Z.pow_add_r by lia. nia.
Qed.

Lemma read_qword_range pb off : 0 <= read_qword pb off < 2 ^ 64.
Proof.
  unfold read_qword. split; [apply le_decode_nonneg|].
  eapply Z.lt_le_trans; [apply le_decode_bound|].
  apply Z.pow_le_mono_r; [lia|].
  pose proof (length_firstn 8 (skipn off pb)). lia.
Qed.

(** X14: the fingerprint separates what it mixes.  For one PDB name, if two
    triples have the same fingerprint and agree on two of the age, the first
    eight bytes of the GUID and the last eight bytes of the GUID, they agree
    on the third: in particular two builds that differ only in the age of
    the PDB are never registered under the same handle. *)
Theorem X14_fingerprint_separates (X : EXTERNALS) (szPdbName : string)
    (pbGUID1 pbGUID2 : list Z) (dwAge1 dwAge2 : Z) :
  0 <= dwAge1 < 2 ^ 32 -> 0 <= dwAge2 < 2 ^ 32 ->
  PDB_HashPdb X szPdbName pbGUID1 dwAge1 = PDB_HashPdb X szPdbName pbGUID2 dwAge2 ->
  (read_qword pbGUID1 0 = read_qword pbGUID2 0 ->
   read_qword pbGUID1 8 = read_qword pbGUID2 8 -> dwAge1 = dwAge2)
  /\ (dwAge1 = dwAge2 -> read_qword pbGUID1 8 = read_qword pbGUID2 8 ->
      read_qword pbGUID1 0 = read_qword pbGUID2 0)
  /\ (dwAge1 = dwAge2 -> read_qword pbGUID1 0 = read_qword pbGUID2 0 ->
      read_qword pbGUID1 8 = read_qword pbGUID2 8).
Proof.
  intros Ha1 Ha2. unfold PDB_HashPdb.
  set (r0 := ror13_qword (qword (Util_HashStringA X szPdbName))).
  pose proof (read_qword_range pbGUID1 0) as R10.
  pose proof (read_qword_range pbGUID2 0) as R20.
  pose proof (read_qword_range pbGUID1 8) as R18.
  pose proof (read_qword_range pbGUID2 8) as R28.
  intros E. split; [|split].
  - intros E0 E8. rewrite E0, E8 in E.
    rewrite (Z.add_comm (read_qword pbGUID2 8)), (Z.add_comm (read_qword pbGUID2 8) (ror13_qword (qword (read_qword pbGUID2 0 + ror13_qword (qword (dwAge2 + r0)))))) in E.
    apply qword_add_inj_l in E; try (apply ror13_qword_range, qword_range).
    apply ror13_qword_inj in E; try apply qword_range.
    rewrite (Z.add_comm (read_qword pbGUID2 0)), (Z.add_comm (read_qword pbGUID2 0) (ror13_qword (qword (dwAge2 + r0)))) in E.
    apply qword_add_inj_l in E; try (apply ror13_qword_range, qword_range).
    apply ror13_qword_inj in E; try apply qword_range.
    apply qword_add_inj_l in E; [exact E|lia|lia].
  - intros <- E8. rewrite E8 in E.
    rewrite (Z.add_comm (read_qword pbGUID2 8)), (Z.add_comm (read_qword pbGUID2 8) (ror13_qword (qword (read_qword pbGUID2 0 + ror13_qword (qword (dwAge1 + r0)))))) in E.
    apply qword_add_inj_l in E; try (apply ror13_qword_range, qword_range).
    apply ror13_qword_inj in E; try apply qword_range.
    apply qword_add_inj_l in E; assumption.
  - intros <- E0. rewrite E0 in E.
    apply qword_add_inj_l in E; assumption.
Qed.

Lemma X14_fingerprint_separates_witness :
  (read_qword sample_guid 0 = read_qword sample_guid 0 ->
   read_qword sample_guid 8 = read_qword sample_guid 8 -> 1 = 1)
  /\ (1 = 1 -> read_qword sample_guid 8 = read_qword sample_guid 8 ->
      read_qword sample_guid 0 = read_qword sample_guid 0)
  /\ (1 = 1 -> read_qword sample_guid 0 = read_qword sample_guid 0 ->
      read_qword sample_guid 8 = read_qword sample_guid 8).
Proof.
  apply (X14_fingerprint_separates sample_X "ntkrnlmp.pdb"%string sample_guid sample_guid 1 1).
  - lia.
  - lia.
  - reflexivity.
Defined.

(** ** What the queries hand back *)

Lemma dword_range x : 0 <= dword x < 2 ^ 32.
Proof. unfold dword. apply Z.mod_pos_bound. lia. Qed.

Lemma PDB_GetTypeChildOffset_Loop_out (X : EXTERNALS) n : forall i w la ids nm d,
  (snd (fst (PDB_GetTypeChildOffset_Loop X n i w la ids nm d)) = true ->
   0 <= snd (PDB_GetTypeChildOffset_Loop X n i w la ids nm d) < 2 ^ 32)
  /\ (snd (fst (PDB_GetTypeChildOffset_Loop X n i w la ids nm d)) = false ->
      snd (PDB_GetTypeChildOffset_Loop X n i w la ids nm d) = d
      \/ (0 <= snd (PDB_GetTypeChildOffset_Loop X n i w la ids nm d) < 2 ^ 32
          /\ exists id t t',
               SymGetTypeInfo_SYMNAME X t la id = Some nm
               /\ SymGetTypeInfo_OFFSET X t' la id = None)).
Proof.
  induction n as [|n IH]; intros i w la ids nm d; simpl.
  - split; [discriminate|left; reflexivity].
  - destruct (SymGetTypeInfo_SYMNAME X _ _ _) as [s|] eqn:Hs; [|apply IH].
    destruct (String.eqb_spec nm s) as [<-|Hne]; [|apply IH].
    destruct (SymGetTypeInfo_OFFSET X _ _ _) as [o|] eqn:Ho.
    + simpl. split; [intros _; apply dword_range|discriminate].
    + match goal with
      | |- context [PDB_GetTypeChildOffset_Loop X n ?i' ?w' la ids nm ?d'] =>
        destruct (IH i' w' la ids nm d') as [Ht Hf]
      end.
      split; [exact Ht|]. intros Hfalse. right.
      destruct (Hf Hfalse) as [E|[Hr Hex]]; [|split; assumption].
      split; [rewrite E; apply dword_range|]. eauto.
Qed.

(** X15: what the queries hand back.  [PDB_GetSymbolOffset] always leaves a
    32-bit value in its output.  When [PDB_GetTypeSize] returns TRUE the
    size is a nonzero 32-bit value.  When [PDB_GetTypeChildOffset] returns
    TRUE the offset is a 32-bit value; when it returns FALSE the output is
    what it was before the call, unless a TI_GET_OFFSET request made for a
    child of the requested name has failed: the output, which was handed to
    that request, is then a 32-bit value the backend left in it.  [PDB_GetSymbolAddress] hands back a
    64-bit value on success and leaves the output alone on failure.
    [PDB_GetSymbolFromOffset] leaves both outputs alone on failure and keeps
    NULL outputs NULL; on success the name written has at most MAX_PATH - 1
    characters and the displacement is a 32-bit value. *)
Theorem X15_query_outputs (X : EXTERNALS) (V : EXTERNALS_VMM) (w : WORLD) (hPDB : Z)
    (nm child : string) (d0 dwSymbolOffset : Z) (sz0 : option string) (pd0 : option Z) :
  0 <= snd (PDB_GetSymbolOffset X w hPDB nm) < 2 ^ 32
  /\ (snd (fst (PDB_GetTypeSize X w hPDB nm d0)) = true ->
      0 < snd (PDB_GetTypeSize X w hPDB nm d0) < 2 ^ 32)
  /\ (snd (fst (PDB_GetTypeChildOffset X w hPDB nm child d0)) = true ->
      0 <= snd (PDB_GetTypeChildOffset X w hPDB nm child d0) < 2 ^ 32)
  /\ (snd (fst (PDB_GetTypeChildOffset X w hPDB nm child d0)) = false ->
      snd (PDB_GetTypeChildOffset X w hPDB nm child d0) = d0
      \/ (0 <= snd (PDB_GetTypeChildOffset X w hPDB nm child d0) < 2 ^ 32
          /\ exists la id t t',
               SymGetTypeInfo_SYMNAME X t la id = Some child
               /\ SymGetTypeInfo_OFFSET X t' la id = None))
  /\ (snd (fst (PDB_GetSymbolAddress X w hPDB nm d0)) = true ->
      0 <= snd (PDB_GetSymbolAddress X w hPDB nm d0) < 2 ^ 64)
  /\ (snd (fst (PDB_GetSymbolAddress X w hPDB nm d0)) = false ->
      snd (PDB_GetSymbolAddress X w hPDB nm d0) = d0)
  /\ (snd (fst (fst (PDB_GetSymbolFromOffset X V w hPDB dwSymbolOffset sz0 pd0))) = false ->
      snd (fst (PDB_GetSymbolFromOffset X V w hPDB dwSymbolOffset sz0 pd0)) = sz0
      /\ snd (PDB_GetSymbolFromOffset X V w hPDB dwSymbolOffset sz0 pd0) = pd0)
  /\ (sz0 = None ->
      snd (fst (PDB_GetSymbolFromOffset X V w hPDB dwSymbolOffset sz0 pd0)) = None)
  /\ (pd0 = None -> snd (PDB_GetSymbolFromOffset X V w hPDB dwSymbolOffset sz0 pd0) = None)
  /\ (snd (fst (fst (PDB_GetSymbolFromOffset X V w hPDB dwSymbolOffset sz0 pd0))) = true ->
      (forall sz, snd (fst (PDB_GetSymbolFromOffset X V w hPDB dwSymbolOffset sz0 pd0))
                  = Some sz -> (String.length sz <= 259)%nat)
      /\ (forall pd, snd (PDB_GetSymbolFromOffset X V w hPDB dwSymbolOffset sz0 pd0) = Some pd
                     -> 0 <= pd < 2 ^ 32)).
Proof.
  split.
  { unfold PDB_GetSymbolOffset.
    destruct (PDB_EntryFromHandle X w hPDB) as [p|]; [|simpl; lia].
    destruct (PDB_LoadEnsureEx X w p) as [w1 fLoaded].
    destruct fLoaded; [|simpl; lia]. cbn [negb].
    destruct (f32 w1).
    - destruct (SymEnumSymbols X _ _ _) as [syms ok]. rewrite enumerate_offset_first.
      assert (Hr : 0 <= match syms with
                        | [] => 0
                        | s :: _ => if symbol_offset s <? 0x10000000
                                    then symbol_offset s else 0
                        end < 2 ^ 32).
      { destruct syms as [|s syms]; [lia|].
        destruct (Z.ltb_spec (symbol_offset s) 0x10000000); [|lia].
        pose proof (symbol_offset_range s). lia. }
      destruct ok; cbn [negb]; [|exact Hr].
      destruct (_ =? 0); exact Hr.
    - destruct (SymGetTypeFromName X _ _ _) as [ok si].
      destruct ok; cbn [negb snd]; [apply dword_range|lia]. }
  split.
  { unfold PDB_GetTypeSize.
    destruct (PDB_EntryFromHandle X w hPDB) as [p|]; [|discriminate].
    destruct (PDB_LoadEnsureEx X w p) as [w1 fLoaded].
    destruct fLoaded; [|discriminate]. cbn [negb].
    destruct (SymGetTypeFromName X _ _ _) as [ok si]. cbn [fst snd].
    intros H. apply andb_true_iff in H as [_ H].
    pose proof (dword_range (si_Size si)).
    destruct (Z.eqb_spec (dword (si_Size si)) 0); [discriminate|lia]. }
  assert (Hchild :
    (snd (fst (PDB_GetTypeChildOffset X w hPDB nm child d0)) = true ->
     0 <= snd (PDB_GetTypeChildOffset X w hPDB nm child d0) < 2 ^ 32)
    /\ (snd (fst (PDB_GetTypeChildOffset X w hPDB nm child d0)) = false ->
        snd (PDB_GetTypeChildOffset X w hPDB nm child d0) = d0
        \/ (0 <= snd (PDB_GetTypeChildOffset X w hPDB nm child d0) < 2 ^ 32
            /\ exists la id t t',
                 SymGetTypeInfo_SYMNAME X t la id = Some child
                 /\ SymGetTypeInfo_OFFSET X t' la id = None))).
  { unfold PDB_GetTypeChildOffset.
    destruct (PDB_EntryFromHandle X w hPDB) as [p|];
      [|split; [discriminate|left; reflexivity]].
    destruct (PDB_LoadEnsureEx X w p) as [w1 fLoaded].
    destruct fLoaded; [|split; [discriminate|left; reflexivity]]. cbn [negb].
    destruct (SymEnumTypesByName X _ _ _) as [types ok].
    destruct (negb ok || _); [split; [discriminate|left; reflexivity]|].
    destruct (SymGetTypeInfo_CHILDRENCOUNT X _ _ _) as [c|];
      [|split; [discriminate|left; reflexivity]].
    destruct (dword c =? 0); [split; [discriminate|left; reflexivity]|].
    destruct (negb (LocalAlloc X _ _)); [split; [discriminate|left; reflexivity]|].
    destruct (SymGetTypeInfo_FINDCHILDREN X _ _ _ _) as [ids|];
      [|split; [discriminate|left; reflexivity]].
    match goal with
    | |- context [PDB_GetTypeChildOffset_Loop X ?n ?i ?w2 ?la ids child d0] =>
      destruct (PDB_GetTypeChildOffset_Loop_out X n i w2 la ids child d0) as [Ht Hf]
    end.
    split; [exact Ht|]. intros Hfalse.
    destruct (Hf Hfalse) as [E|[Hr (id & t & t' & Hex)]]; [left; exact E|].
    right. split; [exact Hr|]. eauto. }
  split; [apply Hchild|]. split; [apply Hchild|].
  assert (Haddr :
    (snd (fst (PDB_GetSymbolAddress X w hPDB nm d0)) = true ->
     0 <= snd (PDB_GetSymbolAddress X w hPDB nm d0) < 2 ^ 64)
    /\ (snd (fst (PDB_GetSymbolAddress X w hPDB nm d0)) = false ->
        snd (PDB_GetSymbolAddress X w hPDB nm d0) = d0)).
  { unfold PDB_GetSymbolAddress.
    destruct (PDB_ResolveHandle X w hPDB) as [h'|]; [|split; [discriminate|reflexivity]].
    destruct (PDB_GetSymbolOffset X w h' nm) as [[w1 ok] off].
    destruct ok; [|split; [discriminate|reflexivity]]. cbn [negb].
    destruct (pPdbContext w1) as [ctx1|]; [|split; [discriminate|reflexivity]].
    destruct (ObMap_GetByKey _ _) as [p|]; [|split; [discriminate|reflexivity]].
    destruct (heap w1 !! p) as [e|]; [|split; [discriminate|reflexivity]].
    split; [intros _; apply qword_range|discriminate]. }
  split; [apply Haddr|]. split; [apply Haddr|].
  unfold PDB_GetSymbolFromOffset.
  destruct (PDB_EntryFromHandle X w hPDB) as [p|].
  2:{ cbn [fst snd]. repeat split; try discriminate; auto. }
  destruct (PDB_LoadEnsureEx X w p) as [w1 fLoaded].
  destruct fLoaded; cbn [negb].
  2:{ cbn [fst snd]. repeat split; try discriminate; auto. }
  destruct (SymFromAddr V _ _) as [[[qwDisplacement Name] NameLen]|].
  2:{ cbn [fst snd]. repeat split; try discriminate; auto. }
  cbn [fst snd]. split; [discriminate|].
  split; [intros ->; reflexivity|]. split; [intros ->; reflexivity|].
  intros _. split.
  - intros sz Hsz. destruct sz0; [|discriminate]. injection Hsz as <-.
    etransitivity; [apply substring_0_length|].
    pose proof (dword_range NameLen). unfold MAX_PATH. lia.
  - intros pd Hpd. destruct pd0; [|discriminate]. injection Hpd as <-. apply dword_range.
Qed.

(** ** The instance window of a nested type *)

Lemma DT_final_window (T : DT_EXTERNALS) pe :
  dwOffset (DT_fix_special (DT_fix_pointer T (DT_fix_typename T pe))) = dwOffset pe
  /\ qwLength (DT_fix_special (DT_fix_pointer T (DT_fix_typename T pe))) = qwLength pe.
Proof.
  assert (H1 : forall q, dwOffset (DT_fix_special q) = dwOffset q
                         /\ qwLength (DT_fix_special q) = qwLength q).
  { intros q. unfold DT_fix_special. destruct (wszTypeName q); [|auto].
    match goal with |- context [if ?c then _ else _] => destruct c end; auto. }
  assert (H2 : forall q, dwOffset (DT_fix_pointer T q) = dwOffset q
                         /\ qwLength (DT_fix_pointer T q) = qwLength q).
  { intros q. unfold DT_fix_pointer.
    destruct (negb (dwPtrTypeIndex q =? 0) && is_none (wszTypeName q)); [|auto].
    match goal with |- context [if ?c then _ else _] => destruct c end; auto. }
  assert (H3 : dwOffset (DT_fix_typename T pe) = dwOffset pe
               /\ qwLength (DT_fix_typename T pe) = qwLength pe).
  { unfold DT_fix_typename.
    match goal with |- context [if ?c then _ else _] => destruct c end; [|auto].
    destruct (TI_GET_SYMNAME T (dwPtrTypeIndex pe)); auto. }
  destruct (H1 (DT_fix_pointer T (DT_fix_typename T pe))) as [-> ->].
  destruct (H2 (DT_fix_typename T pe)) as [-> ->]. exact H3.
Qed.

(** X16: a nested type is rendered from a window inside that of its parent.
    For fields whose offset and length are non-negative and do not wrap
    around 2^64 when added, and an instance window of a 32-bit size, every
    nested invocation the field loop makes receives a window of instance
    memory that lies inside the window of the loop itself: the loop gives
    the same result with any two workers that agree on such windows. *)
Theorem X16_nested_window (T : DT_EXTERNALS)
    (rec rec' : PDB_DT_CONTEXT -> Z -> Z -> Z -> option string -> option Z -> Z
                -> option PDB_DT_CONTEXT)
    (iLevel dwParentChildCount : Z) (wszParentTypeName : option string) (pb cbMEM : Z)
    (pInfo : list PDB_DT_INFO) (i cbTypeLast qwBitBase : Z) (ctxDT : PDB_DT_CONTEXT) :
  0 <= cbMEM < 2 ^ 32 ->
  Forall (fun pe => 0 <= dwOffset pe /\ 0 <= qwLength pe
                    /\ dwOffset pe + qwLength pe < 2 ^ 64) pInfo ->
  (forall ctx0 l ty c nm0 pb' cb',
      DT_window_inside pb cbMEM pb' cb' ->
      rec ctx0 l ty c nm0 (Some pb') cb' = rec' ctx0 l ty c nm0 (Some pb') cb') ->
  PDB_DisplayTypeNt_DoWork_Loop T rec iLevel dwParentChildCount wszParentTypeName
    (Some pb) cbMEM pInfo i cbTypeLast qwBitBase ctxDT
  = PDB_DisplayTypeNt_DoWork_Loop T rec' iLevel dwParentChildCount wszParentTypeName
      (Some pb) cbMEM pInfo i cbTypeLast qwBitBase ctxDT.
Proof.
  intros Hcb Hall Hrec. revert i cbTypeLast qwBitBase ctxDT.
  induction Hall as [|pe pInfo Hpe Hall IH]; intros i last0 base ctx; [reflexivity|].
  rewrite !PDB_DisplayTypeNt_DoWork_Loop_cons. cbv zeta.
  destruct (DT_final_window T pe) as [Hoff Hlen].
  destruct (dwTag _ =? SymTagUDT); [|apply IH].
  match goal with |- context [DT_commit ctx ?l] => set (ctx1 := DT_commit ctx l) end.
  destruct (negb _ && (iLevel <? iLevelMax ctx1) && _) eqn:Hc; [|apply IH].
  apply andb_true_iff in Hc as [_ Hc]. cbn [is_none orb] in Hc.
  apply Z.leb_le in Hc. rewrite Hoff, Hlen in Hc.
  destruct Hpe as (Ho & Hl & Hsum).
  unfold qword in Hc. rewrite Z.mod_small in Hc by lia.
  cbn [fmap option_fmap option_map is_none]. rewrite Hoff.
  assert (Hd : dword (cbMEM - dwOffset pe) = cbMEM - dwOffset pe)
    by (unfold dword; apply Z.mod_small; lia).
  rewrite Hd.
  rewrite <- (Hrec ctx1) by (unfold DT_window_inside; lia).
  destruct (rec ctx1 _ _ _ _ _ _); [apply IH|reflexivity].
Qed.

Lemma X16_nested_window_witness :
  PDB_DisplayTypeNt_DoWork_Loop sample_T (PDB_DisplayTypeNt_DoWork sample_T 1) 0 2 None
    (Some 0x1000) 16 (DT_merge (sample_children 2) (map sample_type [3; 10])) 0 0 0
    (ctxDT_fresh 2)
  = PDB_DisplayTypeNt_DoWork_Loop sample_T sample_rec_guarded 0 2 None
      (Some 0x1000) 16 (DT_merge (sample_children 2) (map sample_type [3; 10])) 0 0 0
      (ctxDT_fresh 2).
Proof.
  refine (X16_nested_window sample_T (PDB_DisplayTypeNt_DoWork sample_T 1) sample_rec_guarded
            0 2 None 0x1000 16 (DT_merge (sample_children 2) (map sample_type [3; 10]))
            0 0 0 (ctxDT_fresh 2) _ _ _).
  - lia.
  - cbn [sample_children sample_type DT_merge map hd tl Z.eqb Pos.eqb DT_INFO_of
         r1_SYMNAME r1_LENGTH r1_OFFSET r1_TYPEID r2_SYMNAME r2_LENGTH r2_SYMTAG r2_COUNT
         r2_CHILDRENCOUNT r2_TYPE r2_ARRAYINDEXTYPEID r2_BASETYPE].
    constructor; [cbn; lia|]. constructor; [cbn; lia|]. constructor.
  - intros ctx0 l ty c nm0 pb' cb' (H1 & H2 & H3). unfold sample_rec_guarded.
    destruct (Z.leb_spec 0x1000 pb'); [|lia].
    destruct (Z.leb_spec 0 cb'); [|lia].
    destruct (Z.leb_spec (pb' + cb') (0x1000 + 16)); [reflexivity|lia].
Defined.

(** ** The lookup by address registers once *)

(** X17: the lookup by address registers a module once and lazily.  When no
    indexed entry is bound to the address, the image size reported is
    between 1 and 0x04000000, the debug-info record is found, its
    fingerprint is new and the allocation is granted, then
    [PDB_GetHandleFromModuleAddress] returns the fingerprint of the record
    and creates one entry: bound to the address, with the reported size,
    not failed and not loaded, and no call to [SymLoadModuleEx] is made.  A
    second lookup of the same address, for any process, returns the same
    handle and leaves the world as the first call left it, without any
    outside call. *)
Theorem X17_address_lookup_registers_once (X : EXTERNALS) (w : WORLD)
    (ctx : VMMWIN_PDB_CONTEXT) (pProcess pProcess' va : Z) (cv : PE_CODEVIEW) :
  pPdbContext w = Some ctx ->
  (forall k p e, In (k, p) (pmPdbByHash ctx) -> heap w !! p = Some e ->
                 vaModuleBase e <> va) ->
  0 < qword (PE_GetSize X (trace w) pProcess va) <= 0x04000000 ->
  PE_GetCodeViewInfo X (trace w ++ [EvPE_GetSize pProcess va]) pProcess va = Some cv ->
  ObMap_ExistsKey (pmPdbByHash ctx)
    (PDB_HashPdb X (cv_PdbFileName cv) (cv_Guid cv) (cv_Age cv)) = false ->
  Ob_Alloc X (trace w ++ [EvPE_GetSize pProcess va; EvPE_GetCodeViewInfo pProcess va])
  = true ->
  snd (PDB_GetHandleFromModuleAddress X w pProcess va)
  = PDB_HashPdb X (cv_PdbFileName cv) (cv_Guid cv) (cv_Age cv)
  /\ (exists e,
        heap (fst (PDB_GetHandleFromModuleAddress X w pProcess va))
        = heap w ++ [e]
        /\ qwHash e = PDB_HashPdb X (cv_PdbFileName cv) (cv_Guid cv) (cv_Age cv)
        /\ vaModuleBase e = va
        /\ cbModuleSize e = qword (PE_GetSize X (trace w) pProcess va)
        /\ fLoadFailed e = false /\ qwLoadAddress e = 0)
  /\ load_slots (trace (fst (PDB_GetHandleFromModuleAddress X w pProcess va)))
     = load_slots (trace w)
  /\ PDB_GetHandleFromModuleAddress X
       (fst (PDB_GetHandleFromModuleAddress X w pProcess va)) pProcess' va
     = PDB_GetHandleFromModuleAddress X w pProcess va.
Proof.
  intros Hctx Hnew Hsize Hcv Hex Hal.
  set (w2 := emit (emit w (EvPE_GetSize pProcess va)) (EvPE_GetCodeViewInfo pProcess va)).
  assert (Ht2 : trace w2
                = trace w ++ [EvPE_GetSize pProcess va; EvPE_GetCodeViewInfo pProcess va]).
  { unfold w2. cbn [emit trace]. rewrite <- app_assoc. reflexivity. }
  assert (Hmiss : PDB_GetHandleFromModuleAddress X w pProcess va
                  = PDB_AddModuleEntry X w2 va
                      (dword (qword (PE_GetSize X (trace w) pProcess va)))
                      (strstr_cut ".pdb"%string (cv_PdbFileName cv))
                      (cv_PdbFileName cv) (cv_Guid cv) (cv_Age cv)).
  { unfold PDB_GetHandleFromModuleAddress. rewrite Hctx.
    rewrite find_module_base_none by exact Hnew.
    destruct (Z.eqb_spec (qword (PE_GetSize X (trace w) pProcess va)) 0); [lia|].
    destruct (Z.ltb_spec 0x04000000 (qword (PE_GetSize X (trace w) pProcess va))); [lia|].
    cbn [orb emit trace]. rewrite Hcv. reflexivity. }
  assert (Hctx2 : pPdbContext w2 = Some ctx) by exact Hctx.
  assert (Hal2 : Ob_Alloc X (trace w2) = true) by (rewrite Ht2; exact Hal).
  assert (Hnew2 : forall k p e, In (k, p) (pmPdbByHash ctx) -> heap w2 !! p = Some e ->
                                vaModuleBase e <> va) by exact Hnew.
  rewrite Hmiss.
  rewrite (PDB_AddModuleEntry_fresh_entry X w2 ctx va _ _ _ _ _ Hctx2 Hex Hal2).
  cbn [fst snd]. split; [reflexivity|]. split; [|split].
  - eexists. split; [reflexivity|]. cbn [qwHash vaModuleBase cbModuleSize fLoadFailed
                                         qwLoadAddress].
    repeat split. unfold dword. apply Z.mod_small. lia.
  - cbn [trace]. rewrite Ht2, !load_slots_app. cbn [load_slots]. rewrite !app_nil_r.
    reflexivity.
  - unfold PDB_GetHandleFromModuleAddress. cbn [pPdbContext pmPdbByHash heap].
    rewrite ObMap_Size_nat.
    rewrite find_module_base_snoc by first [exact Hnew2 | reflexivity]. reflexivity.
Qed.

Lemma X17_address_lookup_registers_once_witness :
  PDB_GetHandleFromModuleAddress X_pe
    (fst (PDB_GetHandleFromModuleAddress X_pe world_enabled 4 0x7000)) 8 0x7000
  = PDB_GetHandleFromModuleAddress X_pe world_enabled 4 0x7000.
Proof.
  refine (proj2 (proj2 (proj2
    (X17_address_lookup_registers_once X_pe world_enabled ctx_enabled 4 8 0x7000
       (mkPE_CODEVIEW sample_guid 1 "ntkrnlmp.pdb"%string) eq_refl _ _ eq_refl eq_refl
       eq_refl)))).
  - intros k p e [].
  - vm_compute. split; [reflexivity|discriminate].
Defined.

(** ** The sub-headers of an object header *)

Lemma PDB_DisplayTypeNt_SubType_named O i nm cb :
  PDB_DisplayTypeNt_SubType O i = (Some nm, cb) -> In i [0; 1; 2; 3; 4; 6; 8].
Proof.
  unfold PDB_DisplayTypeNt_SubType.
  repeat match goal with
         | |- context [?a =? ?b] => destruct (Z.eqb_spec a b); [subst; simpl; tauto|]
         end.
  discriminate.
Qed.

Lemma PDB_DisplayTypeNt_ObjHeader_Loop_spec O InfoMask : forall n i vaType,
  exists idx,
    PDB_DisplayTypeNt_ObjHeader_Loop O InfoMask n i vaType
    = PDB_DisplayTypeNt_Chain O vaType idx
    /\ StronglySorted Z.lt idx
    /\ Forall (fun k => i <= k < i + Z.of_nat n
                       /\ PDB_DisplayTypeNt_Selected InfoMask k = true
                       /\ (exists nm, fst (PDB_DisplayTypeNt_SubType O k) = Some nm)
                       /\ snd (PDB_DisplayTypeNt_SubType O k) <> 0) idx
    /\ ((forall k, i <= k < i + Z.of_nat n ->
                   PDB_DisplayTypeNt_Selected InfoMask k = true -> In k idx)
        \/ exists k0, i <= k0 < i + Z.of_nat n /\ Forall (fun k => k < k0) idx).
Proof.
  induction n as [|n IH]; intros i va.
  - exists []. split; [reflexivity|]. split; [constructor|]. split; [constructor|].
    left. intros k Hk. lia.
  - cbn [PDB_DisplayTypeNt_ObjHeader_Loop].
    destruct (PDB_DisplayTypeNt_Selected InfoMask i) eqn:Hsel.
    + destruct (PDB_DisplayTypeNt_SubType O i) as [[nm|] cb] eqn:Hsub.
      * destruct (Z.eqb_spec cb 0) as [Hz|Hnz].
        -- exists []. split; [reflexivity|]. split; [constructor|]. split; [constructor|].
           right. exists i. split; [lia|constructor].
        -- destruct (IH (i + 1) (qword (va - cb))) as (idx & E & Hs & Hf & Hc).
           exists (i :: idx). split; [cbn [PDB_DisplayTypeNt_Chain]; rewrite Hsub, E; reflexivity|].
           split.
           { constructor; [exact Hs|]. eapply Forall_impl; [exact Hf|].
             intros k (Hk & _). lia. }
           split.
           { constructor.
             - split; [lia|]. split; [exact Hsel|]. rewrite Hsub. split; [eauto|exact Hnz].
             - eapply Forall_impl; [exact Hf|]. intros k (Hk & Hrest). split; [lia|exact Hrest]. }
           destruct Hc as [Hc|(k0 & Hk0 & Hlt)].
           ++ left. intros k Hk Hselk. destruct (Z.eq_dec k i) as [->|Hne]; [left; reflexivity|].
              right. apply Hc; [lia|exact Hselk].
           ++ right. exists k0. split; [lia|]. constructor; [lia|exact Hlt].
      * exists []. split; [reflexivity|]. split; [constructor|]. split; [constructor|].
        right. exists i. split; [lia|constructor].
    + destruct (IH (i + 1) va) as (idx & E & Hs & Hf & Hc).
      exists idx. split; [exact E|]. split; [exact Hs|]. split.
      { eapply Forall_impl; [exact Hf|]. intros k (Hk & Hrest). split; [lia|exact Hrest]. }
      destruct Hc as [Hc|(k0 & Hk0 & Hlt)].
      * left. intros k Hk Hselk. destruct (Z.eq_dec k i) as [->|Hne]; [congruence|].
        apply Hc; [lia|exact Hselk].
      * right. exists k0. split; [lia|exact Hlt].
Qed.

Lemma StronglySorted_lt_NoDup (l : list Z) : StronglySorted Z.lt l -> List.NoDup l.
Proof.
  induction 1 as [|a l Hs IH Hf]; constructor; [|exact IH].
  intros Hin. rewrite List.Forall_forall in Hf. specialize (Hf a Hin). lia.
Qed.

(** X18: the sub-headers shown for an object header.  Outside the
    object-header mode, without instance memory or without the size of
    [_OBJECT_HEADER_CREATOR_INFO] no sub-header is displayed.  Otherwise the
    nested displays are those of a strictly increasing list of indices out
    of 0, 1, 2, 3, 4, 6 and 8: at most seven, in the order of the header
    layout, each for an index that is selected (its InfoMask bit is set, or
    it is the pool header 8) and has a nonzero size, and each placed
    directly below the one before, the first directly below the object
    header.  When the pool header is displayed, the optional header of
    every set InfoMask bit is displayed as well, and the bits 5 and 7 of
    InfoMask are clear. *)
Theorem X18_object_header_plan (O : OBJECT_HEADER_SIZES) (fObjHeader fMEM : bool)
    (InfoMask vaType : Z) :
  (fObjHeader = false \/ fMEM = false \/ cb_OBJECT_HEADER_CREATOR_INFO O = 0 ->
   PDB_DisplayTypeNt_ObjHeader O fObjHeader fMEM InfoMask vaType = [])
  /\ exists idx,
       PDB_DisplayTypeNt_ObjHeader O fObjHeader fMEM InfoMask vaType
       = PDB_DisplayTypeNt_Chain O vaType idx
       /\ length (PDB_DisplayTypeNt_ObjHeader O fObjHeader fMEM InfoMask vaType)
          = length idx
       /\ (length idx <= 7)%nat
       /\ StronglySorted Z.lt idx
       /\ Forall (fun k => In k [0; 1; 2; 3; 4; 6; 8]
                          /\ PDB_DisplayTypeNt_Selected InfoMask k = true
                          /\ snd (PDB_DisplayTypeNt_SubType O k) <> 0) idx
       /\ (In 8 idx ->
           (forall k, 0 <= k < 8 -> Z.land (Z.shiftl 1 k) InfoMask <> 0 -> In k idx)
           /\ Z.land (Z.shiftl 1 5) InfoMask = 0 /\ Z.land (Z.shiftl 1 7) InfoMask = 0).
Proof.
  split.
  { unfold PDB_DisplayTypeNt_ObjHeader. intros [-> | [-> | Hz]];
      [reflexivity|rewrite andb_false_r; reflexivity|].
    rewrite Hz. rewrite andb_false_r. reflexivity. }
  unfold PDB_DisplayTypeNt_ObjHeader.
  destruct (fObjHeader && fMEM && negb (cb_OBJECT_HEADER_CREATOR_INFO O =? 0)).
  2:{ exists []. split; [reflexivity|]. split; [reflexivity|]. split; [simpl; lia|].
      split; [constructor|]. split; [constructor|]. intros []. }
  destruct (PDB_DisplayTypeNt_ObjHeader_Loop_spec O InfoMask 9 0 vaType)
    as (idx & E & Hs & Hf & Hc).
  assert (Hnamed : Forall (fun k => In k [0; 1; 2; 3; 4; 6; 8]
                                   /\ PDB_DisplayTypeNt_Selected InfoMask k = true
                                   /\ snd (PDB_DisplayTypeNt_SubType O k) <> 0) idx).
  { eapply Forall_impl; [exact Hf|]. intros k (_ & Hsel & (nm & Hnm) & Hcb).
    split; [|split; assumption].
    destruct (PDB_DisplayTypeNt_SubType O k) as [o cb] eqn:Hsub. simpl in Hnm. subst o.
    exact (PDB_DisplayTypeNt_SubType_named O k nm cb Hsub). }
  assert (Hlen : forall va, length (PDB_DisplayTypeNt_Chain O va idx) = length idx).
  { clear E Hc Hs. induction Hf as [|k idx (_ & _ & (nm & Hnm) & _) Hf IH]; intros va;
      [reflexivity|].
    cbn [PDB_DisplayTypeNt_Chain]. inversion Hnamed as [|? ? _ Hnamed']; subst.
    destruct (PDB_DisplayTypeNt_SubType O k) as [o cb]. simpl in Hnm. subst o.
    cbn [length]. rewrite (IH Hnamed'). reflexivity. }
  exists idx. split; [exact E|]. split; [rewrite E; apply Hlen|].
  split.
  { change 7%nat with (length [0; 1; 2; 3; 4; 6; 8]).
    apply NoDup_incl_length; [apply StronglySorted_lt_NoDup; exact Hs|].
    intros k Hk. rewrite List.Forall_forall in Hnamed. apply (Hnamed k Hk). }
  split; [exact Hs|]. split; [exact Hnamed|].
  intros H8.
  assert (Hall : forall k, 0 <= k < 0 + Z.of_nat 9 ->
                           PDB_DisplayTypeNt_Selected InfoMask k = true -> In k idx).
  { destruct Hc as [Hc|(k0 & Hk0 & Hlt)]; [exact Hc|].
    rewrite List.Forall_forall in Hlt. specialize (Hlt 8 H8). lia. }
  assert (Hbit : forall k, 0 <= k < 8 -> Z.land (Z.shiftl 1 k) InfoMask <> 0 -> In k idx).
  { intros k Hk Hb. apply Hall; [lia|]. unfold PDB_DisplayTypeNt_Selected.
    destruct (Z.eqb_spec (Z.land (Z.shiftl 1 k) InfoMask) 0); [contradiction|reflexivity]. }
  split; [exact Hbit|].
  rewrite List.Forall_forall in Hnamed.
  split.
  - destruct (Z.eq_dec (Z.land (Z.shiftl 1 5) InfoMask) 0) as [E0|Hne]; [exact E0|].
    destruct (Hnamed 5 (Hbit 5 ltac:(lia) Hne)) as (Hin & _).
    simpl in Hin. lia.
  - destruct (Z.eq_dec (Z.land (Z.shiftl 1 7) InfoMask) 0) as [E0|Hne]; [exact E0|].
    destruct (Hnamed 7 (Hbit 7 ltac:(lia) Hne)) as (Hin & _).
    simpl in Hin. lia.
Qed.

(** ** The kernel handle after the bootstrap *)

Lemma PDB_Initialize_Async_Kernel_ScanForPdbInfo_state (X : EXTERNALS) (V : EXTERNALS_VMM)
    w pSystemProcess :
  pPdbContext (fst (PDB_Initialize_Async_Kernel_ScanForPdbInfo X V w pSystemProcess))
  = pPdbContext w
  /\ heap (fst (PDB_Initialize_Async_Kernel_ScanForPdbInfo X V w pSystemProcess)) = heap w.
Proof.
  unfold PDB_Initialize_Async_Kernel_ScanForPdbInfo.
  destruct (kernel_vaBase V =? 0); [split; reflexivity|].
  destruct (negb _); split; reflexivity.
Qed.

(** X19: a successful bootstrap makes the kernel handle work.  When the
    bootstrap starts from a context with empty indices, as [PDB_Initialize]
    publishes it, and returns 1, the world it leaves holds one indexed
    entry: bound to the kernel base with the kernel size, not failed and
    loaded.  Its fingerprint is what the lookup of the module name NULL,
    "nt" or "ntoskrnl" and the lookup of the kernel base address return,
    the latter without any outside call; and a load request on the kernel
    pseudo-handle, if that is not zero, returns TRUE at once, with no
    outside call. *)
Theorem X19_bootstrap_serves_kernel (X : EXTERNALS) (V : EXTERNALS_VMM) (w : WORLD)
    (PdbInfo : option PE_CODEVIEW) (d : bool) (next pProcess : Z) :
  pPdbContext w = Some (mkCTX d [] [] next) ->
  PDB_HANDLE_KERNEL X <> 0 ->
  snd (PDB_Initialize_Async_Kernel_ThreadProc X V w PdbInfo) = 1 ->
  exists fp e,
    heap (fst (PDB_Initialize_Async_Kernel_ThreadProc X V w PdbInfo)) !! length (heap w)
    = Some e
    /\ (fDisabled
        <$> pPdbContext (fst (PDB_Initialize_Async_Kernel_ThreadProc X V w PdbInfo)))
       = Some false
    /\ (pmPdbByHash
        <$> pPdbContext (fst (PDB_Initialize_Async_Kernel_ThreadProc X V w PdbInfo)))
       = Some [(fp, length (heap w))]
    /\ qwHash e = fp /\ vaModuleBase e = kernel_vaBase V
    /\ cbModuleSize e = dword (kernel_cbSize V)
    /\ fLoadFailed e = false /\ qwLoadAddress e <> 0
    /\ PDB_GetHandleFromModuleName X
         (fst (PDB_Initialize_Async_Kernel_ThreadProc X V w PdbInfo)) None = fp
    /\ PDB_GetHandleFromModuleName X
         (fst (PDB_Initialize_Async_Kernel_ThreadProc X V w PdbInfo)) (Some "nt"%string) = fp
    /\ PDB_GetHandleFromModuleName X
         (fst (PDB_Initialize_Async_Kernel_ThreadProc X V w PdbInfo))
         (Some "ntoskrnl"%string) = fp
    /\ PDB_GetHandleFromModuleAddress X
         (fst (PDB_Initialize_Async_Kernel_ThreadProc X V w PdbInfo)) pProcess
         (kernel_vaBase V)
       = (fst (PDB_Initialize_Async_Kernel_ThreadProc X V w PdbInfo), fp)
    /\ PDB_LoadEnsure X (fst (PDB_Initialize_Async_Kernel_ThreadProc X V w PdbInfo))
         (PDB_HANDLE_KERNEL X)
       = (fst (PDB_Initialize_Async_Kernel_ThreadProc X V w PdbInfo), true).
Proof.
  intros Hctx Hk. unfold PDB_Initialize_Async_Kernel_ThreadProc. rewrite Hctx.
  cbv zeta. set (wp := emit w (EvVmmProcessGet 4)).
  destruct (VmmProcessGet V (trace w) 4) as [pObSystemProcess|]; [|discriminate].
  set (found := match PdbInfo with
                | Some cv => (wp, Some cv)
                | None => _
                end).
  assert (Hfound : pPdbContext (fst found) = pPdbContext w /\ heap (fst found) = heap w).
  { unfold found. destruct PdbInfo as [cv|]; [split; reflexivity|].
    destruct (PE_GetCodeViewInfo X (trace wp) pObSystemProcess (kernel_vaBase V)) as [cv|].
    - split; reflexivity.
    - destruct (PDB_Initialize_Async_Kernel_ScanForPdbInfo_state X V
                  (emit wp (EvPE_GetCodeViewInfo pObSystemProcess (kernel_vaBase V)))
                  pObSystemProcess) as [-> ->].
      split; reflexivity. }
  destruct found as [w0 [cv|]]; [|discriminate].
  cbn [fst] in Hfound. destruct Hfound as [Hctx0 Hheap0]. rewrite Hctx in Hctx0.
  set (fp := PDB_HashPdb X (cv_PdbFileName cv) (cv_Guid cv) (cv_Age cv)).
  destruct (Ob_Alloc X (trace w0)) eqn:Hal.
  2:{ unfold PDB_AddModuleEntry. rewrite Hctx0. cbn [pmPdbByHash ObMap_ExistsKey
        ObMap_GetByKey negb]. rewrite Hal. cbn [negb emit pPdbContext]. rewrite Hctx0.
      cbn [pmPdbByHash ObMap_GetByKey]. discriminate. }
  rewrite (PDB_AddModuleEntry_fresh_entry X w0 _ _ _ _ _ _ _ Hctx0 eq_refl Hal).
  fold fp. cbn [pPdbContext pmPdbByHash pmPdbByModule fDisabled qwLoadAddressNext app
                ObMap_Push ObMap_ExistsKey ObMap_GetByKey].
  rewrite Z.eqb_refl. rewrite Hheap0.
  match goal with
  | |- context [PDB_LoadEnsureEx X ?ww (length (heap w))] => set (w1 := ww)
  end.
  pose proof (PDB_LoadEnsureEx_same_registry X w1 (length (heap w))) as Hload.
  pose proof (PDB_LoadEnsureEx_true X w1 (length (heap w))) as Htrue.
  destruct (PDB_LoadEnsureEx X w1 (length (heap w))) as [w2 fLoaded]. cbn [fst snd] in *.
  destruct fLoaded; cbn [negb]; [|discriminate].
  destruct Hload as (_ & Hreg & _ & Hent).
  unfold registry_of in Hreg. cbn [w1 pPdbContext fmap option_fmap option_map
                                   fDisabled pmPdbByHash pmPdbByModule] in Hreg.
  destruct (pPdbContext w2) as [ctx2|] eqn:Hctx2; [|discriminate].
  cbn [fmap option_fmap option_map] in Hreg. injection Hreg as Hd2 Hh2 Hm2.
  destruct (Htrue eq_refl) as (e' & He' & Hnf & Hla).
  destruct (Hent (length (heap w))
              (mkPDB_ENTRY fp (kernel_vaBase V)
                 (Util_StrDupA X (trace w0 ++ [EvOb_Alloc; EvUtil_StrDupA (cv_PdbFileName cv)])
                               "ntoskrnl"%string)
                 (Util_StrDupA X (trace w0 ++ [EvOb_Alloc]) (cv_PdbFileName cv))
                 (firstn 16 (cv_Guid cv)) (cv_Age cv) (dword (kernel_cbSize V)) false None 0))
    as (e'' & He'' & Hq & Hva & _ & _ & _ & _ & Hcb).
  { unfold w1. cbn [heap]. apply list_lookup_middle. reflexivity. }
  rewrite He' in He''. injection He'' as <-.
  cbn [qwHash vaModuleBase cbModuleSize] in Hq, Hva, Hcb.
  intros _. cbn [fst snd]. exists fp, e'.
  assert (Hname : forall szModule,
            PDB_CanonicalModuleName szModule = "ntoskrnl"%string ->
            PDB_GetHandleFromModuleName X
              (set_ctx w2 (mkCTX false (pmPdbByHash ctx2) (pmPdbByModule ctx2)
                                 (qwLoadAddressNext ctx2))) szModule = fp).
  { intros szModule Hcan. unfold PDB_GetHandleFromModuleName.
    cbn [set_ctx pPdbContext fDisabled pmPdbByModule heap]. rewrite Hcan, Hm2.
    cbn [ObMap_GetByKey]. rewrite Z.eqb_refl, He', Hnf. exact Hq. }
  cbn [set_ctx pPdbContext heap fmap option_fmap option_map fDisabled pmPdbByHash].
  split; [exact He'|]. split; [reflexivity|]. split; [rewrite Hh2; reflexivity|].
  split; [exact Hq|]. split; [exact Hva|]. split; [exact Hcb|].
  split; [exact Hnf|]. split; [exact Hla|].
  split; [apply Hname; reflexivity|]. split; [apply Hname; reflexivity|].
  split; [apply Hname; reflexivity|].
  split.
  - unfold PDB_GetHandleFromModuleAddress.
    cbn [set_ctx pPdbContext pmPdbByHash heap]. rewrite ObMap_Size_nat, Hh2.
    rewrite (find_module_base_first (heap w2) [(fp, length (heap w))] (kernel_vaBase V)
               0 fp (length (heap w)) e' eq_refl He' Hva).
    + rewrite Hq. reflexivity.
    + intros j k' p' e0 Hj. lia.
    + simpl. lia.
  - unfold PDB_LoadEnsure, PDB_EntryFromHandle.
    cbn [set_ctx pPdbContext fDisabled pmPdbByHash orb].
    destruct (Z.eqb_spec (PDB_HANDLE_KERNEL X) 0); [contradiction|].
    rewrite Z.eqb_refl.
    change (mkWORLD _ (f32 w2) (heap w2) (trace w2))
      with (set_ctx w2 (mkCTX false (pmPdbByHash ctx2) (pmPdbByModule ctx2)
                              (qwLoadAddressNext ctx2))).
    rewrite (Hname (Some "ntoskrnl"%string) eq_refl), Hh2.
    cbn [ObMap_GetByKey]. rewrite Z.eqb_refl.
    unfold PDB_LoadEnsureEx. cbn [set_ctx pPdbContext heap]. rewrite He', Hnf.
    destruct (Z.eqb_spec (qwLoadAddress e') 0); [contradiction|reflexivity].
Qed.

Lemma X19_bootstrap_serves_kernel_witness :
  PDB_LoadEnsure sample_X
    (fst (PDB_Initialize_Async_Kernel_ThreadProc sample_X V_kernel world_initial None))
    (PDB_HANDLE_KERNEL sample_X)
  = (fst (PDB_Initialize_Async_Kernel_ThreadProc sample_X V_kernel world_initial None), true).
Proof.
  assert (Hk : PDB_HANDLE_KERNEL sample_X <> 0) by (vm_compute; discriminate).
  assert (Hs : snd (PDB_Initialize_Async_Kernel_ThreadProc sample_X V_kernel world_initial
                      None) = 1) by (vm_compute; reflexivity).
  destruct (X19_bootstrap_serves_kernel sample_X V_kernel world_initial None true
              VMMWIN_PDB_LOAD_ADDRESS_BASE 4 eq_refl Hk Hs)
    as (fp & e & _ & _ & _ & _ & _ & _ & _ & _ & _ & _ & _ & _ & H).
  exact H.
Defined.

(** ** One line per field *)

Lemma DT_fields_at_app iLevel l1 l2 :
  DT_fields_at iLevel (l1 ++ l2) = DT_fields_at iLevel l1 ++ DT_fields_at iLevel l2.
Proof. unfold DT_fields_at. apply omap_app. Qed.

Lemma DT_fields_at_deeper iLevel new :
  Forall (fun wszln => exists lv, DT_line_level wszln = Some lv /\ iLevel + 1 <= lv) new ->
  DT_fields_at iLevel new = [].
Proof.
  induction 1 as [|ln new (lv & Hlv & Hle) _ IH]; [reflexivity|].
  change (DT_fields_at iLevel (ln :: new))
    with (DT_fields_at iLevel ([ln] ++ new)).
  rewrite DT_fields_at_app, IH, app_nil_r.
  destruct ln as [|[] ln]; try discriminate. simpl in Hlv. injection Hlv as ->.
  unfold DT_fields_at. simpl. destruct (Z.eqb_spec lv iLevel); [lia|reflexivity].
Qed.

Lemma DT_deeper_weaken l l' c c' : l <= l' -> DT_deeper l' c c' -> DT_deeper l c c'.
Proof.
  intros Hl (HM & new & E & F). split; [exact HM|]. exists new. split; [exact E|].
  eapply Forall_impl; [exact F|]. intros ln (lv & Hlv & Hle). exists lv. split; [exact Hlv|lia].
Qed.

Lemma DT_line_prefix_field (T : DT_EXTERNALS) iLevel pe rest :
  exists tl, DT_line_prefix iLevel (DT_fix_typename T pe) ++ rest
             = PcField iLevel (dwOffset pe) (wszName pe) :: tl.
Proof.
  assert (H : dwOffset (DT_fix_typename T pe) = dwOffset pe
              /\ wszName (DT_fix_typename T pe) = wszName pe).
  { unfold DT_fix_typename.
    match goal with |- context [if ?c then _ else _] => destruct c end; [|auto].
    destruct (TI_GET_SYMNAME T (dwPtrTypeIndex pe)); auto. }
  destruct H as [Ho Hn]. unfold DT_line_prefix. rewrite Ho, Hn. cbn [app]. eauto.
Qed.

Lemma PDB_DisplayTypeNt_DoWork_Loop_fields (T : DT_EXTERNALS) rec iLevel cnt nm mem cb M :
  M <= 255 -> 0 <= iLevel ->
  (forall ctx0 ty c nm0 mem0 cb0 ctx1,
      iLevelMax ctx0 = M ->
      rec ctx0 (iLevel + 1) ty c nm0 mem0 cb0 = Some ctx1 ->
      DT_deeper (iLevel + 1) ctx0 ctx1) ->
  forall pInfo i cbLast base ctx ctx',
    iLevelMax ctx = M ->
    PDB_DisplayTypeNt_DoWork_Loop T rec iLevel cnt nm mem cb pInfo i cbLast base ctx
    = Some ctx' ->
    iLevelMax ctx' = M
    /\ exists new,
         szu8 ctx' = szu8 ctx ++ new
         /\ Forall (fun wszln => exists lv, DT_line_level wszln = Some lv /\ iLevel <= lv) new
         /\ DT_fields_at iLevel new = map (fun pe => (dwOffset pe, wszName pe)) pInfo.
Proof.
  intros HM255 Hl0 Hrec. induction pInfo as [|pe pInfo IH]; intros i last0 base ctx ctx' HM.
  - intros [= <-]. split; [exact HM|]. exists []. split; [symmetry; apply app_nil_r|].
    split; [constructor|reflexivity].
  - rewrite PDB_DisplayTypeNt_DoWork_Loop_cons. cbv zeta.
    assert (Hstep : forall ln c1 c2 i' l' b',
              (exists tl, ln = PcField iLevel (dwOffset pe) (wszName pe) :: tl) ->
              iLevelMax c1 = M -> szu8 c1 = szu8 (DT_commit ctx ln) ++ c2 ->
              Forall (fun wszln => exists lv, DT_line_level wszln = Some lv
                                               /\ iLevel + 1 <= lv) c2 ->
              PDB_DisplayTypeNt_DoWork_Loop T rec iLevel cnt nm mem cb pInfo i' l' b' c1
              = Some ctx' ->
              iLevelMax ctx' = M
              /\ exists new,
                   szu8 ctx' = szu8 ctx ++ new
                   /\ Forall (fun wszln => exists lv, DT_line_level wszln = Some lv
                                                      /\ iLevel <= lv) new
                   /\ DT_fields_at iLevel new
                      = (dwOffset pe, wszName pe)
                        :: map (fun pe => (dwOffset pe, wszName pe)) pInfo).
    { intros ln c1 c2 i' l' b' (tl & ->) HM1 Hc1 Hc2 Hloop.
      destruct (IH i' l' b' c1 ctx' HM1 Hloop) as (HM' & new & E & F & Hfields).
      split; [exact HM'|].
      exists ([PcField iLevel (dwOffset pe) (wszName pe) :: tl] ++ c2 ++ new).
      split; [rewrite E, Hc1; cbn [DT_commit szu8]; rewrite <- !app_assoc; reflexivity|].
      split.
      - apply Forall_app. split.
        + constructor; [|constructor]. exists iLevel. split; [reflexivity|lia].
        + apply Forall_app. split; [|exact F].
          eapply Forall_impl; [exact Hc2|]. intros ln (lv & Hlv & Hle).
          exists lv. split; [exact Hlv|lia].
      - rewrite !DT_fields_at_app, (DT_fields_at_deeper _ _ Hc2), Hfields.
        unfold DT_fields_at at 1. cbn [omap list_omap]. rewrite Z.eqb_refl. reflexivity. }
    destruct (dwTag _ =? SymTagUDT).
    + match goal with |- context [DT_commit ctx ?l] => set (ln := l) end.
      destruct (negb _ && (iLevel <? iLevelMax (DT_commit ctx ln)) && _) eqn:Hc.
      * apply andb_true_iff in Hc as [Hc _]. apply andb_true_iff in Hc as [_ Hc].
        apply Z.ltb_lt in Hc. cbn [DT_commit iLevelMax] in Hc. rewrite HM in Hc.
        assert (Hb : byte (iLevel + 1) = iLevel + 1)
          by (unfold byte; apply Z.mod_small; lia).
        rewrite Hb.
        match goal with
        | |- context [rec (DT_commit ctx ln) _ ?ty ?c ?n ?m ?b] =>
          pose proof (Hrec (DT_commit ctx ln) ty c n m b) as Hr;
          destruct (rec (DT_commit ctx ln) (iLevel + 1) ty c n m b) as [c1|]
        end; [|discriminate].
        destruct (Hr c1 HM eq_refl) as (HM1 & c2 & Ec & Fc).
        intros Hloop.
        apply (Hstep ln c1 c2 _ _ _ (DT_line_prefix_field T iLevel pe _)
                 (eq_trans HM1 HM) Ec Fc Hloop).
      * intros Hloop.
        apply (Hstep ln (DT_commit ctx ln) [] _ _ _ (DT_line_prefix_field T iLevel pe _)
                 HM (eq_sym (app_nil_r _)) (List.Forall_nil _) Hloop).
    + match goal with |- context [DT_commit ctx ?l] => set (ln := l) end.
      intros Hloop.
      apply (Hstep ln (DT_commit ctx ln) [] _ _ _ (DT_line_prefix_field T iLevel pe _)
               HM (eq_sym (app_nil_r _)) (List.Forall_nil _) Hloop).
Qed.

Lemma DT_deeper_enter iLevel ctx ty : DT_deeper iLevel ctx (DT_enter ctx iLevel ty).
Proof.
  split; [reflexivity|]. exists []. split; [symmetry; apply app_nil_r|constructor].
Qed.

Lemma PDB_DisplayTypeNt_DoWork_deeper (T : DT_EXTERNALS) : forall (fuel : nat)
    ctx iLevel ty cnt nm mem cb ctx',
  0 <= iLevel -> iLevelMax ctx <= 255 ->
  PDB_DisplayTypeNt_DoWork T fuel ctx iLevel ty cnt nm mem cb = Some ctx' ->
  DT_deeper iLevel ctx ctx'.
Proof.
  induction fuel as [|fuel IH]; intros ctx iLevel ty cnt nm mem cb ctx' Hl HM; [discriminate|].
  cbn [PDB_DisplayTypeNt_DoWork].
  pose proof (DT_deeper_enter iLevel ctx ty) as Hent.
  destruct (negb (DT_LocalAlloc T _ _)); [intros [= <-]; exact Hent|].
  destruct (SymGetTypeInfoEx_CHILDREN T ty cnt) as [IP1|]; [|intros [= <-]; exact Hent].
  destruct (negb (cnt =? _)); [intros [= <-]; exact Hent|].
  destruct (negb (DT_LocalAlloc T _ _)); [intros [= <-]; exact Hent|].
  destruct (SymGetTypeInfoEx_TYPES T _) as [IP2|]; [|intros [= <-]; exact Hent].
  intros Hloop.
  destruct (PDB_DisplayTypeNt_DoWork_Loop_fields T (PDB_DisplayTypeNt_DoWork T fuel)
              iLevel cnt nm mem cb (iLevelMax ctx) HM Hl)
    with (pInfo := DT_merge IP1 IP2) (i := 0) (cbLast := 0) (base := 0)
         (ctx := DT_enter ctx iLevel ty) (ctx' := ctx') as (HM' & new & E & F & _).
  - intros ctx0 ty0 c0 nm0 mem0 cb0 ctx1 HM0 Hr.
    apply (IH ctx0 (iLevel + 1) ty0 c0 nm0 mem0 cb0 ctx1); [lia|lia|exact Hr].
  - reflexivity.
  - exact Hloop.
  - split; [exact HM'|]. exists new. split; [exact E|exact F].
Qed.

Lemma DT_merge_fields IP1 : forall IP2,
  map (fun pe => (dwOffset pe, wszName pe)) (DT_merge IP1 IP2)
  = map (fun a => (r1_OFFSET a, r1_SYMNAME a)) IP1.
Proof.
  induction IP1 as [|a IP1 IH]; intros IP2; [reflexivity|].
  cbn [DT_merge map]. rewrite IH. reflexivity.
Qed.

(** X20: one line per field, in the order of the database.  When both
    requests of an invocation of the worker are answered, the invocation
    returns, keeps the lines committed before, and the lines it adds at its
    own level are exactly the children of the type, in the order the
    database lists them, each with the offset and the name the database
    gave; every other line added belongs to a nested type and is written at
    a deeper level. *)
Theorem X20_one_line_per_field (T : DT_EXTERNALS) (fuel : nat) (ctxDT : PDB_DT_CONTEXT)
    (iLevel dwTypeIndex dwChildCount : Z) (wszTypeName0 : option string)
    (pbMEM : option Z) (cbMEM : Z) (IP1 : list DT_REQ1) (IP2 : list DT_REQ2) :
  0 <= iLevel <= iLevelMax ctxDT -> iLevelMax ctxDT <= 255 ->
  (Z.to_nat (iLevelMax ctxDT - iLevel) < fuel)%nat ->
  DT_fetched T ctxDT iLevel dwTypeIndex dwChildCount IP1 IP2 ->
  exists ctxDT' new,
    PDB_DisplayTypeNt_DoWork T fuel ctxDT iLevel dwTypeIndex dwChildCount wszTypeName0
      pbMEM cbMEM = Some ctxDT'
    /\ szu8 ctxDT' = szu8 ctxDT ++ new
    /\ DT_fields_at iLevel new = map (fun a => (r1_OFFSET a, r1_SYMNAME a)) IP1
    /\ Forall (fun wszln => exists lv, DT_line_level wszln = Some lv /\ iLevel <= lv) new.
Proof.
  intros Hl HM Hfuel (Ha1 & Hc & Hn & Ha2 & Ht).
  destruct (PDB_DisplayTypeNt_DoWork_bounded T fuel ctxDT iLevel dwTypeIndex dwChildCount
              wszTypeName0 pbMEM cbMEM Hl HM Hfuel) as (ctx' & E & _).
  exists ctx'. destruct fuel as [|fuel]; [discriminate|].
  cbn [PDB_DisplayTypeNt_DoWork] in E. cbn [DT_enter calls] in E.
  rewrite Ha1, Hc, Ha2, Ht in E. cbn [negb] in E.
  rewrite <- Hn, Z.eqb_refl in E. cbn [negb] in E.
  destruct (PDB_DisplayTypeNt_DoWork_Loop_fields T (PDB_DisplayTypeNt_DoWork T fuel)
              iLevel dwChildCount wszTypeName0 pbMEM cbMEM (iLevelMax ctxDT) HM
              (proj1 Hl))
    with (pInfo := DT_merge IP1 IP2) (i := 0) (cbLast := 0) (base := 0)
         (ctx := DT_enter ctxDT iLevel dwTypeIndex) (ctx' := ctx')
    as (_ & new & En & F & Hfields).
  - intros ctx0 ty0 c0 nm0 mem0 cb0 ctx1 HM0 Hr.
    apply (PDB_DisplayTypeNt_DoWork_deeper T fuel ctx0 (iLevel + 1) ty0 c0 nm0 mem0 cb0 ctx1);
      [lia|lia|exact Hr].
  - reflexivity.
  - exact E.
  - exists new. split; [|split; [exact En|split; [|exact F]]].
    + cbn [PDB_DisplayTypeNt_DoWork DT_enter calls].
      rewrite Ha1, Hc, Ha2, Ht. cbn [negb]. rewrite <- Hn, Z.eqb_refl. cbn [negb]. exact E.
    + rewrite Hfields. apply DT_merge_fields.
Qed.

Lemma X20_one_line_per_field_witness :
  exists ctxDT' new,
    PDB_DisplayTypeNt_DoWork sample_T 3 (ctxDT_fresh 2) 0 2 2 None None 0 = Some ctxDT'
    /\ szu8 ctxDT' = szu8 (ctxDT_fresh 2) ++ new
    /\ DT_fields_at 0 new = [(0, Some "Inner"%string); (8, Some "Tail"%string)]
    /\ Forall (fun wszln => exists lv, DT_line_level wszln = Some lv /\ 0 <= lv) new.
Proof.
  apply (X20_one_line_per_field sample_T 3 (ctxDT_fresh 2) 0 2 2 None None 0
           (sample_children 2) (map sample_type [3; 10])).
  - simpl. lia.
  - simpl. lia.
  - simpl. lia.
  - repeat split.
Defined.

(** ** The child a child offset belongs to *)

Lemma PDB_GetTypeChildOffset_Loop_match (X : EXTERNALS) n : forall i w la ids nm d w' o,
  PDB_GetTypeChildOffset_Loop X n i w la ids nm d = (w', true, o) ->
  exists k t t' off,
    i <= k < i + Z.of_nat n
    /\ SymGetTypeInfo_SYMNAME X t la (nth (Z.to_nat k) ids 0) = Some nm
    /\ SymGetTypeInfo_OFFSET X t' la (nth (Z.to_nat k) ids 0) = Some off
    /\ o = dword off.
Proof.
  induction n as [|n IH]; intros i w la ids nm d w' o; [discriminate|].
  cbn [PDB_GetTypeChildOffset_Loop].
  assert (Hnext : forall w1 d1,
            PDB_GetTypeChildOffset_Loop X n (i + 1) w1 la ids nm d1 = (w', true, o) ->
            exists k t t' off,
              i <= k < i + Z.of_nat (S n)
              /\ SymGetTypeInfo_SYMNAME X t la (nth (Z.to_nat k) ids 0) = Some nm
              /\ SymGetTypeInfo_OFFSET X t' la (nth (Z.to_nat k) ids 0) = Some off
              /\ o = dword off).
  { intros w1 d1 H. destruct (IH _ _ _ _ _ _ _ _ H) as (k & t & t' & off & Hk & Hrest).
    exists k, t, t', off. split; [lia|exact Hrest]. }
  destruct (SymGetTypeInfo_SYMNAME X (trace w) la (nth (Z.to_nat i) ids 0)) as [s|] eqn:Hs;
    [|apply Hnext].
  destruct (String.eqb_spec nm s) as [<-|Hne]; [|apply Hnext].
  destruct (SymGetTypeInfo_OFFSET X _ la (nth (Z.to_nat i) ids 0)) as [off|] eqn:Ho;
    [|apply Hnext].
  intros [= _ <-]. exists i. eexists. eexists. exists off.
  split; [lia|]. split; [exact Hs|]. split; [exact Ho|reflexivity].
Qed.

(** X21: a child offset belongs to a child of exactly that name.  When
    [PDB_GetTypeChildOffset] returns TRUE, the symbol backend has reported,
    for one of the child ids it listed for a type of the loaded database, a
    name equal to the requested child name, character by character, and the
    offset handed back is the offset the backend reported for this very
    child, as a DWORD. *)
Theorem X21_child_offset_of_named_child (X : EXTERNALS) (w : WORLD) (hPDB : Z)
    (szTypeName wszTypeChildName : string) (dwTypeOffset0 : Z) :
  snd (fst (PDB_GetTypeChildOffset X w hPDB szTypeName wszTypeChildName dwTypeOffset0))
  = true ->
  exists la t0 dwTypeId cTypeChildren ChildId k t t' off,
    SymGetTypeInfo_FINDCHILDREN X t0 la dwTypeId cTypeChildren = Some ChildId
    /\ 0 <= k < cTypeChildren
    /\ SymGetTypeInfo_SYMNAME X t la (nth (Z.to_nat k) ChildId 0) = Some wszTypeChildName
    /\ SymGetTypeInfo_OFFSET X t' la (nth (Z.to_nat k) ChildId 0) = Some off
    /\ snd (PDB_GetTypeChildOffset X w hPDB szTypeName wszTypeChildName dwTypeOffset0)
       = dword off.
Proof.
  unfold PDB_GetTypeChildOffset.
  destruct (PDB_EntryFromHandle X w hPDB) as [p|]; [|discriminate].
  destruct (PDB_LoadEnsureEx X w p) as [w1 fLoaded].
  destruct fLoaded; [|discriminate]. cbn [negb].
  destruct (SymEnumTypesByName X _ _ _) as [types ok].
  destruct (negb ok || _); [discriminate|].
  destruct (SymGetTypeInfo_CHILDRENCOUNT X _ _ _) as [c|]; [|discriminate].
  destruct (dword c =? 0); [discriminate|].
  destruct (negb (LocalAlloc X _ _)); [discriminate|].
  destruct (SymGetTypeInfo_FINDCHILDREN X _ _ _ _) as [ids|] eqn:Hfc; [|discriminate].
  match goal with
  | |- context [PDB_GetTypeChildOffset_Loop X ?n 0 ?w2 ?la ids _ _] =>
    destruct (PDB_GetTypeChildOffset_Loop X n 0 w2 la ids wszTypeChildName dwTypeOffset0)
      as [[w' b] o] eqn:Hloop
  end.
  cbn [fst snd]. intros ->.
  destruct (PDB_GetTypeChildOffset_Loop_match X _ _ _ _ _ _ _ _ _ Hloop)
    as (k & t & t' & off & Hk & Hn & Ho & ->).
  do 5 eexists. exists k, t, t', off.
  split; [exact Hfc|]. split; [|auto].
  pose proof (dword_range c). rewrite Z2Nat.id in Hk by lia. lia.
Qed.

Lemma X21_child_offset_of_named_child_witness :
  exists la t0 dwTypeId cTypeChildren ChildId k t t' off,
    SymGetTypeInfo_FINDCHILDREN X_child t0 la dwTypeId cTypeChildren = Some ChildId
    /\ 0 <= k < cTypeChildren
    /\ SymGetTypeInfo_SYMNAME X_child t la (nth (Z.to_nat k) ChildId 0)
       = Some "UniqueProcessId"%string
    /\ SymGetTypeInfo_OFFSET X_child t' la (nth (Z.to_nat k) ChildId 0) = Some off
    /\ snd (PDB_GetTypeChildOffset X_child world_registered_enabled 1883368706899315958
              "_EPROCESS"%string "UniqueProcessId"%string 0)
       = dword off.
Proof.
  apply (X21_child_offset_of_named_child X_child world_registered_enabled
           1883368706899315958 "_EPROCESS"%string "UniqueProcessId"%string 0).
  vm_compute. reflexivity.
Defined.

(** ** The width of a decoded value *)

Lemma DT_read_range (T : DT_EXTERNALS) pb cb :
  0 <= DT_read T pb cb < 2 ^ (8 * Z.of_nat cb).
Proof.
  unfold DT_read. split; [apply le_decode_nonneg|].
  eapply Z.lt_le_trans; [apply le_decode_bound|].
  rewrite length_map, length_seq. lia.
Qed.

Lemma DT_bit_mask k : 0 <= k < 64 -> qword (qword (Z.shiftl 1 k) - 1) = Z.ones k.
Proof.
  intros Hk. rewrite Z.shiftl_1_l, Z.ones_equiv.
  assert (H1 : 0 < 2 ^ k) by (apply Z.pow_pos_nonneg; lia).
  assert (H2 : 2 ^ k < 2 ^ 64) by (apply Z.pow_lt_mono_r; lia).
  unfold qword. rewrite (Z.mod_small (2 ^ k)) by lia. rewrite Z.mod_small by lia. lia.
Qed.

(** X22: a decoded value fits the width of its format.  The worker decodes
    a value only for a base-type or pointer field of 1, 2, 4 or 8 bytes.
    For a plain field it is the little-endian value of the bytes of the
    field; for a bit-field of length [len] at the cursor [base] it is the
    field of [len mod 64] bits that starts at bit [base mod 64] of these
    bytes, so that a bit-field of 64 bits always shows 0.  The value is
    printed with one hexadecimal digit when it is below 10 and else with
    twice as many digits as the field has bytes, and it always fits these
    digits. *)
Theorem X22_value_fits_format (T : DT_EXTERNALS) (pe : PDB_DT_INFO)
    (cbType qwBitBase pb : Z) (wszFormat : DT_FORMAT) (v : Z) :
  In (PcValue wszFormat v) (DT_line_value T pe cbType qwBitBase (Some pb)) ->
  DT_line_value T pe cbType qwBitBase (Some pb) = [PcValue wszFormat v]
  /\ is_1248 cbType = true
  /\ (dwTag pe = SymTagBaseType \/ dwTag pe = SymTagPointerType)
  /\ v = (if qwBitFieldLength pe =? 0
          then DT_read T (pb + dwOffset pe) (Z.to_nat cbType)
          else (DT_read T (pb + dwOffset pe) (Z.to_nat cbType) / 2 ^ (qwBitBase mod 64))
               mod 2 ^ (qwBitFieldLength pe mod 64))
  /\ (qwBitFieldLength pe <> 0 -> qwBitFieldLength pe mod 64 = 0 -> v = 0)
  /\ 0 <= v < 16 ^ DT_format_digits wszFormat
  /\ (wszFormat = FmtX <-> v < 10)
  /\ (10 <= v -> DT_format_digits wszFormat = 2 * cbType).
Proof.
  unfold DT_line_value.
  destruct ((dwTag pe =? SymTagBaseType) || (dwTag pe =? SymTagPointerType)) eqn:Htag;
    [|intros []].
  destruct (is_1248 cbType) eqn:H1248; [|intros []]. cbn [andb].
  set (raw := DT_read T (pb + dwOffset pe) (Z.to_nat cbType)).
  set (val := if negb (qwBitFieldLength pe =? 0)
              then Z.land (Z.shiftr raw (qwBitBase mod 64))
                          (qword (qword (Z.shiftl 1 (qwBitFieldLength pe mod 64)) - 1))
              else raw).
  assert (Hcb : cbType = 1 \/ cbType = 2 \/ cbType = 4 \/ cbType = 8).
  { unfold is_1248 in H1248.
    destruct (Z.eqb_spec cbType 1); [tauto|]. destruct (Z.eqb_spec cbType 2); [tauto|].
    destruct (Z.eqb_spec cbType 4); [tauto|]. destruct (Z.eqb_spec cbType 8); [tauto|].
    discriminate. }
  assert (Hraw : 0 <= raw < 2 ^ (8 * cbType)).
  { pose proof (DT_read_range T (pb + dwOffset pe) (Z.to_nat cbType)) as H.
    rewrite Z2Nat.id in H by lia. exact H. }
  pose proof (Z.mod_pos_bound qwBitBase 64 ltac:(lia)) as Hbase.
  pose proof (Z.mod_pos_bound (qwBitFieldLength pe) 64 ltac:(lia)) as Hlen.
  assert (Hspec : val = if qwBitFieldLength pe =? 0 then raw
                        else (raw / 2 ^ (qwBitBase mod 64))
                             mod 2 ^ (qwBitFieldLength pe mod 64)).
  { unfold val. destruct (qwBitFieldLength pe =? 0); cbn [negb]; [reflexivity|].
    rewrite (DT_bit_mask _ Hlen), Z.land_ones by lia.
    rewrite Z.shiftr_div_pow2 by lia. reflexivity. }
  assert (Hval : 0 <= val < 2 ^ (8 * cbType)).
  { rewrite Hspec. destruct (qwBitFieldLength pe =? 0); [exact Hraw|].
    assert (Hp : 0 < 2 ^ (qwBitBase mod 64)) by (apply Z.pow_pos_nonneg; lia).
    assert (Hq : 0 < 2 ^ (qwBitFieldLength pe mod 64)) by (apply Z.pow_pos_nonneg; lia).
    assert (Hd : 0 <= raw / 2 ^ (qwBitBase mod 64) <= raw).
    { split; [apply Z.div_pos; lia|]. apply Z.div_le_upper_bound; [exact Hp|]. nia. }
    pose proof (Z.mod_pos_bound (raw / 2 ^ (qwBitBase mod 64))
                  (2 ^ (qwBitFieldLength pe mod 64)) Hq) as Hm.
    pose proof (Z.mod_le (raw / 2 ^ (qwBitBase mod 64))
                  (2 ^ (qwBitFieldLength pe mod 64)) (proj1 Hd) Hq). lia. }
  intros [Heq|[]]. injection Heq as <- <-.
  split; [reflexivity|]. split; [reflexivity|].
  split.
  { apply orb_true_iff in Htag as [H|H]; apply Z.eqb_eq in H; tauto. }
  fold val. split; [exact Hspec|].
  split.
  { intros Hne H0. rewrite Hspec.
    destruct (Z.eqb_spec (qwBitFieldLength pe) 0); [contradiction|].
    rewrite H0. apply Z.mod_1_r. }
  destruct (Z.ltb_spec val 10) as [Hlt|Hge].
  - split; [cbn [DT_format_digits]; lia|]. split; [tauto|lia].
  - destruct Hcb as [-> | [-> | [-> | ->]]]; cbn [Z.eqb Pos.eqb DT_format_digits];
      (split; [change 16 with (2 ^ 4); rewrite <- Z.pow_mul_r by lia; simpl in *; lia|]);
      (split; [split; [discriminate|lia]|intros _; reflexivity]).
Qed.

Lemma X22_value_fits_format_witness :
  DT_line_value sample_T_ab
    (DT_INFO_of (mkDT_REQ1 (Some "Tail"%string) 64 8 10) (sample_type 10))
    1 0 (Some 0x1000)
  = [PcValue FmtX 0]
  /\ is_1248 1 = true
  /\ (dwTag (DT_INFO_of (mkDT_REQ1 (Some "Tail"%string) 64 8 10) (sample_type 10))
      = SymTagBaseType
      \/ dwTag (DT_INFO_of (mkDT_REQ1 (Some "Tail"%string) 64 8 10) (sample_type 10))
         = SymTagPointerType)
  /\ 0 = (if qwBitFieldLength
               (DT_INFO_of (mkDT_REQ1 (Some "Tail"%string) 64 8 10) (sample_type 10)) =? 0
          then DT_read sample_T_ab
                 (0x1000 + dwOffset (DT_INFO_of (mkDT_REQ1 (Some "Tail"%string) 64 8 10)
                                                (sample_type 10)))
                 (Z.to_nat 1)
          else (DT_read sample_T_ab
                  (0x1000 + dwOffset (DT_INFO_of (mkDT_REQ1 (Some "Tail"%string) 64 8 10)
                                                 (sample_type 10)))
                  (Z.to_nat 1) / 2 ^ (0 mod 64))
               mod 2 ^ (qwBitFieldLength
                          (DT_INFO_of (mkDT_REQ1 (Some "Tail"%string) 64 8 10)
                                      (sample_type 10)) mod 64))
  /\ (qwBitFieldLength (DT_INFO_of (mkDT_REQ1 (Some "Tail"%string) 64 8 10) (sample_type 10))
      <> 0 ->
      qwBitFieldLength (DT_INFO_of (mkDT_REQ1 (Some "Tail"%string) 64 8 10) (sample_type 10))
      mod 64 = 0 -> 0 = 0)
  /\ 0 <= 0 < 16 ^ DT_format_digits FmtX
  /\ (FmtX = FmtX <-> 0 < 10)
  /\ (10 <= 0 -> DT_format_digits FmtX = 2 * 1).
Proof.
  apply (X22_value_fits_format sample_T_ab
           (DT_INFO_of (mkDT_REQ1 (Some "Tail"%string) 64 8 10) (sample_type 10))
           1 0 0x1000 FmtX 0).
  left. reflexivity.
Defined.
